(** * Equipment dataset API: upload, retention, summary and report

    A shallow embedding of [api/models.py], [api/serializers.py] and
    [api/views.py] (class [DatasetViewSet]): the two tables and the file
    storage become an explicit state, every view action is a computation in
    a state-and-exception monad over it, and the libraries the views call
    (pandas, the ORM, reportlab) are modelled by the part of their behaviour
    the views rely on.

    Numbers.  A Python float is the exact value of a double (a rational), an
    infinity or NaN.  The sum and the quotient of [Series.mean()] are rounded
    as float64 arithmetic rounds them (to the nearest double, ties to the
    even one, overflow to an infinity).  [round], the [f] format and the
    layout arithmetic of the report are read on exact values: negative zero
    and the rounding of the page coordinates are not represented. *)

From Stdlib Require Import QArith Qround Qabs Lqa Qpower.
From stdpp Require Import base list gmap strings sorting pretty.

#[local] Set Warnings "-clear-no-such-hyp".
#[local] Set Default Proof Using "Type".

Open Scope string_scope.
Open Scope list_scope.
Open Scope Z_scope.

(** ** Python floats and text formatting *)

Inductive pyfloat :=
| Num (q : Q)
| Inf (negative : bool)
| NaN.

(** The values of a float list that are not NaN, in order. *)
Definition dropna (xs : list pyfloat) : list pyfloat :=
  omap (λ x, match x with NaN => None | _ => Some x end) xs.

(** The exact sum of rationals. *)
Definition Qsum (qs : list Q) : Q := foldl Qplus 0%Q qs.

(** Nearest integer, ties to the even one (the rule of [round] and of the
    [f] format on the exact value). *)
Definition round_half_even (q : Q) : Z :=
  let f := Qfloor q in
  match Qcompare (q - inject_Z f) (1 # 2) with
  | Lt => f
  | Gt => f + 1
  | Eq => if Z.even f then f else f + 1
  end.

Definition pow10 (n : nat) : Z := 10 ^ Z.of_nat n.

(** *** float64 arithmetic *)

Definition pow2 (e : Z) : Q := (2 ^ e)%Q.

(** The exponent of the binade of [q]: 2^e <= |q| < 2^(e+1), for [q] not 0. *)
Definition ilog2 (q : Q) : Z :=
  let k := Z.log2 (Z.abs (Qnum q)) - Z.log2 (Zpos (Qden q)) in
  if Qle_bool (pow2 k) (Qabs q) then k else k - 1.

(** The double nearest to [q], ties to the even significand: 53 significant
    bits, the smallest spacing 2^-1074 (subnormal numbers), and an infinity
    once the rounded value reaches 2^1024. *)
Definition to_float64 (q : Q) : pyfloat :=
  if Qeq_bool q 0 then Num 0
  else
    let e := Z.max (ilog2 q - 52) (-1074) in
    let r := (inject_Z (round_half_even (q / pow2 e)) * pow2 e)%Q in
    if Qle_bool (pow2 1024) (Qabs r)
    then Inf (if Qlt_le_dec q 0 then true else false)
    else Num (Qred r).

Definition is_zero (x : pyfloat) : bool :=
  match x with Num q => Qeq_bool q 0 | _ => false end.

(** [a + b] on floats.  (Adding zero changes nothing.) *)
Definition float_add (a b : pyfloat) : pyfloat :=
  if is_zero a then b
  else if is_zero b then a
  else
    match a, b with
    | NaN, _ | _, NaN => NaN
    | Inf s, Inf t => if Bool.eqb s t then Inf s else NaN
    | Inf s, Num _ | Num _, Inf s => Inf s
    | Num x, Num y => to_float64 (x + y)
    end.

(** [a / n] for a float [a] and a count [n] of at least one. *)
Definition float_div (a : pyfloat) (n : Z) : pyfloat :=
  match a with
  | Num x => to_float64 (x / inject_Z n)
  | _ => a
  end.

(** The order in which a column is added up is the library's business:
    numpy keeps eight running sums over blocks and adds them in pairs,
    bottleneck keeps one running sum in row order.  A plan fixes an order:
    one running sum over the values as they come, or the values at some
    positions added up by one plan, the others by another, and the two
    results added. *)
Inductive Plan :=
| InOrder
| Split (first : nat → bool) (l r : Plan).

(** The values at the positions [keep] picks, in order. *)
Fixpoint pick {A} (keep : nat → bool) (xs : list A) : list A :=
  match xs with
  | [] => []
  | x :: rest =>
      if keep O then x :: pick (keep ∘ S) rest else pick (keep ∘ S) rest
  end.

Fixpoint sum_by (plan : Plan) (xs : list pyfloat) : pyfloat :=
  match plan with
  | InOrder => foldl float_add (Num 0) xs
  | Split first l r =>
      float_add (sum_by l (pick first xs)) (sum_by r (pick (negb ∘ first) xs))
  end.

(** [round(x, ndigits)] *)
Definition py_round (x : pyfloat) (ndigits : nat) : pyfloat :=
  match x with
  | NaN => NaN
  | Inf s => Inf s
  | Num q =>
      Num (Qred (inject_Z (round_half_even (q * inject_Z (pow10 ndigits)))
                 / inject_Z (pow10 ndigits)))
  end.

(** [s.zfill(width)]: zeros in front, up to [width] characters. *)
Fixpoint zfill_go (fuel width : nat) (s : string) : string :=
  match fuel with
  | O => s
  | S fuel' =>
      if decide (String.length s < width)%nat
      then zfill_go fuel' width ("0" +:+ s)
      else s
  end.

Definition zfill (width : nat) (s : string) : string := zfill_go width width s.

(** [f"{x:.<prec>f}"] *)
Definition format_f (prec : nat) (x : pyfloat) : string :=
  match x with
  | NaN => "nan"
  | Inf s => if s then "-inf" else "inf"
  | Num q =>
      let n := Z.abs (round_half_even (q * inject_Z (pow10 prec))) in
      let sign := if Qlt_le_dec q 0 then "-" else "" in
      let int_part := pretty (n `div` pow10 prec) in
      match prec with
      | O => sign +:+ int_part
      | S _ => sign +:+ int_part +:+ "." +:+ zfill prec (pretty (n `mod` pow10 prec))
      end
  end.

(** [s.endswith(suffix)] *)
Definition endswith (s suffix : string) : bool :=
  String.prefix (String.rev suffix) (String.rev s).

(** [", ".join(l)] *)
Fixpoint join (sep : string) (l : list string) : string :=
  match l with
  | [] => ""
  | [x] => x
  | x :: rest => x +:+ sep +:+ join sep rest
  end.

(** ** Exceptions and the state-and-exception monad *)

Inductive Exn :=
| EmptyDataError (msg : string)   (* pd.errors.EmptyDataError *)
| Http404                         (* raised by get_object *)
| OtherError (msg : string).      (* any other Exception, with its str() *)

Definition str (e : Exn) : string :=
  match e with
  | EmptyDataError m => m
  | Http404 => "Not found."
  | OtherError m => m
  end.

(** ** The models ([api/models.py]) *)

Record User := { pk : Z; username : string }.

Module EquipmentDataset.
Record t := {
  id : Z;
  name : string;
  uploaded_by : User;
  uploaded_at : Z;            (* auto_now_add: the clock at creation *)
  file : option string;       (* FileField: the stored path, None once deleted *)
  total_count : Z;
  avg_flowrate : pyfloat;
  avg_pressure : pyfloat;
  avg_temperature : pyfloat;
}.

Definition with_file (d : t) (f : option string) : t :=
  {| id := id d; name := name d; uploaded_by := uploaded_by d;
     uploaded_at := uploaded_at d; file := f; total_count := total_count d;
     avg_flowrate := avg_flowrate d; avg_pressure := avg_pressure d;
     avg_temperature := avg_temperature d |}.

(** [class Meta: ordering = ['-uploaded_at']]: [a] may come before [b]. *)
Definition ordering (a b : t) : Prop := (uploaded_at b ≤ uploaded_at a)%Z.

#[global] Instance ordering_dec : RelDecision ordering.
Proof. intros a b. unfold ordering. apply _. Defined.
End EquipmentDataset.

Module Equipment.
Record t := {
  id : Z;
  dataset : Z;                (* ForeignKey(EquipmentDataset, on_delete=CASCADE) *)
  name : string;
  type : string;
  flowrate : pyfloat;
  pressure : pyfloat;
  temperature : pyfloat;
}.

Definition with_id (e : t) (i : Z) : t :=
  {| id := i; dataset := dataset e; name := name e; type := type e;
     flowrate := flowrate e; pressure := pressure e;
     temperature := temperature e |}.
End Equipment.

(** ** The store: two tables and the file storage *)

(** Side effects on the store, in the order they happen. *)
Inductive Event :=
| FileSaved (path : string)
| RowInserted (id : Z)
| RecordsInserted (dataset : Z) (count : nat)
| FileDeleted (path : string)
| RowDeleted (id : Z).

Record DB := {
  datasets : gmap Z EquipmentDataset.t;    (* rows by primary key *)
  equipments : list Equipment.t;           (* rows in insertion order *)
  storage : gset string;                   (* paths present in the file storage *)
  next_dataset_id : Z;
  next_equipment_id : Z;
  trace : list Event;
}.

Definition empty_db : DB :=
  {| datasets := ∅; equipments := []; storage := ∅;
     next_dataset_id := 1; next_equipment_id := 1; trace := [] |}.

(** What the surroundings decide during one request: the clock, which
    storage or database operation fails (with the text of its exception),
    and the order in which the installed libraries add up a column of a
    given length. *)
Record Env := {
  now : Z;
  storage_save_error : option string;
  insert_error : option string;
  bulk_create_error : option string;
  storage_delete_error : string → option string;
  row_delete_error : Z → option string;
  summation : nat → Plan;
}.

Definition no_faults (t : Z) : Env :=
  {| now := t; storage_save_error := None; insert_error := None;
     bulk_create_error := None; storage_delete_error := λ _, None;
     row_delete_error := λ _, None; summation := λ _, InOrder |}.

(** A pure computation that may raise. *)
#[global] Instance Exn_ret : MRet (sum Exn) := λ A (a : A), inr a.
#[global] Instance Exn_bind : MBind (sum Exn) := λ A B (f : A → Exn + B) (r : Exn + A),
  match r with
  | inl e => inl e
  | inr a => f a
  end.

(** A view body: it reads and writes the store and may raise.  Writes made
    before an exception stay (the views open no transaction). *)
Definition M (A : Type) : Type := DB → (Exn + A) * DB.

#[global] Instance M_ret : MRet M := λ A (a : A) db, (inr a, db).
#[global] Instance M_bind : MBind M := λ A B (f : A → M B) (m : M A) db,
  match m db with
  | (inl e, db') => (inl e, db')
  | (inr a, db') => f a db'
  end.

Definition raise {A} (e : Exn) : M A := λ db, (inl e, db).
Definition get_db : M DB := λ db, (inr db, db).
Definition modify (f : DB → DB) : M unit := λ db, (inr (), f db).
Definition lift {A} (r : Exn + A) : M A :=
  match r with inl e => raise e | inr a => mret a end.

(** [for x in l: body(x)] *)
Fixpoint for_each {A} (l : list A) (body : A → M unit) : M unit :=
  match l with
  | [] => mret ()
  | x :: rest => body x ;; for_each rest body
  end.

Definition log (e : Event) (db : DB) : DB :=
  {| datasets := datasets db; equipments := equipments db;
     storage := storage db; next_dataset_id := next_dataset_id db;
     next_equipment_id := next_equipment_id db; trace := trace db ++ [e] |}.

Definition set_datasets (f : gmap Z EquipmentDataset.t → gmap Z EquipmentDataset.t)
    (db : DB) : DB :=
  {| datasets := f (datasets db); equipments := equipments db;
     storage := storage db; next_dataset_id := next_dataset_id db;
     next_equipment_id := next_equipment_id db; trace := trace db |}.

Definition set_equipments (f : list Equipment.t → list Equipment.t) (db : DB) : DB :=
  {| datasets := datasets db; equipments := f (equipments db);
     storage := storage db; next_dataset_id := next_dataset_id db;
     next_equipment_id := next_equipment_id db; trace := trace db |}.

Definition set_storage (f : gset string → gset string) (db : DB) : DB :=
  {| datasets := datasets db; equipments := equipments db;
     storage := f (storage db); next_dataset_id := next_dataset_id db;
     next_equipment_id := next_equipment_id db; trace := trace db |}.

Definition bump_dataset_id (db : DB) : DB :=
  {| datasets := datasets db; equipments := equipments db;
     storage := storage db; next_dataset_id := next_dataset_id db + 1;
     next_equipment_id := next_equipment_id db; trace := trace db |}.

Definition bump_equipment_id (n : nat) (db : DB) : DB :=
  {| datasets := datasets db; equipments := equipments db;
     storage := storage db; next_dataset_id := next_dataset_id db;
     next_equipment_id := next_equipment_id db + Z.of_nat n; trace := trace db |}.

(** *** The ORM operations the views use *)

(** [EquipmentDataset.objects.all()], in the default ordering.  Rows with
    the same [uploaded_at] come in one fixed order here; the database leaves
    their order open, and it may differ between two queries. *)
Definition objects_all (db : DB) : list EquipmentDataset.t :=
  merge_sort EquipmentDataset.ordering (snd <$> map_to_list (datasets db)).

(** [dataset.equipments.all()] *)
Definition equipments_of (db : DB) (dataset_id : Z) : list Equipment.t :=
  filter (λ e, Equipment.dataset e = dataset_id) (equipments db).

(** The storage never overwrites: a taken name is replaced by a free one.
    (The real storage puts a random suffix before the extension; the model
    appends a counter.) *)
Fixpoint alternative_name (fuel k : nat) (name : string) (taken : gset string) : string :=
  let candidate := name +:+ "_" +:+ pretty k in
  match fuel with
  | O => candidate
  | S fuel' =>
      if decide (candidate ∈ taken) then alternative_name fuel' (S k) name taken
      else candidate
  end.

Definition get_available_name (name : string) (taken : gset string) : string :=
  if decide (name ∈ taken) then alternative_name (size taken) 1 name taken else name.

(** [EquipmentDataset.objects.create(...)]: the FileField writes the upload
    to [datasets/] while the row is prepared, then the row is inserted. *)
Definition objects_create (env : Env) (name : string) (user : User)
    (total_count : Z) (avg_flowrate avg_pressure avg_temperature : pyfloat)
    : M EquipmentDataset.t :=
  match storage_save_error env with
  | Some msg => raise (OtherError msg)
  | None =>
      db ← get_db;
      let path := get_available_name ("datasets/" +:+ name) (storage db) in
      modify (λ db, log (FileSaved path) (set_storage (λ s, {[path]} ∪ s) db)) ;;
      match insert_error env with
      | Some msg => raise (OtherError msg)
      | None =>
          let obj := {| EquipmentDataset.id := next_dataset_id db;
                        EquipmentDataset.name := name;
                        EquipmentDataset.uploaded_by := user;
                        EquipmentDataset.uploaded_at := now env;
                        EquipmentDataset.file := Some path;
                        EquipmentDataset.total_count := total_count;
                        EquipmentDataset.avg_flowrate := avg_flowrate;
                        EquipmentDataset.avg_pressure := avg_pressure;
                        EquipmentDataset.avg_temperature := avg_temperature |} in
          modify (λ db, log (RowInserted (EquipmentDataset.id obj))
                          (bump_dataset_id
                             (set_datasets (insert (EquipmentDataset.id obj) obj) db))) ;;
          mret obj
      end
  end.

(** Primary keys for a batch, counting up from [first]. *)
Fixpoint assign_ids (first : Z) (objs : list Equipment.t) : list Equipment.t :=
  match objs with
  | [] => []
  | e :: rest => Equipment.with_id e first :: assign_ids (first + 1) rest
  end.

(** [Equipment.objects.bulk_create(objs)]: all rows or none. *)
Definition bulk_create (env : Env) (dataset_id : Z) (objs : list Equipment.t) : M unit :=
  match bulk_create_error env with
  | Some msg => raise (OtherError msg)
  | None =>
      modify (λ db, log (RecordsInserted dataset_id (length objs))
                      (bump_equipment_id (length objs)
                         (set_equipments
                            (λ es, es ++ assign_ids (next_equipment_id db) objs) db)))
  end.

(** [obj.file.delete()]: nothing without a file; otherwise the file leaves
    the storage (a path that is already gone is not an error), the field is
    cleared and the row saved. *)
Definition file_delete (env : Env) (obj : EquipmentDataset.t) : M EquipmentDataset.t :=
  match EquipmentDataset.file obj with
  | None => mret obj
  | Some path =>
      match storage_delete_error env path with
      | Some msg => raise (OtherError msg)
      | None =>
          let obj' := EquipmentDataset.with_file obj None in
          modify (λ db, log (FileDeleted path) (set_storage (λ s, s ∖ {[path]}) db)) ;;
          modify (set_datasets (insert (EquipmentDataset.id obj') obj')) ;;
          mret obj'
      end
  end.

(** [obj.delete()]: the row goes, and with it (CASCADE) its equipment rows. *)
Definition model_delete (env : Env) (obj : EquipmentDataset.t) : M unit :=
  match row_delete_error env (EquipmentDataset.id obj) with
  | Some msg => raise (OtherError msg)
  | None =>
      modify (λ db, log (RowDeleted (EquipmentDataset.id obj))
                      (set_equipments
                         (filter (λ e, Equipment.dataset e ≠ EquipmentDataset.id obj))
                         (set_datasets (delete (EquipmentDataset.id obj)) db)))
  end.

(** [get_object()]: the row with this primary key, or Http404. *)
Definition get_object (pk : Z) : M EquipmentDataset.t :=
  db ← get_db;
  match datasets db !! pk with
  | Some d => mret d
  | None => raise Http404
  end.

(** ** pandas: the frame [pd.read_csv] returns *)

(** A parsed field: a number (a missing value is NaN) or text. *)
Inductive Cell :=
| CFloat (x : pyfloat)
| CStr (s : string).

Definition is_text (c : Cell) : bool :=
  match c with CStr _ => true | CFloat _ => false end.

Record DataFrame := {
  columns : list string;       (* the header, in file order *)
  rows : list (list Cell);     (* the data rows, cells in header order *)
}.

(** What [pd.read_csv] makes of the uploaded bytes. *)
Inductive Csv :=
| NoColumns                    (* nothing to parse: EmptyDataError *)
| Unparsable (msg : string)    (* any other reader error *)
| Table (df : DataFrame).

Definition read_csv (c : Csv) : Exn + DataFrame :=
  match c with
  | NoColumns => inl (EmptyDataError "No columns to parse from file")
  | Unparsable msg => inl (OtherError msg)
  | Table df => inr df
  end.

(** [len(df)] *)
Definition len (df : DataFrame) : Z := Z.of_nat (length (rows df)).

Definition column_index (df : DataFrame) (col : string) : option nat :=
  fst <$> list_find (λ c, c = col) (columns df).

Definition KeyError (key : string) : Exn := OtherError ("'" +:+ key +:+ "'").

Definition cell_at (i : nat) (row : list Cell) : Cell :=
  default (CFloat NaN) (row !! i).

(** [df[col]] *)
Definition getitem_column (df : DataFrame) (col : string) : Exn + list Cell :=
  match column_index df col with
  | None => inl (KeyError col)
  | Some i => inr (cell_at i <$> rows df)
  end.

(** [row[col]] for a row of [df.iterrows()] *)
Definition getitem_row (df : DataFrame) (row : list Cell) (col : string) : Exn + Cell :=
  match column_index df col with
  | None => inl (KeyError col)
  | Some i => inr (cell_at i row)
  end.

Definition cell_floats (cells : list Cell) : list pyfloat :=
  omap (λ c, match c with CFloat x => Some x | CStr _ => None end) cells.

(** The mean of the values that are not NaN, NaN when there is none: their
    float64 sum, added up in the order of [plan], divided by their number. *)
Definition nanmean (plan : nat → Plan) (xs : list pyfloat) : pyfloat :=
  match dropna xs with
  | [] => NaN
  | x :: rest =>
      float_div (sum_by (plan (length (x :: rest))) (x :: rest))
        (Z.of_nat (length (x :: rest)))
  end.

(** [float(cell)] *)
Definition float (c : Cell) : Exn + pyfloat :=
  match c with
  | CFloat x => inr x
  | CStr s => inl (OtherError ("could not convert string to float: '" +:+ s +:+ "'"))
  end.

(** ** Responses *)

#[local] Unset Elimination Schemes.
Inductive JSON :=
| JInt (z : Z)
| JFloat (x : pyfloat)
| JStr (s : string)
| JTime (t : Z)
| JCounts (m : gmap string Z)
| JList (l : list JSON)
| JDict (d : list (string * JSON)).
#[local] Set Elimination Schemes.

Record Response := { data : JSON; status : Z }.

Definition HTTP_200_OK : Z := 200.
Definition HTTP_201_CREATED : Z := 201.
Definition HTTP_400_BAD_REQUEST : Z := 400.

(** [d.get(key)] of a response body. *)
Definition jget (key : string) (j : JSON) : option JSON :=
  match j with
  | JDict d => snd <$> (list_find (λ kv, kv.1 = key) d ≫= λ found, Some found.2)
  | _ => None
  end.

(** [list(d.keys())] *)
Definition jkeys (j : JSON) : list string :=
  match j with
  | JDict d => fst <$> d
  | _ => []
  end.

(** ** Serializers ([api/serializers.py]) *)

Definition EquipmentSerializer (e : Equipment.t) : JSON :=
  JDict [("id", JInt (Equipment.id e)); ("name", JStr (Equipment.name e));
         ("type", JStr (Equipment.type e)); ("flowrate", JFloat (Equipment.flowrate e));
         ("pressure", JFloat (Equipment.pressure e));
         ("temperature", JFloat (Equipment.temperature e))].

Definition DatasetSummarySerializer (db : DB) (d : EquipmentDataset.t) : JSON :=
  JDict [("id", JInt (EquipmentDataset.id d)); ("name", JStr (EquipmentDataset.name d));
         ("uploaded_at", JTime (EquipmentDataset.uploaded_at d));
         ("total_count", JInt (EquipmentDataset.total_count d));
         ("avg_flowrate", JFloat (EquipmentDataset.avg_flowrate d));
         ("avg_pressure", JFloat (EquipmentDataset.avg_pressure d));
         ("avg_temperature", JFloat (EquipmentDataset.avg_temperature d));
         ("equipment_count",
          JInt (Z.of_nat (length (equipments_of db (EquipmentDataset.id d)))))].

Definition DatasetDetailSerializer (db : DB) (d : EquipmentDataset.t) : JSON :=
  JDict [("id", JInt (EquipmentDataset.id d)); ("name", JStr (EquipmentDataset.name d));
         ("uploaded_at", JTime (EquipmentDataset.uploaded_at d));
         ("total_count", JInt (EquipmentDataset.total_count d));
         ("avg_flowrate", JFloat (EquipmentDataset.avg_flowrate d));
         ("avg_pressure", JFloat (EquipmentDataset.avg_pressure d));
         ("avg_temperature", JFloat (EquipmentDataset.avg_temperature d));
         ("equipments",
          JList (EquipmentSerializer <$> equipments_of db (EquipmentDataset.id d)))].

(** ** The type distribution (the dict built in [summary] and [generate_pdf]) *)

(** [dist[t] = dist.get(t, 0) + 1] for every row, in order. *)
Definition count_type (dist : gmap string Z) (e : Equipment.t) : gmap string Z :=
  <[Equipment.type e := default 0 (dist !! Equipment.type e) + 1]> dist.

Definition type_distribution (equipments : list Equipment.t) : gmap string Z :=
  foldl count_type ∅ equipments.

(** The order of [sorted(dist.items())]: tuples compare by key, then count. *)
Definition item_le (a b : string * Z) : Prop :=
  (a.1 ≠ b.1 ∧ String.le a.1 b.1) ∨ (a.1 = b.1 ∧ a.2 ≤ b.2).

#[global] Instance item_le_dec : RelDecision item_le.
Proof. intros a b. unfold item_le. apply _. Defined.

Definition sorted_items (dist : gmap string Z) : list (string * Z) :=
  merge_sort item_le (map_to_list dist).

(** ** The report canvas (reportlab) *)

Inductive CanvasOp :=
| SetFont (font : string) (size : Z)
| DrawString (x y : Q) (text : string)
| Line (x1 y1 x2 y2 : Q)
| ShowPage
| Save.

Record FileResponse := {
  document : list CanvasOp;
  as_attachment : bool;
  attachment_name : string;
}.

Definition inch : Q := 72.
Definition letter : Q * Q := (612, 792)%Q.

(** [n * inch] and [y - d] on exact values, kept in lowest terms.  The
    float64 results differ from these by rounding, which matters only where
    a height is compared with a threshold it equals. *)
Definition inches (n : Q) : Q := Qred (n * inch).
Definition down (y d : Q) : Q := Qred (y - d).

(** [name[:n]] *)
Definition prefix_chars (n : nat) (s : string) : string := String.substring 0 n s.

(** ** The views ([api/views.py], class [DatasetViewSet]) *)

Record UploadedFile := { filename : string; content : Csv }.

(** A request whose body has been parsed: [request.FILES.get('file')] is
    the file or [None].  A body that cannot be parsed is not a [Request]. *)
Record Request := { user : User; FILES : option UploadedFile }.

Definition required_cols : list string :=
  ["Equipment Name"; "Type"; "Flowrate"; "Pressure"; "Temperature"].

(** [try: body  except EmptyDataError: h1  except Exception as e: h2(e)] *)
Definition try_except {A} (body : M A) (on_empty : M A) (on_other : Exn → M A) : M A :=
  λ db,
    match body db with
    | (inr a, db') => (inr a, db')
    | (inl (EmptyDataError _), db') => on_empty db'
    | (inl e, db') => on_other e db'
    end.

Definition error_body (msg : string) : JSON := JDict [("error", JStr msg)].

Section Views.

(** Texts produced by the libraries, not needed digit by digit:
    [str] of a number, the [TypeError] text of [Series.mean] on a column
    with text in it, and [strftime('%Y-%m-%d %H:%M:%S')]. *)
Variable py_str : pyfloat → string.
Variable mean_error_text : list Cell → string.
Variable strftime : Z → string.

(** [Series.mean()]: the mean of the values that are not NaN; on a column
    holding text it raises (a TypeError). *)
Definition mean (env : Env) (cells : list Cell) : Exn + pyfloat :=
  if existsb is_text cells then inl (OtherError (mean_error_text cells))
  else inr (nanmean (summation env) (cell_floats cells)).

(** The value a CharField stores for a cell. *)
Definition char_value (c : Cell) : string :=
  match c with
  | CStr s => s
  | CFloat x => py_str x
  end.

(** One [Equipment(dataset=dataset, name=row[...], ...)] of the loop over
    [df.iterrows()]. *)
Definition equipment_of_row (df : DataFrame) (dataset : EquipmentDataset.t)
    (row : list Cell) : Exn + Equipment.t :=
  name ← getitem_row df row "Equipment Name";
  type ← getitem_row df row "Type";
  flowrate ← getitem_row df row "Flowrate" ≫= float;
  pressure ← getitem_row df row "Pressure" ≫= float;
  temperature ← getitem_row df row "Temperature" ≫= float;
  inr {| Equipment.id := 0;
         Equipment.dataset := EquipmentDataset.id dataset;
         Equipment.name := char_value name;
         Equipment.type := char_value type;
         Equipment.flowrate := flowrate;
         Equipment.pressure := pressure;
         Equipment.temperature := temperature |}.

Fixpoint equipment_objects (df : DataFrame) (dataset : EquipmentDataset.t)
    (rows : list (list Cell)) : Exn + list Equipment.t :=
  match rows with
  | [] => inr []
  | row :: rest =>
      obj ← equipment_of_row df dataset row;
      objs ← equipment_objects df dataset rest;
      inr (obj :: objs)
  end.

(** Lines 103-107: every dataset after the fifth of the default ordering
    loses its file, then its row. *)
Definition keep_last_5 (env : Env) : M unit :=
  db ← get_db;
  let old_datasets := drop 5 (objects_all db) in
  for_each old_datasets (λ old_dataset,
    old_dataset ← file_delete env old_dataset;
    model_delete env old_dataset).

(** Lines 69-101 of [upload]: the statistics, the dataset row with its file,
    and one equipment row per data row. *)
Definition create_dataset (env : Env) (request : Request) (file : UploadedFile)
    (df : DataFrame) : M EquipmentDataset.t :=
  let total_count := len df in
  avg_flowrate ← lift (getitem_column df "Flowrate" ≫= mean env);
  avg_pressure ← lift (getitem_column df "Pressure" ≫= mean env);
  avg_temperature ← lift (getitem_column df "Temperature" ≫= mean env);
  dataset ← objects_create env (filename file) (user request) total_count
              avg_flowrate avg_pressure avg_temperature;
  objs ← lift (equipment_objects df dataset (rows df));
  bulk_create env (EquipmentDataset.id dataset) objs ;;
  mret dataset.

(** The [try] block of [upload]. *)
Definition upload_body (env : Env) (request : Request) (file : UploadedFile)
    : M Response :=
  df ← lift (read_csv (content file));
  let missing_cols := filter (λ col, col ∉ columns df) required_cols in
  if decide (missing_cols ≠ []) then
    mret {| data := JDict [("error", JStr ("Missing required columns: "
                                            +:+ join ", " missing_cols));
                           ("required_columns", JList (JStr <$> required_cols));
                           ("found_columns", JList (JStr <$> columns df))];
            status := HTTP_400_BAD_REQUEST |}
  else
    dataset ← create_dataset env request file df;
    keep_last_5 env ;;
    db ← get_db;
    mret {| data := DatasetDetailSerializer db dataset; status := HTTP_201_CREATED |}.

(** [upload(self, request)] *)
Definition upload (env : Env) (request : Request) : M Response :=
  match FILES request with
  | None =>
      mret {| data := error_body "No file provided"; status := HTTP_400_BAD_REQUEST |}
  | Some file =>
      if decide (filename file = "") then
        mret {| data := error_body "No file provided"; status := HTTP_400_BAD_REQUEST |}
      else if negb (endswith (filename file) ".csv") then
        mret {| data := error_body "Only CSV files are allowed";
                status := HTTP_400_BAD_REQUEST |}
      else
        try_except (upload_body env request file)
          (mret {| data := error_body "CSV file is empty";
                   status := HTTP_400_BAD_REQUEST |})
          (λ e, mret {| data := error_body ("Error processing CSV: " +:+ str e);
                        status := HTTP_400_BAD_REQUEST |})
  end.

(** [summary(self, request, pk)] *)
Definition summary (pk : Z) : M Response :=
  dataset ← get_object pk;
  db ← get_db;
  let equipments := equipments_of db (EquipmentDataset.id dataset) in
  let type_distribution := type_distribution equipments in
  let equipment_data := JList (EquipmentSerializer <$> equipments) in
  mret {| data := JDict [
            ("id", JInt (EquipmentDataset.id dataset));
            ("name", JStr (EquipmentDataset.name dataset));
            ("uploaded_at", JTime (EquipmentDataset.uploaded_at dataset));
            ("total_count", JInt (EquipmentDataset.total_count dataset));
            ("averages", JDict [
               ("flowrate", JFloat (py_round (EquipmentDataset.avg_flowrate dataset) 2));
               ("pressure", JFloat (py_round (EquipmentDataset.avg_pressure dataset) 2));
               ("temperature",
                JFloat (py_round (EquipmentDataset.avg_temperature dataset) 2))]);
            ("type_distribution", JCounts type_distribution);
            ("equipments", equipment_data)];
          status := HTTP_200_OK |}.

(** [history(self, request)] *)
Definition history : M Response :=
  db ← get_db;
  let datasets := take 5 (objects_all db) in
  mret {| data := JList (DatasetSummarySerializer db <$> datasets);
          status := HTTP_200_OK |}.

(** The inherited [retrieve] action; [get_serializer_class] picks the
    detail serializer for it. *)
Definition retrieve (pk : Z) : M Response :=
  dataset ← get_object pk;
  db ← get_db;
  mret {| data := DatasetDetailSerializer db dataset; status := HTTP_200_OK |}.

(** The inherited [list] action, with the summary serializer. *)
Definition list_datasets : M Response :=
  db ← get_db;
  mret {| data := JList (DatasetSummarySerializer db <$> objects_all db);
          status := HTTP_200_OK |}.

(** The loop over [sorted(type_dist.items())]: one line per type. *)
Definition draw_type_line (acc : list CanvasOp * Q) (item : string * Z)
    : list CanvasOp * Q :=
  let '(p, y) := acc in
  (p ++ [DrawString (inches (12 # 10)) y (item.1 +:+ ": " +:+ pretty item.2)],
   down y (inches (25 # 100))).

(** The loop over the equipment rows: one table line per row, on a new page
    when less than an inch is left. *)
Definition draw_equipment_line (height : Q) (acc : list CanvasOp * Q)
    (eq : Equipment.t) : list CanvasOp * Q :=
  let '(p, y) := acc in
  let '(p, y) :=
    if Qlt_le_dec y (inches 1)
    then (p ++ [ShowPage; SetFont "Helvetica" 8], down height (inches 1))
    else (p, y) in
  (p ++ [DrawString (inches 1) y (prefix_chars 20 (Equipment.name eq));
         DrawString (inches 3) y (Equipment.type eq);
         DrawString (inches (45 # 10)) y (format_f 1 (Equipment.flowrate eq));
         DrawString (inches (55 # 10)) y (format_f 1 (Equipment.pressure eq));
         DrawString (inches (65 # 10)) y (format_f 1 (Equipment.temperature eq))],
   down y (inches (2 # 10))).

(** The drawing part of [generate_pdf]: everything put on the canvas [p]. *)
Definition draw_report (dataset : EquipmentDataset.t) (equipments : list Equipment.t)
    : list CanvasOp :=
  let '(width, height) := letter in
  (* Title *)
  let p := [SetFont "Helvetica-Bold" 20;
            DrawString (inches 1) (down height (inches 1)) "Equipment Analysis Report"] in
  (* Dataset info *)
  let p := p ++ [SetFont "Helvetica" 12] in
  let y := down height (inches (15 # 10)) in
  let p := p ++ [DrawString (inches 1) y ("Dataset: " +:+ EquipmentDataset.name dataset)] in
  let y := down y (inches (3 # 10)) in
  let p := p ++ [DrawString (inches 1) y
                   ("Uploaded: " +:+ strftime (EquipmentDataset.uploaded_at dataset))] in
  let y := down y (inches (3 # 10)) in
  let p := p ++ [DrawString (inches 1) y
                   ("Uploaded by: " +:+ username (EquipmentDataset.uploaded_by dataset))] in
  (* Summary Statistics *)
  let y := down y (inches (5 # 10)) in
  let p := p ++ [SetFont "Helvetica-Bold" 14;
                 DrawString (inches 1) y "Summary Statistics"] in
  let y := down y (inches (3 # 10)) in
  let p := p ++ [SetFont "Helvetica" 11;
                 DrawString (inches 1) y
                   ("Total Equipment Count: "
                    +:+ pretty (EquipmentDataset.total_count dataset))] in
  let y := down y (inches (25 # 100)) in
  let p := p ++ [DrawString (inches 1) y
                   ("Average Flowrate: "
                    +:+ format_f 2 (EquipmentDataset.avg_flowrate dataset))] in
  let y := down y (inches (25 # 100)) in
  let p := p ++ [DrawString (inches 1) y
                   ("Average Pressure: "
                    +:+ format_f 2 (EquipmentDataset.avg_pressure dataset))] in
  let y := down y (inches (25 # 100)) in
  let p := p ++ [DrawString (inches 1) y
                   ("Average Temperature: "
                    +:+ format_f 2 (EquipmentDataset.avg_temperature dataset))] in
  (* Type Distribution *)
  let y := down y (inches (5 # 10)) in
  let p := p ++ [SetFont "Helvetica-Bold" 14;
                 DrawString (inches 1) y "Equipment Type Distribution"] in
  let type_dist := type_distribution equipments in
  let y := down y (inches (3 # 10)) in
  let p := p ++ [SetFont "Helvetica" 11] in
  let '(p, y) := foldl draw_type_line (p, y) (sorted_items type_dist) in
  (* Equipment Details Table Header *)
  let y := down y (inches (3 # 10)) in
  let '(p, y) :=
    if Qlt_le_dec y (inches 2)
    then (p ++ [ShowPage], down height (inches 1))
    else (p, y) in
  let p := p ++ [SetFont "Helvetica-Bold" 14;
                 DrawString (inches 1) y "Equipment Details"] in
  let y := down y (inches (3 # 10)) in
  let p := p ++ [SetFont "Helvetica-Bold" 9;
                 DrawString (inches 1) y "Name";
                 DrawString (inches 3) y "Type";
                 DrawString (inches (45 # 10)) y "Flowrate";
                 DrawString (inches (55 # 10)) y "Pressure";
                 DrawString (inches (65 # 10)) y "Temp"] in
  (* Equipment Details *)
  let y := down y (inches (5 # 100)) in
  let p := p ++ [Line (inches 1) y (inches (75 # 10)) y] in
  let y := down y (inches (2 # 10)) in
  let p := p ++ [SetFont "Helvetica" 8] in
  let '(p, y) := foldl (draw_equipment_line height) (p, y) equipments in
  (* Footer *)
  p ++ [SetFont "Helvetica-Oblique" 8;
        DrawString (inches 1) (inches (5 # 10)) "Generated by Chemical Equipment Visualizer";
        ShowPage;
        Save].

(** [generate_pdf(self, request, pk)] *)
Definition generate_pdf (pk : Z) : M FileResponse :=
  dataset ← get_object pk;
  db ← get_db;
  let equipments := equipments_of db (EquipmentDataset.id dataset) in
  mret {| document := draw_report dataset equipments;
          as_attachment := true;
          attachment_name := "equipment_report_"
                             +:+ pretty (EquipmentDataset.id dataset) +:+ ".pdf" |}.

End Views.

(** * Properties *)

(** ** Running a view body *)

Lemma run_bind {A B} (m : M A) (f : A → M B) (db : DB) :
  (m ≫= f) db =
    match m db with
    | (inl e, db') => (inl e, db')
    | (inr a, db') => f a db'
    end.
Proof. reflexivity. Qed.

Lemma run_bind_ok {A B} (m : M A) (f : A → M B) (db db' : DB) (a : A) :
  m db = (inr a, db') → (m ≫= f) db = f a db'.
Proof. intros H. rewrite run_bind, H. reflexivity. Qed.

Lemma run_bind_raise {A B} (m : M A) (f : A → M B) (db db' : DB) (e : Exn) :
  m db = (inl e, db') → (m ≫= f) db = (inl e, db').
Proof. intros H. rewrite run_bind, H. reflexivity. Qed.

(** ** The type distribution *)

(** The number of rows of type [t]. *)
Definition rows_of_type (t : string) (es : list Equipment.t) : Z :=
  Z.of_nat (length (filter (λ e, Equipment.type e = t) es)).

Lemma rows_of_type_cons t e es :
  rows_of_type t (e :: es) =
    (if decide (Equipment.type e = t) then 1 else 0) + rows_of_type t es.
Proof.
  unfold rows_of_type. rewrite filter_cons.
  destruct (decide (Equipment.type e = t)); simpl; lia.
Qed.

Lemma rows_of_type_nonneg t es : 0 ≤ rows_of_type t es.
Proof. unfold rows_of_type. lia. Qed.

Lemma rows_of_type_pos t es :
  0 < rows_of_type t es ↔ t ∈ Equipment.type <$> es.
Proof.
  induction es as [|e es IH].
  - unfold rows_of_type. simpl. split; [lia | intros H; inversion H].
  - rewrite rows_of_type_cons, fmap_cons, elem_of_cons.
    pose proof (rows_of_type_nonneg t es).
    destruct (decide (Equipment.type e = t)) as [Heq | Hne].
    + split; [auto | lia].
    + split.
      * intros Hpos. right. apply IH. lia.
      * intros [Heq | Hin]; [congruence | apply IH in Hin; lia].
Qed.

Lemma count_type_lookup dist e t :
  count_type dist e !! t =
    if decide (Equipment.type e = t) then Some (default 0 (dist !! t) + 1)
    else dist !! t.
Proof.
  unfold count_type. destruct (decide (Equipment.type e = t)) as [<- | Hne].
  - by rewrite lookup_insert_eq.
  - by rewrite lookup_insert_ne.
Qed.

Lemma foldl_count_type_lookup es : ∀ dist t,
  foldl count_type dist es !! t =
    if decide (rows_of_type t es = 0) then dist !! t
    else Some (default 0 (dist !! t) + rows_of_type t es).
Proof.
  induction es as [|e es IH]; intros dist t.
  - reflexivity.
  - simpl foldl. rewrite IH, rows_of_type_cons, count_type_lookup.
    pose proof (rows_of_type_nonneg t es).
    destruct (decide (Equipment.type e = t));
      repeat case_decide; simpl; try lia; try reflexivity; f_equal; lia.
Qed.

Lemma type_distribution_lookup es t :
  type_distribution es !! t =
    if decide (rows_of_type t es = 0) then None else Some (rows_of_type t es).
Proof.
  unfold type_distribution. rewrite foldl_count_type_lookup, lookup_empty.
  case_decide; [reflexivity | simpl; f_equal; lia].
Qed.

(** C7.  The type distribution built in [summary] maps every type string
    observed in the dataset's rows to the number of rows of that type and has
    no other key; every count is at least 1.  Rows of types Pump, Valve, Pump
    give Pump: 2, Valve: 1.  The [summary] response carries this mapping for
    the rows of the requested dataset. *)
Theorem type_distribution_counts :
  (∀ es t n,
     type_distribution es !! t = Some n ↔
     t ∈ Equipment.type <$> es ∧ n = rows_of_type t es)
  ∧ (∀ es t n, type_distribution es !! t = Some n → 1 ≤ n)
  ∧ (∀ es, Equipment.type <$> es = ["Pump"; "Valve"; "Pump"] →
       type_distribution es = {["Pump" := 2; "Valve" := 1]})
  ∧ (∀ pk db d, datasets db !! pk = Some d →
       ∃ resp, summary pk db = (inr resp, db)
         ∧ jget "type_distribution" (data resp)
           = Some (JCounts (type_distribution
                              (equipments_of db (EquipmentDataset.id d))))).
Proof.
  assert (Hlookup : ∀ es t n,
     type_distribution es !! t = Some n ↔
     t ∈ Equipment.type <$> es ∧ n = rows_of_type t es).
  { intros es t n. rewrite type_distribution_lookup, <- rows_of_type_pos.
    pose proof (rows_of_type_nonneg t es).
    case_decide; split.
    - discriminate.
    - intros [Hpos _]. lia.
    - intros [= <-]. split; [lia | reflexivity].
    - intros [_ ->]. reflexivity. }
  split; [exact Hlookup |]. split; [| split].
  - intros es t n [Hin ->]%Hlookup. apply rows_of_type_pos in Hin. lia.
  - intros es Htypes.
    destruct es as [|e1 [|e2 [|e3 [|e4 es]]]]; try discriminate.
    injection Htypes as H1 H2 H3.
    unfold type_distribution, count_type. simpl. rewrite H1, H2, H3.
    vm_compute. reflexivity.
  - intros pk db d Hd. eexists. split.
    + unfold summary, get_object.
      rewrite (run_bind_ok _ _ db db d).
      * reflexivity.
      * rewrite (run_bind_ok _ _ db db db) by reflexivity. rewrite Hd. reflexivity.
    + reflexivity.
Qed.

(** ** Upload: the guards before the [try] block *)

Section UploadFacts.

Variable py_str : pyfloat → string.
Variable mean_error_text : list Cell → string.

(** A request that carries a file whose name ends in [.csv]. *)
Definition csv_request (request : Request) (file : UploadedFile) : Prop :=
  FILES request = Some file ∧ filename file ≠ ""
  ∧ endswith (filename file) ".csv" = true.

Lemma upload_csv_request env request file :
  csv_request request file →
  upload py_str mean_error_text env request =
    try_except (upload_body py_str mean_error_text env request file)
      (mret {| data := error_body "CSV file is empty";
               status := HTTP_400_BAD_REQUEST |})
      (λ e, mret {| data := error_body ("Error processing CSV: " +:+ str e);
                    status := HTTP_400_BAD_REQUEST |}).
Proof.
  intros (Hfile & Hname & Hcsv). unfold upload. rewrite Hfile.
  destruct (decide (filename file = "")); [done |]. rewrite Hcsv. reflexivity.
Qed.

Lemma try_except_ok {A} (body on_empty : M A) on_other db db' a :
  body db = (inr a, db') → try_except body on_empty on_other db = (inr a, db').
Proof. intros H. unfold try_except. rewrite H. reflexivity. Qed.

Lemma try_except_other {A} (body on_empty : M A) on_other db db' msg :
  body db = (inl (OtherError msg), db') →
  try_except body on_empty on_other db = on_other (OtherError msg) db'.
Proof. intros H. unfold try_except. rewrite H. reflexivity. Qed.

(** The required columns the header lacks, in the order of [required_cols]. *)
Definition missing_columns (df : DataFrame) : list string :=
  filter (λ col, col ∉ columns df) required_cols.

Lemma upload_body_missing env request file df db :
  content file = Table df → missing_columns df ≠ [] →
  upload_body py_str mean_error_text env request file db =
    (inr {| data := JDict [("error", JStr ("Missing required columns: "
                                            +:+ join ", " (missing_columns df)));
                           ("required_columns", JList (JStr <$> required_cols));
                           ("found_columns", JList (JStr <$> columns df))];
            status := HTTP_400_BAD_REQUEST |}, db).
Proof.
  intros Hcontent Hmissing. unfold upload_body. rewrite Hcontent. simpl lift.
  rewrite (run_bind_ok _ _ db db df) by reflexivity.
  fold (missing_columns df). destruct (decide (missing_columns df ≠ [])); [| done].
  reflexivity.
Qed.

(** C6.  A CSV upload whose header lacks required columns is answered with
    status 400; the body names the missing columns (those required columns
    that are not in the header, in the order of the required list, joined
    into the error text), lists the required columns and lists the columns
    found, in header order; nothing is stored.  A header that lacks exactly
    Pressure gives the missing list [Pressure]. *)
Theorem missing_columns_rejected env request file df db :
  csv_request request file →
  content file = Table df →
  (∃ col, col ∈ required_cols ∧ col ∉ columns df) →
  ∃ missing,
    (∀ col, col ∈ missing ↔ col ∈ required_cols ∧ col ∉ columns df)
    ∧ missing `sublist_of` required_cols
    ∧ upload py_str mean_error_text env request db =
        (inr {| data := JDict [("error", JStr ("Missing required columns: "
                                                +:+ join ", " missing));
                               ("required_columns", JList (JStr <$> required_cols));
                               ("found_columns", JList (JStr <$> columns df))];
                status := HTTP_400_BAD_REQUEST |}, db)
    ∧ ((∀ col, col ∈ required_cols → col ∉ columns df ↔ col = "Pressure") →
       missing = ["Pressure"]
       ∧ join ", " missing = "Pressure").
Proof.
  intros Hreq Hcontent (col & Hcol & Hnot).
  exists (missing_columns df).
  assert (Hchar : ∀ c, c ∈ missing_columns df ↔ c ∈ required_cols ∧ c ∉ columns df).
  { intros c. unfold missing_columns. rewrite list_elem_of_filter. tauto. }
  split; [exact Hchar |]. split; [apply sublist_filter |]. split.
  - rewrite (upload_csv_request _ _ _ Hreq).
    apply try_except_ok, upload_body_missing; [done |].
    intros Hnil. assert (col ∈ missing_columns df) as Hin by (by apply Hchar).
    rewrite Hnil in Hin. inversion Hin.
  - intros Honly.
    assert (missing_columns df = ["Pressure"]) as ->; [| done].
    assert (Hpresent : ∀ c, c ∈ required_cols → c ≠ "Pressure" →
                            ¬ (c ∉ columns df)).
    { intros c Hc Hne Hn. apply Hne. by apply Honly. }
    assert (Hpressure : "Pressure" ∉ columns df).
    { apply Honly; [| done]. unfold required_cols. rewrite !elem_of_cons. tauto. }
    unfold missing_columns.
    unfold required_cols in Hpresent |- *.
    do 3 (rewrite filter_cons_False
            by (apply Hpresent; [rewrite !elem_of_cons; tauto | discriminate])).
    rewrite filter_cons_True by exact Hpressure.
    rewrite filter_cons_False
      by (apply Hpresent; [rewrite !elem_of_cons; tauto | discriminate]).
    reflexivity.
Qed.

End UploadFacts.

(** ** Retention: the pruning loop *)

(** Rows are filed under their own primary key. *)
Definition db_wf (db : DB) : Prop :=
  ∀ k d, datasets db !! k = Some d → EquipmentDataset.id d = k.

(** One turn of the loop of [keep_last_5]. *)
Definition prune_step (env : Env) (old_dataset : EquipmentDataset.t) : M unit :=
  old_dataset ← file_delete env old_dataset;
  model_delete env old_dataset.

(** What a turn that meets no failure does to the store. *)
Definition prune_events (d : EquipmentDataset.t) : list Event :=
  match EquipmentDataset.file d with
  | Some path => [FileDeleted path; RowDeleted (EquipmentDataset.id d)]
  | None => [RowDeleted (EquipmentDataset.id d)]
  end.

Definition pruned (db : DB) (d : EquipmentDataset.t) : DB :=
  {| datasets := delete (EquipmentDataset.id d) (datasets db);
     equipments := filter (λ e, Equipment.dataset e ≠ EquipmentDataset.id d)
                     (equipments db);
     storage := match EquipmentDataset.file d with
                | Some path => storage db ∖ {[path]}
                | None => storage db
                end;
     next_dataset_id := next_dataset_id db;
     next_equipment_id := next_equipment_id db;
     trace := trace db ++ prune_events d |}.

Lemma keep_last_5_unfold env db :
  keep_last_5 env db = for_each (drop 5 (objects_all db)) (prune_step env) db.
Proof. reflexivity. Qed.

Lemma prune_step_cases env d db :
  prune_step env d db = (inr (), pruned db d)
  ∨ ∃ msg db', prune_step env d db = (inl (OtherError msg), db').
Proof.
  unfold prune_step, file_delete, model_delete, pruned, prune_events.
  destruct d as [i n u t f c a1 a2 a3]. simpl.
  destruct f as [path|]; simpl.
  - destruct (storage_delete_error env path) as [msg|] eqn:Hs.
    { right. eauto. }
    destruct (row_delete_error env i) as [msg|] eqn:Hr.
    + right. exists msg. eexists. unfold mbind, M_bind, modify, raise. simpl.
      rewrite Hr. reflexivity.
    + left. unfold mbind, M_bind, modify, mret, M_ret. simpl. rewrite Hr.
      unfold log, set_equipments, set_datasets, set_storage. simpl.
      rewrite delete_insert_eq, <- app_assoc. reflexivity.
  - destruct (row_delete_error env i) as [msg|] eqn:Hr.
    + right. exists msg. eexists. unfold mbind, M_bind, mret, M_ret, raise. simpl.
      rewrite Hr. reflexivity.
    + left. unfold mbind, M_bind, mret, M_ret, modify. simpl. rewrite Hr.
      reflexivity.
Qed.

(** No deletion fails. *)
Definition deletions_succeed (env : Env) : Prop :=
  (∀ path, storage_delete_error env path = None)
  ∧ (∀ id, row_delete_error env id = None).

Lemma prune_step_ok env d db :
  deletions_succeed env → prune_step env d db = (inr (), pruned db d).
Proof.
  intros [Hfile Hrow].
  destruct (prune_step_cases env d db) as [H | (msg & db' & H)]; [done |].
  exfalso. revert H.
  unfold prune_step, file_delete, model_delete.
  destruct (EquipmentDataset.file d) as [path|]; simpl;
    rewrite ?Hfile; unfold mbind, M_bind, modify, mret, M_ret; simpl;
    rewrite Hrow; discriminate.
Qed.

Lemma for_each_prune_cases env l : ∀ db,
  for_each l (prune_step env) db = (inr (), foldl pruned db l)
  ∨ ∃ msg db', for_each l (prune_step env) db = (inl (OtherError msg), db').
Proof.
  induction l as [|d l IH]; intros db; [by left |].
  simpl for_each. rewrite run_bind.
  destruct (prune_step_cases env d db) as [-> | (msg & db' & ->)].
  - apply IH.
  - right. eauto.
Qed.

Lemma for_each_prune_ok env l : ∀ db,
  deletions_succeed env →
  for_each l (prune_step env) db = (inr (), foldl pruned db l).
Proof.
  induction l as [|d l IH]; intros db Henv; [done |].
  simpl for_each. rewrite run_bind, prune_step_ok by done. by apply IH.
Qed.

Lemma keep_last_5_succeeds env db :
  deletions_succeed env →
  keep_last_5 env db = (inr (), foldl pruned db (drop 5 (objects_all db))).
Proof. intros Henv. rewrite keep_last_5_unfold. by apply for_each_prune_ok. Qed.

(** A pruning run that raises nothing leaves the fold of [pruned]. *)
Lemma keep_last_5_ok env db db' :
  keep_last_5 env db = (inr (), db') →
  db' = foldl pruned db (drop 5 (objects_all db)).
Proof.
  rewrite keep_last_5_unfold. intros H.
  destruct (for_each_prune_cases env (drop 5 (objects_all db)) db)
    as [H' | (msg & db'' & H')]; congruence.
Qed.

(** A pruning run only ever raises an ordinary exception. *)
Lemma keep_last_5_raises env db db' e :
  keep_last_5 env db = (inl e, db') → ∃ msg, e = OtherError msg.
Proof.
  rewrite keep_last_5_unfold. intros H.
  destruct (for_each_prune_cases env (drop 5 (objects_all db)) db)
    as [H' | (msg & db'' & H')]; [congruence |].
  exists msg. congruence.
Qed.

(** *** The store after a fold of [pruned] *)

Lemma foldl_pruned_datasets l : ∀ db k,
  datasets (foldl pruned db l) !! k =
    if decide (k ∈ EquipmentDataset.id <$> l) then None else datasets db !! k.
Proof.
  induction l as [|d l IH]; intros db k.
  - simpl. destruct (decide (k ∈ [])) as [H | _]; [inversion H | done].
  - simpl foldl. rewrite IH. simpl datasets. rewrite lookup_delete, fmap_cons.
    destruct (decide (k ∈ EquipmentDataset.id <$> l)) as [Hl | Hl];
      destruct (decide (EquipmentDataset.id d = k)) as [Hd | Hd];
      destruct (decide (k ∈ EquipmentDataset.id d :: (EquipmentDataset.id <$> l)))
        as [Hc | Hc]; try done; exfalso; apply Hc || (apply elem_of_cons in Hc);
      first [by apply elem_of_cons; auto | naive_solver].
Qed.

Lemma foldl_pruned_equipments l : ∀ db,
  equipments (foldl pruned db l) =
    filter (λ e, Equipment.dataset e ∉ EquipmentDataset.id <$> l) (equipments db).
Proof.
  induction l as [|d l IH]; intros db.
  - simpl. induction (equipments db) as [|e es IHes]; [done |].
    rewrite filter_cons_True by (intros H; inversion H). by f_equal.
  - simpl foldl. rewrite IH. simpl equipments. rewrite list_filter_filter.
    apply list_filter_iff. intros e. rewrite fmap_cons, not_elem_of_cons. tauto.
Qed.

Lemma foldl_pruned_trace l : ∀ db,
  trace (foldl pruned db l) = trace db ++ (l ≫= prune_events).
Proof.
  induction l as [|d l IH]; intros db.
  - simpl. by rewrite app_nil_r.
  - simpl foldl. rewrite IH. simpl trace. by rewrite <- app_assoc.
Qed.

Lemma foldl_pruned_storage l : ∀ db path,
  path ∈ storage (foldl pruned db l) ↔
  path ∈ storage db ∧ Some path ∉ EquipmentDataset.file <$> l.
Proof.
  induction l as [|d l IH]; intros db path.
  - simpl. split; [intros H; split; [done | intros Hin; inversion Hin] | tauto].
  - simpl foldl. rewrite IH, fmap_cons, not_elem_of_cons. simpl storage.
    destruct (EquipmentDataset.file d) as [p|]; set_solver.
Qed.

Lemma foldl_pruned_next l : ∀ db,
  next_dataset_id (foldl pruned db l) = next_dataset_id db
  ∧ next_equipment_id (foldl pruned db l) = next_equipment_id db.
Proof.
  induction l as [|d l IH]; intros db; [done |]. simpl foldl.
  destruct (IH (pruned db d)) as [-> ->]. done.
Qed.


(** *** The default ordering *)

#[global] Instance ordering_total : Total EquipmentDataset.ordering.
Proof. intros a b. unfold EquipmentDataset.ordering. lia. Qed.

#[global] Instance ordering_trans : Transitive EquipmentDataset.ordering.
Proof. intros a b c. unfold EquipmentDataset.ordering. lia. Qed.

Lemma objects_all_perm db : objects_all db ≡ₚ (map_to_list (datasets db)).*2.
Proof. apply merge_sort_Permutation. Qed.

Lemma objects_all_sorted db :
  StronglySorted EquipmentDataset.ordering (objects_all db).
Proof. apply (StronglySorted_merge_sort _). Qed.

Lemma length_objects_all db : length (objects_all db) = size (datasets db).
Proof.
  rewrite (Permutation_length (objects_all_perm db)), length_fmap.
  apply length_map_to_list.
Qed.

Lemma elem_of_objects_all db d :
  d ∈ objects_all db ↔ ∃ k, datasets db !! k = Some d.
Proof.
  rewrite (objects_all_perm db), list_elem_of_fmap. split.
  - intros ([k d'] & -> & Hin). exists k. by apply elem_of_map_to_list.
  - intros (k & Hk). exists (k, d). split; [done |]. by apply elem_of_map_to_list.
Qed.

(** A list of rows, each under its own key. *)
Definition keyed (l : list EquipmentDataset.t) : list (Z * EquipmentDataset.t) :=
  (λ d, (EquipmentDataset.id d, d)) <$> l.

Lemma keyed_fst l : (keyed l).*1 = EquipmentDataset.id <$> l.
Proof. unfold keyed. rewrite <- list_fmap_compose. done. Qed.

Lemma keyed_objects_all db :
  db_wf db → keyed (objects_all db) ≡ₚ map_to_list (datasets db).
Proof.
  intros Hwf. unfold keyed. rewrite (objects_all_perm db), <- list_fmap_compose.
  rewrite <- (list_fmap_id (map_to_list (datasets db))) at 2.
  erewrite Forall_fmap_ext_1; [reflexivity |].
  apply Forall_forall. intros [k d] Hin%elem_of_map_to_list. simpl.
  by rewrite (Hwf k d Hin).
Qed.

Lemma NoDup_objects_all_ids db :
  db_wf db → NoDup (EquipmentDataset.id <$> objects_all db).
Proof.
  intros Hwf. rewrite <- keyed_fst, (keyed_objects_all db Hwf).
  apply NoDup_fst_map_to_list.
Qed.

(** The rows a pruning run without failure keeps: the first five of the
    default ordering, each unchanged. *)
Lemma pruned_datasets db :
  db_wf db →
  datasets (foldl pruned db (drop 5 (objects_all db)))
  = list_to_map (keyed (take 5 (objects_all db))).
Proof.
  intros Hwf. apply map_eq. intros k. rewrite foldl_pruned_datasets.
  pose proof (NoDup_objects_all_ids db Hwf) as Hnd.
  rewrite <- (take_drop 5 (objects_all db)), fmap_app in Hnd.
  apply NoDup_app in Hnd as (Hnd1 & Hdisj & Hnd2).
  destruct (decide (k ∈ EquipmentDataset.id <$> drop 5 (objects_all db))) as [Hin | Hout].
  - symmetry. apply not_elem_of_list_to_map_1. rewrite keyed_fst.
    intros Hk. by apply (Hdisj k).
  - destruct (datasets db !! k) as [d|] eqn:Hk.
    + symmetry. apply elem_of_list_to_map_1; [by rewrite keyed_fst |].
      assert (d ∈ objects_all db) as Hd by (apply elem_of_objects_all; eauto).
      pose proof (Hwf k d Hk) as <-.
      rewrite <- (take_drop 5 (objects_all db)), elem_of_app in Hd.
      destruct Hd as [Hd | Hd].
      * unfold keyed. apply list_elem_of_fmap. eauto.
      * exfalso. apply Hout. apply list_elem_of_fmap. eauto.
    + symmetry. apply not_elem_of_list_to_map_1. rewrite keyed_fst.
      intros (d & -> & Hd)%list_elem_of_fmap.
      assert (d ∈ objects_all db) as Hd'.
      { rewrite <- (take_drop 5 (objects_all db)), elem_of_app. auto. }
      apply elem_of_objects_all in Hd' as (k' & Hk').
      pose proof (Hwf k' d Hk') as <-. congruence.
Qed.

Lemma pruned_size db :
  db_wf db →
  (size (datasets (foldl pruned db (drop 5 (objects_all db)))) ≤ 5)%nat.
Proof.
  intros Hwf. rewrite (pruned_datasets db Hwf), map_size_list_to_map.
  - unfold keyed. rewrite length_fmap, length_take. lia.
  - rewrite keyed_fst.
    pose proof (NoDup_objects_all_ids db Hwf) as Hnd.
    rewrite <- (take_drop 5 (objects_all db)), fmap_app in Hnd.
    by apply NoDup_app in Hnd as (Hnd1 & _ & _).
Qed.

Lemma keep_last_5_few env db :
  (size (datasets db) ≤ 5)%nat → keep_last_5 env db = (inr (), db).
Proof.
  intros Hsize. rewrite keep_last_5_unfold, drop_ge; [done |].
  rewrite length_objects_all. lia.
Qed.

(** Pruning is idempotent: after a run that went through, a second run
    changes nothing. *)
Lemma keep_last_5_idempotent env0 env db0 db :
  db_wf db0 → keep_last_5 env0 db0 = (inr (), db) →
  keep_last_5 env db = (inr (), db).
Proof.
  intros Hwf Hrun. apply keep_last_5_few.
  rewrite (keep_last_5_ok _ _ _ Hrun). by apply pruned_size.
Qed.

(** C8.  With at most five datasets in the store the pruning step deletes
    nothing: it raises nothing and leaves the store (rows, equipment rows,
    files and the record of effects) exactly as it was, whatever the
    surroundings would have done to a deletion. *)
Theorem keep_last_5_noop env db :
  (size (datasets db) ≤ 5)%nat →
  keep_last_5 env db = (inr (), db).
Proof. apply keep_last_5_few. Qed.

(** ** Upload: statistics and persistence *)

(** The cells of a column, by name. *)
Definition column_cells (df : DataFrame) (col : string) : list Cell :=
  match column_index df col with
  | Some i => cell_at i <$> rows df
  | None => []
  end.

(** The cell of a row under a column name. *)
Definition cell_of (df : DataFrame) (row : list Cell) (col : string) : Cell :=
  match column_index df col with
  | Some i => cell_at i row
  | None => CFloat NaN
  end.

Definition float_value (c : Cell) : pyfloat :=
  match c with CFloat x => x | CStr _ => NaN end.

Definition numeric_cols : list string := ["Flowrate"; "Pressure"; "Temperature"].

(** Every required column is in the header. *)
Definition has_required_cols (df : DataFrame) : Prop :=
  ∀ col, col ∈ required_cols → col ∈ columns df.

(** No cell of the three numeric columns holds text. *)
Definition numeric_frame (df : DataFrame) : Prop :=
  ∀ col, col ∈ numeric_cols → existsb is_text (column_cells df col) = false.

Lemma has_required_cols_missing df :
  has_required_cols df ↔ missing_columns df = [].
Proof.
  unfold has_required_cols, missing_columns. split.
  - intros H. destruct (filter _ required_cols) as [|c l] eqn:Hf; [done |].
    assert (c ∈ filter (λ col, col ∉ columns df) required_cols) as Hc
      by (rewrite Hf; left).
    apply list_elem_of_filter in Hc as [Hnot Hin]. by apply H in Hin.
  - intros Hnil col Hcol.
    destruct (decide (col ∈ columns df)) as [|Hnot]; [done |].
    by destruct (filter_nil_not_elem_of _ _ col Hnil Hnot).
Qed.

Lemma column_index_is_Some df col :
  col ∈ columns df → ∃ i, column_index df col = Some i.
Proof.
  intros Hin. unfold column_index.
  destruct (list_find_elem_of (λ c, c = col) (columns df) col Hin eq_refl)
    as [[i c] ->].
  by exists i.
Qed.

Lemma numeric_in_required col : col ∈ numeric_cols → col ∈ required_cols.
Proof. unfold numeric_cols, required_cols. rewrite !elem_of_cons. tauto. Qed.

Lemma numeric_frame_cell df col row :
  has_required_cols df → numeric_frame df →
  col ∈ numeric_cols → row ∈ rows df →
  is_text (cell_of df row col) = false.
Proof.
  intros Hreq Hnum Hcol Hrow. specialize (Hnum col Hcol).
  unfold column_cells, cell_of in *.
  destruct (column_index df col) as [i|]; [| done].
  destruct (is_text (cell_at i row)) eqn:Htext; [| done].
  assert (existsb is_text (cell_at i <$> rows df) = true) as Hex; [| congruence].
  apply existsb_exists. exists (cell_at i row). split; [| done].
  apply list_elem_of_In, list_elem_of_fmap. eauto.
Qed.

Section Persist.

Variable py_str : pyfloat → string.
Variable mean_error_text : list Cell → string.

Lemma column_mean_ok env df col :
  has_required_cols df → numeric_frame df → col ∈ numeric_cols →
  getitem_column df col ≫= mean mean_error_text env
  = inr (nanmean (summation env) (cell_floats (column_cells df col))).
Proof.
  intros Hreq Hnum Hcol. specialize (Hnum col Hcol).
  destruct (column_index_is_Some df col) as [i Hi].
  { by apply Hreq, numeric_in_required. }
  unfold getitem_column, column_cells in *. rewrite Hi in *. simpl.
  unfold mean. by rewrite Hnum.
Qed.

(** A column with text in it cannot be averaged. *)
Lemma column_mean_text env df col :
  col ∈ columns df → existsb is_text (column_cells df col) = true →
  getitem_column df col ≫= mean mean_error_text env
  = inl (OtherError (mean_error_text (column_cells df col))).
Proof.
  intros Hcol Htext. destruct (column_index_is_Some df col Hcol) as [i Hi].
  unfold getitem_column, column_cells in *. rewrite Hi in *. simpl.
  unfold mean. by rewrite Htext.
Qed.

(** The equipment row a data row becomes when nothing raises. *)
Definition row_equipment (df : DataFrame) (dataset_id : Z) (row : list Cell)
    : Equipment.t :=
  {| Equipment.id := 0;
     Equipment.dataset := dataset_id;
     Equipment.name := char_value py_str (cell_of df row "Equipment Name");
     Equipment.type := char_value py_str (cell_of df row "Type");
     Equipment.flowrate := float_value (cell_of df row "Flowrate");
     Equipment.pressure := float_value (cell_of df row "Pressure");
     Equipment.temperature := float_value (cell_of df row "Temperature") |}.

Lemma getitem_row_float df row col :
  col ∈ columns df → is_text (cell_of df row col) = false →
  getitem_row df row col ≫= float = inr (float_value (cell_of df row col)).
Proof.
  intros Hcol Htext. destruct (column_index_is_Some df col Hcol) as [i Hi].
  unfold getitem_row, cell_of in *. rewrite Hi in *. simpl.
  by destruct (cell_at i row).
Qed.

Lemma getitem_row_cell df row col :
  col ∈ columns df → getitem_row df row col = inr (cell_of df row col).
Proof.
  intros Hcol. destruct (column_index_is_Some df col Hcol) as [i Hi].
  unfold getitem_row, cell_of. by rewrite Hi.
Qed.

Lemma equipment_of_row_ok df dataset row :
  has_required_cols df →
  (∀ col, col ∈ numeric_cols → is_text (cell_of df row col) = false) →
  equipment_of_row py_str df dataset row
  = inr (row_equipment df (EquipmentDataset.id dataset) row).
Proof.
  clear mean_error_text. intros Hreq Hnum. unfold equipment_of_row.
  assert (Hc : ∀ col, col ∈ required_cols → col ∈ columns df) by exact Hreq.
  unfold required_cols in Hc.
  rewrite !getitem_row_float;
    [| first [ apply Hc; rewrite !elem_of_cons; tauto
             | apply Hnum; unfold numeric_cols; rewrite !elem_of_cons; tauto ] ..].
  rewrite !getitem_row_cell by (apply Hc; rewrite !elem_of_cons; tauto).
  reflexivity.
Qed.

Lemma equipment_objects_ok df dataset rows0 :
  has_required_cols df →
  (∀ row col, row ∈ rows0 → col ∈ numeric_cols →
     is_text (cell_of df row col) = false) →
  equipment_objects py_str df dataset rows0
  = inr (row_equipment df (EquipmentDataset.id dataset) <$> rows0).
Proof.
  intros Hreq. induction rows0 as [|row rest IH]; intros Hnum; [done |].
  simpl equipment_objects.
  rewrite equipment_of_row_ok; [| done | intros; apply Hnum; [left | done]].
  simpl. rewrite IH; [done |]. intros; apply Hnum; [by right | done].
Qed.

End Persist.

Section Create.

Variable py_str : pyfloat → string.
Variable mean_error_text : list Cell → string.

(** The mean a numeric column gets. *)
Definition column_mean (env : Env) (df : DataFrame) (col : string) : pyfloat :=
  nanmean (summation env) (cell_floats (column_cells df col)).

(** The dataset row, the equipment rows and the store that [create_dataset]
    leaves when nothing raises. *)
Definition new_dataset (env : Env) (request : Request) (file : UploadedFile)
    (df : DataFrame) (db : DB) : EquipmentDataset.t :=
  {| EquipmentDataset.id := next_dataset_id db;
     EquipmentDataset.name := filename file;
     EquipmentDataset.uploaded_by := user request;
     EquipmentDataset.uploaded_at := now env;
     EquipmentDataset.file :=
       Some (get_available_name ("datasets/" +:+ filename file) (storage db));
     EquipmentDataset.total_count := len df;
     EquipmentDataset.avg_flowrate := column_mean env df "Flowrate";
     EquipmentDataset.avg_pressure := column_mean env df "Pressure";
     EquipmentDataset.avg_temperature := column_mean env df "Temperature" |}.

Definition new_records (df : DataFrame) (db : DB) : list Equipment.t :=
  assign_ids (next_equipment_id db)
    (row_equipment py_str df (next_dataset_id db) <$> rows df).

Definition stored (env : Env) (request : Request) (file : UploadedFile)
    (df : DataFrame) (db : DB) : DB :=
  let path := get_available_name ("datasets/" +:+ filename file) (storage db) in
  {| datasets := <[next_dataset_id db := new_dataset env request file df db]>
                   (datasets db);
     equipments := equipments db ++ new_records df db;
     storage := {[path]} ∪ storage db;
     next_dataset_id := next_dataset_id db + 1;
     next_equipment_id := next_equipment_id db + Z.of_nat (length (rows df));
     trace := trace db ++ [FileSaved path; RowInserted (next_dataset_id db);
                           RecordsInserted (next_dataset_id db) (length (rows df))] |}.

Lemma objects_create_ok env name user tc a1 a2 a3 db :
  storage_save_error env = None → insert_error env = None →
  let path := get_available_name ("datasets/" +:+ name) (storage db) in
  let obj := {| EquipmentDataset.id := next_dataset_id db;
                EquipmentDataset.name := name;
                EquipmentDataset.uploaded_by := user;
                EquipmentDataset.uploaded_at := now env;
                EquipmentDataset.file := Some path;
                EquipmentDataset.total_count := tc;
                EquipmentDataset.avg_flowrate := a1;
                EquipmentDataset.avg_pressure := a2;
                EquipmentDataset.avg_temperature := a3 |} in
  objects_create env name user tc a1 a2 a3 db
  = (inr obj,
     {| datasets := <[next_dataset_id db := obj]> (datasets db);
        equipments := equipments db;
        storage := {[path]} ∪ storage db;
        next_dataset_id := next_dataset_id db + 1;
        next_equipment_id := next_equipment_id db;
        trace := (trace db ++ [FileSaved path]) ++ [RowInserted (next_dataset_id db)] |}).
Proof.
  intros Hsave Hinsert. unfold objects_create. rewrite Hsave, Hinsert. reflexivity.
Qed.

Lemma create_dataset_ok env request file df db :
  has_required_cols df → numeric_frame df →
  storage_save_error env = None → insert_error env = None →
  bulk_create_error env = None →
  create_dataset py_str mean_error_text env request file df db
  = (inr (new_dataset env request file df db), stored env request file df db).
Proof.
  intros Hreq Hnum Hsave Hinsert Hbulk. unfold create_dataset.
  rewrite !(column_mean_ok mean_error_text env df) by
    (done || unfold numeric_cols; rewrite !elem_of_cons; tauto).
  fold (column_mean env df "Flowrate") (column_mean env df "Pressure")
    (column_mean env df "Temperature").
  simpl lift.
  do 3 (erewrite run_bind_ok by reflexivity).
  erewrite run_bind_ok by (by apply objects_create_ok).
  fold (new_dataset env request file df db).
  rewrite (equipment_objects_ok py_str df (new_dataset env request file df db) (rows df));
    [| done | by intros; apply numeric_frame_cell].
  unfold bulk_create. rewrite Hbulk.
  unfold stored, new_records. simpl lift.
  do 2 (erewrite run_bind_ok by reflexivity).
  unfold mret, M_ret, log, bump_equipment_id, set_equipments. simpl.
  rewrite length_fmap, <- !app_assoc. reflexivity.
Qed.

(** Text in a numeric column: the mean of the first such column (in the
    order Flowrate, Pressure, Temperature) raises before anything is
    stored. *)
Lemma create_dataset_text env request file df db :
  has_required_cols df → ¬ numeric_frame df →
  ∃ col, col ∈ numeric_cols
    ∧ existsb is_text (column_cells df col) = true
    ∧ create_dataset py_str mean_error_text env request file df db
      = (inl (OtherError (mean_error_text (column_cells df col))), db).
Proof.
  intros Hreq Hnot.
  assert (Hc : ∀ col, col ∈ numeric_cols → col ∈ columns df)
    by (intros; by apply Hreq, numeric_in_required).
  assert (Hmean : ∀ col, col ∈ numeric_cols →
            existsb is_text (column_cells df col) = false →
            getitem_column df col ≫= mean mean_error_text env
            = inr (column_mean env df col)).
  { intros col Hcol Hf. destruct (column_index_is_Some df col (Hc col Hcol)) as [i Hi].
    unfold column_mean, getitem_column, column_cells in *. rewrite Hi in *. simpl.
    unfold mean. by rewrite Hf. }
  unfold numeric_cols in *.
  destruct (existsb is_text (column_cells df "Flowrate")) eqn:HF.
  { exists "Flowrate". split; [rewrite !elem_of_cons; tauto |]. split; [done |].
    unfold create_dataset.
    rewrite (column_mean_text mean_error_text env df "Flowrate");
      [done | apply Hc; rewrite !elem_of_cons; tauto | done]. }
  destruct (existsb is_text (column_cells df "Pressure")) eqn:HP.
  { exists "Pressure". split; [rewrite !elem_of_cons; tauto |]. split; [done |].
    unfold create_dataset.
    rewrite (Hmean "Flowrate") by (done || rewrite !elem_of_cons; tauto).
    rewrite (column_mean_text mean_error_text env df "Pressure");
      [done | apply Hc; rewrite !elem_of_cons; tauto | done]. }
  destruct (existsb is_text (column_cells df "Temperature")) eqn:HT.
  { exists "Temperature". split; [rewrite !elem_of_cons; tauto |]. split; [done |].
    unfold create_dataset.
    rewrite (Hmean "Flowrate") by (done || rewrite !elem_of_cons; tauto).
    rewrite (Hmean "Pressure") by (done || rewrite !elem_of_cons; tauto).
    rewrite (column_mean_text mean_error_text env df "Temperature");
      [done | apply Hc; rewrite !elem_of_cons; tauto | done]. }
  exfalso. apply Hnot. intros col Hcol. unfold numeric_cols in Hcol.
  rewrite !elem_of_cons in Hcol.
  destruct Hcol as [-> | [-> | [-> | Hnil]]]; [done | done | done | inversion Hnil].
Qed.

End Create.

(** ** Upload: the whole pipeline *)

(** Nothing fails while the dataset and its rows are stored. *)
Definition persistence_succeeds (env : Env) : Prop :=
  storage_save_error env = None ∧ insert_error env = None
  ∧ bulk_create_error env = None.

Lemma no_faults_persistence t : persistence_succeeds (no_faults t).
Proof. done. Qed.

Lemma no_faults_deletions t : deletions_succeed (no_faults t).
Proof. done. Qed.

(** The body of a 201 response. *)
Definition created (db : DB) (dataset : EquipmentDataset.t) : Response :=
  {| data := DatasetDetailSerializer db dataset; status := HTTP_201_CREATED |}.

(** The body of the catch-all handler's response. *)
Definition processing_error (e : Exn) : Response :=
  {| data := error_body ("Error processing CSV: " +:+ str e);
     status := HTTP_400_BAD_REQUEST |}.

Section Pipeline.

Variable py_str : pyfloat → string.
Variable mean_error_text : list Cell → string.

Lemma upload_body_required env request file df :
  content file = Table df → has_required_cols df →
  upload_body py_str mean_error_text env request file
  = (dataset ← create_dataset py_str mean_error_text env request file df;
     keep_last_5 env ;;
     db ← get_db;
     mret (created db dataset)).
Proof.
  intros Hcontent Hreq%has_required_cols_missing. unfold upload_body.
  rewrite Hcontent. simpl lift. unfold mbind at 1, M_bind at 1, mret at 1, M_ret at 1.
  fold (missing_columns df). rewrite Hreq.
  destruct (decide ([] ≠ [])); done.
Qed.

(** The outcome of an upload that gets as far as storing the dataset. *)
Lemma upload_stored env request file df db dataset db1 :
  csv_request request file → content file = Table df → has_required_cols df →
  create_dataset py_str mean_error_text env request file df db = (inr dataset, db1) →
  upload py_str mean_error_text env request db
  = match keep_last_5 env db1 with
    | (inr _, db') => (inr (created db' dataset), db')
    | (inl e, db') => (inr (processing_error e), db')
    end.
Proof.
  intros Hreq Hcontent Hcols Hcreate.
  rewrite (upload_csv_request _ _ _ _ _ Hreq). unfold try_except.
  rewrite (upload_body_required _ _ _ _ Hcontent Hcols).
  rewrite (run_bind_ok _ _ _ _ _ Hcreate), run_bind.
  destruct (keep_last_5 env db1) as [[e | []] db'] eqn:Hkeep.
  - destruct (keep_last_5_raises _ _ _ _ Hkeep) as [msg ->]. reflexivity.
  - reflexivity.
Qed.

(** The outcome of an upload whose statistics or storing raise. *)
Lemma upload_create_raises env request file df db msg db1 :
  csv_request request file → content file = Table df → has_required_cols df →
  create_dataset py_str mean_error_text env request file df db
  = (inl (OtherError msg), db1) →
  upload py_str mean_error_text env request db
  = (inr (processing_error (OtherError msg)), db1).
Proof.
  intros Hreq Hcontent Hcols Hcreate.
  rewrite (upload_csv_request _ _ _ _ _ Hreq). unfold try_except.
  rewrite (upload_body_required _ _ _ _ Hcontent Hcols).
  rewrite (run_bind_raise _ _ _ _ _ Hcreate). reflexivity.
Qed.

End Pipeline.

(** ** float64 arithmetic: how far a rounded result is from the exact one *)

Lemma round_half_even_close (x : Q) :
  (Qabs (inject_Z (round_half_even x) - x) <= 1 # 2)%Q.
Proof.
  unfold round_half_even.
  pose proof (Qfloor_le x) as Hlo. pose proof (Qlt_floor x) as Hhi.
  rewrite inject_Z_plus in Hhi. change (inject_Z 1) with 1%Q in Hhi.
  apply Qabs_Qle_condition.
  destruct (Qcompare (x - inject_Z (Qfloor x)) (1 # 2)) eqn:Hcmp.
  - apply Qeq_alt in Hcmp.
    destruct (Z.even (Qfloor x)); rewrite ?inject_Z_plus;
      change (inject_Z 1) with 1%Q; split; lra.
  - apply Qlt_alt in Hcmp. split; lra.
  - apply Qgt_alt in Hcmp. rewrite inject_Z_plus. change (inject_Z 1) with 1%Q.
    split; lra.
Qed.

(** Half the spacing of the doubles relative to their size, and half the
    smallest spacing. *)
Definition unit_roundoff : Q := pow2 (-53).
Definition tiny : Q := pow2 (-1075).

Lemma pow2_pos e : (0 < pow2 e)%Q.
Proof. apply Qpower_0_lt. reflexivity. Qed.

Lemma pow2_plus a b : (pow2 (a + b) == pow2 a * pow2 b)%Q.
Proof. apply Qpower_plus. discriminate. Qed.

Lemma pow2_inject n : 0 ≤ n → (pow2 n == inject_Z (2 ^ n))%Q.
Proof. intros Hn. unfold pow2. by rewrite (Zpower_Qpower 2 n Hn). Qed.

(** The binade of [q] starts at or below [|q|]. *)
Lemma ilog2_lower (q : Q) : ¬ (q == 0)%Q → (pow2 (ilog2 q) <= Qabs q)%Q.
Proof.
  intros Hq. destruct q as [n d]. unfold ilog2. cbn [Qnum Qden].
  set (a := Z.log2 (Z.abs n)). set (b := Z.log2 (Z.pos d)).
  destruct (Qle_bool (pow2 (a - b)) (Qabs (n # d))) eqn:Htest.
  { by apply Qle_bool_iff. }
  assert (Hn : 0 < Z.abs n).
  { destruct n; [| done | done]. exfalso. apply Hq. reflexivity. }
  pose proof (Z.log2_spec (Z.abs n) Hn) as [Hlo _].
  pose proof (Z.log2_spec (Z.pos d) eq_refl) as [_ Hhi].
  pose proof (Z.log2_nonneg (Z.abs n)) as Ha.
  pose proof (Z.log2_nonneg (Z.pos d)) as Hb0.
  fold a in Hlo, Ha. fold b in Hhi, Hb0.
  assert (Hb : 0 ≤ b + 1) by lia.
  rewrite <- Zabs_Qabs, (Qmake_Qdiv (Z.abs n) d).
  apply Qle_shift_div_l; [reflexivity |].
  apply Qle_trans with (pow2 (a - b - 1) * pow2 (b + 1))%Q.
  - apply Qmult_le_l; [apply pow2_pos |].
    rewrite (pow2_inject (b + 1) Hb), <- Zle_Qle. unfold Z.succ in Hhi. lia.
  - rewrite <- pow2_plus. replace (a - b - 1 + (b + 1)) with a by lia.
    rewrite (pow2_inject a Ha), <- Zle_Qle. exact Hlo.
Qed.

Lemma float64_constants :
  (pow2 (-52) * (1 # 2) == unit_roundoff)%Q
  ∧ (pow2 (-1074) * (1 # 2) == tiny)%Q
  ∧ (pow2 1000 + (unit_roundoff * pow2 1000 + tiny) < pow2 1024)%Q
  ∧ (unit_roundoff == 1 # 9007199254740992)%Q
  ∧ (0 < tiny)%Q
  ∧ (tiny <= 1 # 1000000000000000000000000000000)%Q
  ∧ (4000000 <= pow2 1000)%Q.
Proof. vm_compute. repeat split; (reflexivity || discriminate). Qed.

(** Rounding a value far from overflow: the result is a double within half
    a spacing of it. *)
Lemma to_float64_close (q : Q) :
  (Qabs q <= pow2 1000)%Q →
  ∃ r, to_float64 q = Num r
       ∧ (Qabs (r - q) <= unit_roundoff * Qabs q + tiny)%Q.
Proof.
  intros Hsmall.
  destruct float64_constants as (Hu & Ht & Hmax & _ & Htiny & _).
  pose proof (Qabs_nonneg q) as Hq0.
  unfold to_float64. destruct (Qeq_bool q 0) eqn:Hz.
  { apply Qeq_bool_iff in Hz. exists 0%Q. split; [done |].
    assert (0 - q == 0)%Q as -> by (rewrite Hz; ring).
    change (Qabs 0) with 0%Q.
    assert (0 <= unit_roundoff * Qabs q)%Q.
    { apply Qmult_le_0_compat; [| done]. apply Qlt_le_weak, pow2_pos. }
    lra. }
  apply Qeq_bool_neq in Hz.
  set (e := Z.max (ilog2 q - 52) (-1074)).
  set (p := pow2 e).
  set (m := inject_Z (round_half_even (q / p))).
  assert (Hp : (0 < p)%Q) by apply pow2_pos.
  assert (Hhalf : (Qabs (m * p - q) <= p * (1 # 2))%Q).
  { assert (m * p - q == (m - q / p) * p)%Q as -> by (field; lra).
    rewrite Qabs_Qmult, (Qabs_pos p) by lra.
    rewrite (Qmult_comm p). apply Qmult_le_compat_r; [| lra].
    apply round_half_even_close. }
  assert (Hspacing : (p * (1 # 2) <= unit_roundoff * Qabs q + tiny)%Q).
  { assert (0 <= unit_roundoff * Qabs q)%Q.
    { apply Qmult_le_0_compat; [| done]. apply Qlt_le_weak, pow2_pos. }
    unfold p, e. destruct (Z.max_spec (ilog2 q - 52) (-1074)) as [[_ ->] | [_ ->]].
    - rewrite Ht. lra.
    - replace (ilog2 q - 52) with (ilog2 q + -52) by lia.
      rewrite pow2_plus, <- Qmult_assoc, Hu, Qmult_comm.
      assert (unit_roundoff * pow2 (ilog2 q) <= unit_roundoff * Qabs q)%Q.
      { apply Qmult_le_l; [apply pow2_pos | by apply ilog2_lower]. }
      lra. }
  assert (Hr : (Qabs (m * p) <= Qabs q + (unit_roundoff * Qabs q + tiny))%Q).
  { assert (m * p == q + (m * p - q))%Q as -> by ring.
    eapply Qle_trans; [apply Qabs_triangle |]. lra. }
  assert (Hu1 : (unit_roundoff * Qabs q <= unit_roundoff * pow2 1000)%Q).
  { apply Qmult_le_l; [apply pow2_pos | done]. }
  destruct (Qle_bool (pow2 1024) (Qabs (m * p))) eqn:Hover.
  { apply Qle_bool_iff in Hover. lra. }
  exists (Qred (m * p)). split; [done |]. rewrite Qred_correct. lra.
Qed.

(** *** Sums *)

Lemma foldl_Qplus (xs : list Q) : ∀ a, (foldl Qplus a xs == a + Qsum xs)%Q.
Proof.
  unfold Qsum. induction xs as [|x xs IH]; intros a; simpl.
  - ring.
  - rewrite (IH (a + x)%Q), (IH (0 + x)%Q). ring.
Qed.

Lemma Qsum_cons x xs : (Qsum (x :: xs) == x + Qsum xs)%Q.
Proof. unfold Qsum at 1. simpl. rewrite foldl_Qplus. ring. Qed.

(** The sum of the absolute values. *)
Definition abs_sum (xs : list Q) : Q := Qsum (Qabs <$> xs).

Lemma abs_sum_cons x xs : (abs_sum (x :: xs) == Qabs x + abs_sum xs)%Q.
Proof. unfold abs_sum. rewrite fmap_cons. apply Qsum_cons. Qed.

Lemma abs_sum_nonneg xs : (0 <= abs_sum xs)%Q.
Proof.
  induction xs as [|x xs IH]; [done |].
  rewrite abs_sum_cons. pose proof (Qabs_nonneg x). lra.
Qed.

Lemma Qsum_abs xs : (Qabs (Qsum xs) <= abs_sum xs)%Q.
Proof.
  induction xs as [|x xs IH]; [done |].
  rewrite Qsum_cons, abs_sum_cons.
  eapply Qle_trans; [apply Qabs_triangle |]. lra.
Qed.

Lemma abs_sum_bounded B xs :
  Forall (λ q, (Qabs q <= B)%Q) xs →
  (abs_sum xs <= inject_Z (Z.of_nat (length xs)) * B)%Q.
Proof.
  induction 1 as [|x xs Hx Hxs IH].
  - change (abs_sum []) with 0%Q. change (inject_Z (Z.of_nat (length []))) with 0%Q. lra.
  - rewrite abs_sum_cons. simpl length. rewrite Nat2Z.inj_succ. unfold Z.succ.
    rewrite inject_Z_plus. change (inject_Z 1) with 1%Q. lra.
Qed.

Lemma pick_cons {A} (keep : nat → bool) (x : A) xs :
  pick keep (x :: xs)
  = if keep O then x :: pick (keep ∘ S) xs else pick (keep ∘ S) xs.
Proof. reflexivity. Qed.

Lemma pick_rest_cons {A} (keep : nat → bool) (x : A) xs :
  pick (negb ∘ keep) (x :: xs)
  = if keep O then pick (negb ∘ (keep ∘ S)) xs
    else x :: pick (negb ∘ (keep ∘ S)) xs.
Proof. rewrite pick_cons. unfold compose at 1. by destruct (keep O). Qed.

Lemma pick_parts (xs : list Q) : ∀ keep,
  (Qsum (pick keep xs) + Qsum (pick (negb ∘ keep) xs) == Qsum xs)%Q
  ∧ (abs_sum (pick keep xs) + abs_sum (pick (negb ∘ keep) xs) == abs_sum xs)%Q
  ∧ (length (pick keep xs) + length (pick (negb ∘ keep) xs) = length xs)%nat.
Proof.
  induction xs as [|x xs IH]; intros keep.
  - split; [done | split; done].
  - destruct (IH (keep ∘ S)) as (Hs & Ha & Hl).
    rewrite pick_cons, pick_rest_cons. destruct (keep O).
    + rewrite !Qsum_cons, !abs_sum_cons. simpl length.
      split; [lra | split; [lra | lia]].
    + rewrite !Qsum_cons, !abs_sum_cons. simpl length.
      split; [lra | split; [lra | lia]].
Qed.

Lemma pick_fmap {A B} (f : A → B) (xs : list A) : ∀ keep,
  pick keep (f <$> xs) = f <$> pick keep xs.
Proof.
  induction xs as [|x xs IH]; intros keep; [done |].
  simpl. destruct (keep O); simpl; by rewrite IH.
Qed.

Section SumError.

(** [A] bounds the sum of the absolute values, [K] the number of values, and
    [δ] is room enough for the rounding of one addition. *)
Variables (A δ : Q) (K : nat).
Hypothesis Hδ : (0 <= δ)%Q.
Hypothesis Hstep : (unit_roundoff * (A + inject_Z (Z.of_nat K) * δ) + tiny <= δ)%Q.
Hypothesis Hroom : (A + inject_Z (Z.of_nat K) * δ <= pow2 1000)%Q.

(** The error allowed after adding up [n] values: [n - 1] additions. *)
Definition slack (n : nat) : Q := (inject_Z (Z.of_nat (pred n)) * δ)%Q.

Lemma slack_nonneg n : (0 <= slack n)%Q.
Proof using Hδ.
  unfold slack. apply Qmult_le_0_compat; [| done].
  change 0%Q with (inject_Z 0). rewrite <- Zle_Qle. lia.
Qed.

Lemma slack_0 : (slack 0 == 0)%Q.
Proof. unfold slack. change (inject_Z (Z.of_nat (pred 0))) with 0%Q. ring. Qed.

Lemma slack_le n : (n ≤ K)%nat → (slack n <= inject_Z (Z.of_nat K) * δ)%Q.
Proof using Hδ.
  intros Hn. unfold slack. apply Qmult_le_compat_r; [| done].
  rewrite <- Zle_Qle. lia.
Qed.

Lemma slack_add n m : (slack n + slack m <= slack (n + m))%Q.
Proof using Hδ.
  unfold slack. rewrite <- Qmult_plus_distr_l, <- inject_Z_plus.
  apply Qmult_le_compat_r; [| done]. rewrite <- Zle_Qle. lia.
Qed.

Lemma slack_add_one n m :
  (1 ≤ n)%nat → (1 ≤ m)%nat → (slack n + slack m + δ <= slack (n + m))%Q.
Proof using Hδ.
  intros Hn Hm. unfold slack.
  assert (inject_Z (Z.of_nat (pred (n + m)))
          == inject_Z (Z.of_nat (pred n)) + inject_Z (Z.of_nat (pred m)) + 1)%Q as ->.
  { rewrite <- !inject_Z_plus. change 1%Q with (inject_Z 1).
    rewrite <- inject_Z_plus. apply inject_Z_injective. lia. }
  ring_simplify. lra.
Qed.

(** Adding two partial sums: [a] stands for the exact [ca], which is made of
    [ka] values whose absolute values add up to at most [aa]; likewise [b]. *)
Lemma float_add_close a b ca cb aa ab ka kb :
  (Qabs (a - ca) <= slack ka)%Q → (Qabs (b - cb) <= slack kb)%Q →
  (Qabs ca <= aa)%Q → (Qabs cb <= ab)%Q → (aa + ab <= A)%Q →
  (ka + kb ≤ K)%nat →
  (ka = 0%nat → (ca == 0)%Q) → (kb = 0%nat → (cb == 0)%Q) →
  ∃ s, float_add (Num a) (Num b) = Num s
       ∧ (Qabs (s - (ca + cb)) <= slack (ka + kb))%Q.
Proof using Hδ Hstep Hroom.
  intros Ha Hb Hca Hcb Hsum Hk Hka Hkb.
  pose proof (slack_add ka kb) as Hadd.
  pose proof (slack_nonneg ka) as Hska. pose proof (slack_nonneg kb) as Hskb.
  apply Qabs_Qle_condition in Ha as Ha'. apply Qabs_Qle_condition in Hb as Hb'.
  apply Qabs_Qle_condition in Hca as Hca'. apply Qabs_Qle_condition in Hcb as Hcb'.
  unfold float_add, is_zero.
  destruct (Qeq_bool a 0) eqn:Hza.
  { apply Qeq_bool_iff in Hza. exists b. split; [done |].
    apply Qabs_Qle_condition. split; lra. }
  destruct (Qeq_bool b 0) eqn:Hzb.
  { apply Qeq_bool_iff in Hzb. exists a. split; [done |].
    apply Qabs_Qle_condition. split; lra. }
  apply Qeq_bool_neq in Hza, Hzb.
  assert (H1a : (1 ≤ ka)%nat).
  { destruct ka as [|ka]; [| lia]. exfalso. apply Hza.
    specialize (Hka eq_refl). pose proof slack_0. lra. }
  assert (H1b : (1 ≤ kb)%nat).
  { destruct kb as [|kb]; [| lia]. exfalso. apply Hzb.
    specialize (Hkb eq_refl). pose proof slack_0. lra. }
  pose proof (slack_add_one ka kb H1a H1b) as Hone.
  pose proof (slack_le (ka + kb) Hk) as Hle.
  assert (Hsize : (Qabs (a + b) <= A + inject_Z (Z.of_nat K) * δ)%Q).
  { apply Qabs_Qle_condition. split; lra. }
  destruct (to_float64_close (a + b)) as (r & Hr & Herr); [lra |].
  exists r. split; [done |].
  assert (Hround : (unit_roundoff * Qabs (a + b) + tiny <= δ)%Q).
  { assert (unit_roundoff * Qabs (a + b)
            <= unit_roundoff * (A + inject_Z (Z.of_nat K) * δ))%Q.
    { apply Qmult_le_l; [apply pow2_pos | done]. }
    lra. }
  apply Qabs_Qle_condition in Herr.
  apply Qabs_Qle_condition. split; lra.
Qed.

Lemma foldl_float_add_close (xs : list Q) : ∀ acc c aa k,
  (Qabs (acc - c) <= slack k)%Q → (Qabs c <= aa)%Q →
  (aa + abs_sum xs <= A)%Q → (k + length xs ≤ K)%nat →
  (k = 0%nat → (c == 0)%Q) →
  ∃ s, foldl float_add (Num acc) (Num <$> xs) = Num s
       ∧ (Qabs (s - (c + Qsum xs)) <= slack (k + length xs))%Q.
Proof using Hδ Hstep Hroom.
  induction xs as [|x xs IH]; intros acc c aa k Hacc Hc Hsum Hk Hk0.
  - exists acc. split; [done |]. simpl length. rewrite Nat.add_0_r.
    change (Qsum []) with 0%Q.
    assert (acc - (c + 0) == acc - c)%Q as -> by ring. done.
  - rewrite abs_sum_cons in Hsum. simpl length in Hk.
    pose proof (abs_sum_nonneg xs) as Hxs. pose proof (Qabs_nonneg x) as Hx.
    destruct (float_add_close acc x c x aa (Qabs x) k 1) as (s1 & Hs1 & Herr1).
    + done.
    + assert (x - x == 0)%Q as -> by ring. apply slack_nonneg.
    + done.
    + lra.
    + lra.
    + lia.
    + done.
    + discriminate.
    + rewrite fmap_cons. simpl foldl. rewrite Hs1.
      destruct (IH s1 (c + x)%Q (aa + Qabs x)%Q (k + 1)%nat) as (s & Hs & Herr).
      * done.
      * eapply Qle_trans; [apply Qabs_triangle |]. lra.
      * lra.
      * lia.
      * lia.
      * exists s. split; [done |]. simpl length.
        replace (k + S (length xs))%nat with (k + 1 + length xs)%nat by lia.
        rewrite Qsum_cons.
        assert (s - (c + (x + Qsum xs)) == s - (c + x + Qsum xs))%Q as -> by ring.
        exact Herr.
Qed.

(** Whatever the plan, the float64 sum of values is within [n - 1] rounding
    errors of their exact sum. *)
Lemma sum_by_close plan : ∀ xs : list Q,
  (abs_sum xs <= A)%Q → (length xs ≤ K)%nat →
  ∃ s, sum_by plan (Num <$> xs) = Num s
       ∧ (Qabs (s - Qsum xs) <= slack (length xs))%Q.
Proof using Hδ Hstep Hroom.
  induction plan as [|first l IHl r IHr]; intros xs Hsum Hk.
  - destruct (foldl_float_add_close xs 0 0 0 0%nat) as (s & Hs & Herr).
    + change (Qabs (0 - 0)) with 0%Q. apply slack_nonneg.
    + done.
    + lra.
    + lia.
    + done.
    + exists s. split; [done |].
      assert (s - Qsum xs == s - (0 + Qsum xs))%Q as -> by ring. done.
  - destruct (pick_parts xs first) as (Hs & Ha & Hl).
    pose proof (abs_sum_nonneg (pick first xs)) as H0l.
    pose proof (abs_sum_nonneg (pick (negb ∘ first) xs)) as H0r.
    destruct (IHl (pick first xs)) as (a & Hsl & Hel); [lra | lia |].
    destruct (IHr (pick (negb ∘ first) xs)) as (b & Hsr & Her); [lra | lia |].
    simpl sum_by. rewrite !pick_fmap, Hsl, Hsr.
    destruct (float_add_close a b (Qsum (pick first xs))
                (Qsum (pick (negb ∘ first) xs))
                (abs_sum (pick first xs)) (abs_sum (pick (negb ∘ first) xs))
                (length (pick first xs)) (length (pick (negb ∘ first) xs)))
      as (s & Hadd & Herr).
    + done.
    + done.
    + apply Qsum_abs.
    + apply Qsum_abs.
    + lra.
    + lia.
    + intros H0. by destruct (pick first xs).
    + intros H0. by destruct (pick (negb ∘ first) xs).
    + exists s. split; [done |]. rewrite Hl, Hs in Herr. done.
Qed.

End SumError.

(** *** The mean of a column of numbers *)

(** A numeric cell holding the value [q]. *)
Definition number (q : Q) : Cell := CFloat (Num q).

(** The arithmetic mean of a column: the exact sum over the count. *)
Definition arithmetic_mean (qs : list Q) : Q :=
  (Qsum qs / inject_Z (Z.of_nat (length qs)))%Q.

(** No value is larger than [B] in absolute value. *)
Definition bounded (B : Q) (qs : list Q) : Prop :=
  Forall (λ q, (Qabs q <= B)%Q) qs.

Lemma dropna_nums qs : dropna (Num <$> qs) = Num <$> qs.
Proof. induction qs as [|q qs IH]; [done |]. unfold dropna in *. simpl. by f_equal. Qed.

Lemma cell_floats_numbers qs : cell_floats (number <$> qs) = Num <$> qs.
Proof. induction qs as [|q qs IH]; [done |]. unfold cell_floats in *. simpl. by f_equal. Qed.

Lemma numbers_no_text qs : existsb is_text (number <$> qs) = false.
Proof. induction qs as [|q qs IH]; [done |]. simpl. exact IH. Qed.

Lemma nanmean_nums plan qs :
  qs ≠ [] →
  nanmean plan (Num <$> qs)
  = float_div (sum_by (plan (length qs)) (Num <$> qs)) (Z.of_nat (length qs)).
Proof.
  intros Hne. unfold nanmean. rewrite dropna_nums.
  destruct qs as [|q qs']; [done |].
  rewrite fmap_cons. simpl length. by rewrite length_fmap.
Qed.

(** The mean of at most a million numbers, none larger than [B] with
    count times [B] at most a million: whatever the order of the additions,
    the float64 mean is within 1e-9 of the arithmetic mean. *)
Lemma nanmean_close (plan : nat → Plan) (B : Q) (qs : list Q) :
  qs ≠ [] → Z.of_nat (length qs) ≤ 1000000 → bounded B qs →
  (inject_Z (Z.of_nat (length qs)) * B <= 1000000)%Q →
  ∃ m, nanmean plan (cell_floats (number <$> qs)) = Num m
       ∧ (Qabs (m - arithmetic_mean qs) <= 1 # 1000000000)%Q.
Proof.
  intros Hne Hlen Hbound Hmag.
  destruct float64_constants as (_ & _ & _ & Hu & Htiny & Htiny' & Hbig).
  pose proof (abs_sum_bounded B qs Hbound) as Habs.
  pose proof (Qsum_abs qs) as Hsum.
  pose proof (abs_sum_nonneg qs) as Habs0.
  assert (HB : (0 <= B)%Q).
  { destruct Hbound as [|q qs' Hq _]; [done |].
    pose proof (Qabs_nonneg q). lra. }
  remember (inject_Z (Z.of_nat (length qs))) as kq eqn:Hkq.
  assert (Hk1 : (1 <= kq)%Q).
  { subst kq. change 1%Q with (inject_Z 1). rewrite <- Zle_Qle.
    destruct qs; [done | simpl; lia]. }
  assert (Hk2 : (kq <= 1000000)%Q).
  { subst kq. change 1000000%Q with (inject_Z 1000000). rewrite <- Zle_Qle. lia. }
  remember (kq * B)%Q as A eqn:HA.
  assert (HAq : (A == kq * B)%Q) by (rewrite HA; reflexivity).
  assert (HBA : (B <= A)%Q).
  { subst A. assert (0 <= (kq - 1) * B)%Q by (apply Qmult_le_0_compat; lra).
    assert ((kq - 1) * B == kq * B - B)%Q by ring. lra. }
  remember (2 * (1 # 9007199254740992) * A + 2 * tiny)%Q as δ eqn:Hδdef.
  assert (Hδq : (δ == 2 * (1 # 9007199254740992) * A + 2 * tiny)%Q)
    by (rewrite Hδdef; reflexivity).
  clear Hδdef.
  assert (Hδ0 : (0 <= δ)%Q) by lra.
  assert (Hδ1 : (δ <= 1)%Q) by lra.
  assert (Hkδ : (kq * δ <= 1000000 * δ)%Q) by (apply Qmult_le_compat_r; lra).
  assert (Hhalf : ((1 # 9007199254740992) * (kq * δ) <= (1 # 2) * δ)%Q).
  { rewrite Qmult_assoc. apply Qmult_le_compat_r; [lra | done]. }
  assert (Hstep : (unit_roundoff * (A + kq * δ) + tiny <= δ)%Q).
  { rewrite Hu. lra. }
  assert (Hroom : (A + kq * δ <= pow2 1000)%Q) by lra.
  rewrite Hkq in Hstep, Hroom.
  destruct (sum_by_close A δ (length qs) Hδ0 Hstep Hroom
              (plan (length qs)) qs) as (s & Hs & Herr); [lra | lia |].
  pose proof (slack_le δ (length qs) Hδ0 (length qs) (le_n _)) as Hslack.
  rewrite <- Hkq in Hslack.
  apply Qabs_Qle_condition in Herr. apply Qabs_Qle_condition in Hsum.
  assert (Hmean : (- δ <= s / kq - Qsum qs / kq <= δ)%Q).
  { assert (s / kq - Qsum qs / kq == (s - Qsum qs) / kq)%Q as -> by (field; lra).
    split.
    - apply Qle_shift_div_l; [lra |]. lra.
    - apply Qle_shift_div_r; [lra |]. lra. }
  assert (Hmu : (- B <= Qsum qs / kq <= B)%Q).
  { split.
    - apply Qle_shift_div_l; [lra |]. lra.
    - apply Qle_shift_div_r; [lra |]. lra. }
  assert (Ht : (Qabs (s / kq) <= B + δ)%Q).
  { apply Qabs_Qle_condition. split; lra. }
  destruct (to_float64_close (s / kq)) as (m & Hm & Hmerr); [lra |].
  exists m. split.
  - rewrite cell_floats_numbers, (nanmean_nums plan qs Hne), Hs.
    unfold float_div. rewrite <- Hkq. exact Hm.
  - unfold arithmetic_mean. rewrite <- Hkq.
    assert (Hut : (unit_roundoff * Qabs (s / kq)
                   <= (1 # 9007199254740992) * (B + δ))%Q).
    { rewrite Hu. apply Qmult_le_l; [reflexivity | done]. }
    apply Qabs_Qle_condition in Hmerr.
    apply Qabs_Qle_condition. split; lra.
Qed.

(** ** Upload: the stored statistics *)

Lemma length_column_cells df col :
  col ∈ columns df → length (column_cells df col) = length (rows df).
Proof.
  intros Hcol. destruct (column_index_is_Some df col Hcol) as [i Hi].
  unfold column_cells. rewrite Hi. apply length_fmap.
Qed.

Lemma length_assign_ids objs : ∀ first, length (assign_ids first objs) = length objs.
Proof. induction objs as [|e objs IH]; intros first; [done |]. simpl. by rewrite IH. Qed.

Section Statistics.

Variable py_str : pyfloat → string.
Variable mean_error_text : list Cell → string.

(** A float is within 1e-9 of an exact value: it is a number, not an
    infinity and not NaN, and the difference is at most 1e-9. *)
Definition within_tolerance (x : pyfloat) (q : Q) : Prop :=
  ∃ m, x = Num m ∧ (Qabs (m - q) <= 1 # 1000000000)%Q.

(** C5 (as the code has it).  A CSV upload with the required columns whose
    Flowrate, Pressure and Temperature columns hold the numbers [flow],
    [press], [temp] in its K >= 1 data rows, met by no storage failure,
    stores a dataset row whose total_count is K, together with K equipment
    rows; with no deletion failure either, the upload answers 201 with that
    dataset.  The three averages are float64 means: the column added up in
    float64, in whatever order the libraries add ([summation env]), and
    divided by K in float64.  When K is at most 1000000 and K times [B] is
    at most 1000000, the average of a column whose values are at most [B]
    in absolute value is within 1e-9 of the arithmetic mean of the column.
    Without such a bound it need not be. *)
Theorem upload_stores_count_and_means env request file df db flow press temp :
  csv_request request file →
  content file = Table df →
  has_required_cols df →
  column_cells df "Flowrate" = number <$> flow →
  column_cells df "Pressure" = number <$> press →
  column_cells df "Temperature" = number <$> temp →
  1 ≤ len df →
  persistence_succeeds env →
  ∃ dataset db1,
    create_dataset py_str mean_error_text env request file df db = (inr dataset, db1)
    ∧ datasets db1 !! EquipmentDataset.id dataset = Some dataset
    ∧ EquipmentDataset.total_count dataset = len df
    ∧ length flow = length (rows df)
    ∧ length press = length (rows df)
    ∧ length temp = length (rows df)
    ∧ EquipmentDataset.avg_flowrate dataset = nanmean (summation env) (Num <$> flow)
    ∧ EquipmentDataset.avg_pressure dataset = nanmean (summation env) (Num <$> press)
    ∧ EquipmentDataset.avg_temperature dataset = nanmean (summation env) (Num <$> temp)
    ∧ (∀ B : Q, len df ≤ 1000000 → (inject_Z (len df) * B <= 1000000)%Q →
         (bounded B flow →
          within_tolerance (EquipmentDataset.avg_flowrate dataset) (arithmetic_mean flow))
         ∧ (bounded B press →
            within_tolerance (EquipmentDataset.avg_pressure dataset) (arithmetic_mean press))
         ∧ (bounded B temp →
            within_tolerance (EquipmentDataset.avg_temperature dataset)
              (arithmetic_mean temp)))
    ∧ length (new_records py_str df db) = length (rows df)
    ∧ equipments db1 = equipments db ++ new_records py_str df db
    ∧ (deletions_succeed env →
       ∃ db', upload py_str mean_error_text env request db
              = (inr (created db' dataset), db')).
Proof.
  intros Hreq Hcontent Hcols Hflow Hpress Htemp Hrows (Hsave & Hinsert & Hbulk).
  assert (Hnum : numeric_frame df).
  { intros col Hcol. unfold numeric_cols in Hcol. rewrite !elem_of_cons in Hcol.
    destruct Hcol as [-> | [-> | [-> | Hnil]]]; [| | | inversion Hnil].
    - rewrite Hflow. apply numbers_no_text.
    - rewrite Hpress. apply numbers_no_text.
    - rewrite Htemp. apply numbers_no_text. }
  assert (Hlen : ∀ col qs, col ∈ numeric_cols → column_cells df col = number <$> qs →
                   length qs = length (rows df)).
  { intros col qs Hcol Hcells.
    rewrite <- (length_column_cells df col) by (by apply Hcols, numeric_in_required).
    rewrite Hcells. by rewrite length_fmap. }
  assert (HF : "Flowrate" ∈ numeric_cols) by (unfold numeric_cols; rewrite !elem_of_cons; tauto).
  assert (HP : "Pressure" ∈ numeric_cols) by (unfold numeric_cols; rewrite !elem_of_cons; tauto).
  assert (HT : "Temperature" ∈ numeric_cols) by (unfold numeric_cols; rewrite !elem_of_cons; tauto).
  pose proof (Hlen _ _ HF Hflow) as Lf.
  pose proof (Hlen _ _ HP Hpress) as Lp.
  pose proof (Hlen _ _ HT Htemp) as Lt.
  assert (Hne : ∀ qs : list Q, length qs = length (rows df) → qs ≠ []).
  { intros qs Hl ->. unfold len in Hrows. simpl in Hl. lia. }
  assert (Hmean : ∀ (B : Q) (qs : list Q), len df ≤ 1000000 →
            (inject_Z (len df) * B <= 1000000)%Q →
            length qs = length (rows df) → bounded B qs →
            within_tolerance (nanmean (summation env) (Num <$> qs)) (arithmetic_mean qs)).
  { intros B qs Hmany Hmag Hl Hb. unfold len in Hmany, Hmag. rewrite <- Hl in Hmany, Hmag.
    rewrite <- cell_floats_numbers.
    by apply (nanmean_close (summation env) B qs); [apply Hne | | |]. }
  pose proof (create_dataset_ok py_str mean_error_text env request file df db
                Hcols Hnum Hsave Hinsert Hbulk) as Hcreate.
  assert (Havg : ∀ col qs, column_cells df col = number <$> qs →
            column_mean env df col = nanmean (summation env) (Num <$> qs)).
  { intros col qs Hcells. unfold column_mean. by rewrite Hcells, cell_floats_numbers. }
  exists (new_dataset env request file df db), (stored py_str env request file df db).
  split; [exact Hcreate |]. split; [apply lookup_insert_eq |].
  split; [done |]. do 3 (split; [done |]).
  split; [exact (Havg _ _ Hflow) |].
  split; [exact (Havg _ _ Hpress) |].
  split; [exact (Havg _ _ Htemp) |].
  split.
  { intros B Hmany Hmag. simpl.
    rewrite (Havg _ _ Hflow), (Havg _ _ Hpress), (Havg _ _ Htemp).
    split; [| split]; intros Hb; by apply (Hmean B). }
  split; [unfold new_records; by rewrite length_assign_ids, length_fmap |].
  split; [done |].
  intros Hdel. eexists.
  rewrite (upload_stored _ _ _ _ _ _ _ _ _ Hreq Hcontent Hcols Hcreate).
  rewrite (keep_last_5_succeeds _ _ Hdel). reflexivity.
Qed.

End Statistics.

(** ** Upload: inputs the validation does not stop *)

(** A response that carries a row index and a column name as fields. *)
Definition carries_row_and_column (r : Response) (row : Z) (col : string) : Prop :=
  ∃ k1 k2, jget k1 (data r) = Some (JInt row) ∧ jget k2 (data r) = Some (JStr col).

Lemma processing_error_fields e row col :
  ¬ carries_row_and_column (processing_error e) row col.
Proof.
  intros (k1 & k2 & H1 & _). unfold processing_error, error_body, jget in H1.
  simpl in H1. destruct (decide ("error" = k1)); simpl in H1; discriminate.
Qed.

Section Unchecked.

Variable py_str : pyfloat → string.
Variable mean_error_text : list Cell → string.

(** C4 (as the code has it).  A CSV upload with the required columns and a
    text cell somewhere in Flowrate, Pressure or Temperature fails as a
    whole, before anything is stored: the store is left exactly as it was.
    The answer is the catch-all one, status 400 with the single field
    [error] holding "Error processing CSV: " and the text of the exception
    raised by the mean of the first such column; it has no field for a row
    index or a column name. *)
Theorem text_cell_fails_upload env request file df db :
  csv_request request file →
  content file = Table df →
  has_required_cols df →
  (∃ col row, col ∈ numeric_cols ∧ row ∈ rows df
              ∧ is_text (cell_of df row col) = true) →
  ∃ col, col ∈ numeric_cols
    ∧ existsb is_text (column_cells df col) = true
    ∧ upload py_str mean_error_text env request db
      = (inr {| data := JDict [("error",
                                JStr ("Error processing CSV: "
                                      +:+ mean_error_text (column_cells df col)))];
                status := HTTP_400_BAD_REQUEST |}, db)
    ∧ ∀ row c,
        ¬ carries_row_and_column
            (processing_error (OtherError (mean_error_text (column_cells df col))))
            row c.
Proof.
  intros Hreq Hcontent Hcols (col & row & Hcol & Hrow & Htext).
  assert (Hnot : ¬ numeric_frame df).
  { intros Hnum. by rewrite (numeric_frame_cell df col row) in Htext. }
  destruct (create_dataset_text py_str mean_error_text env request file df db
              Hcols Hnot) as (c & Hc & Hex & Hcreate).
  exists c. split; [done |]. split; [done |]. split.
  - by rewrite (upload_create_raises _ _ _ _ _ _ _ _ _ Hreq Hcontent Hcols Hcreate).
  - intros r c'. apply processing_error_fields.
Qed.

(** C1 (what the code does).  A CSV upload whose header has every required
    column and which has no data row is not turned away: met by no failure
    of the store, it is answered 201, after writing the file and inserting a
    dataset row with total_count 0 and NaN for the three averages. *)
Theorem header_only_upload_is_stored env request file df db :
  csv_request request file →
  content file = Table df →
  has_required_cols df →
  rows df = [] →
  persistence_succeeds env →
  deletions_succeed env →
  ∃ dataset db' path dropped,
    upload py_str mean_error_text env request db = (inr (created db' dataset), db')
    ∧ EquipmentDataset.total_count dataset = 0
    ∧ EquipmentDataset.avg_flowrate dataset = NaN
    ∧ EquipmentDataset.avg_pressure dataset = NaN
    ∧ EquipmentDataset.avg_temperature dataset = NaN
    ∧ trace db' = trace db ++ [FileSaved path;
                               RowInserted (EquipmentDataset.id dataset);
                               RecordsInserted (EquipmentDataset.id dataset) 0]
                           ++ dropped.
Proof.
  intros Hreq Hcontent Hcols Hrows (Hsave & Hinsert & Hbulk) Hdel.
  assert (Hcells : ∀ col, column_cells df col = []).
  { intros col. unfold column_cells. rewrite Hrows. by destruct (column_index df col). }
  assert (Hnum : numeric_frame df).
  { intros col _. by rewrite Hcells. }
  pose proof (create_dataset_ok py_str mean_error_text env request file df db
                Hcols Hnum Hsave Hinsert Hbulk) as Hcreate.
  eexists _, _, _, _. split.
  { rewrite (upload_stored _ _ _ _ _ _ _ _ _ Hreq Hcontent Hcols Hcreate).
    rewrite (keep_last_5_succeeds _ _ Hdel). reflexivity. }
  simpl. unfold len, column_mean. rewrite !Hcells, Hrows. simpl.
  do 4 (split; [reflexivity |]).
  rewrite foldl_pruned_trace. simpl. rewrite Hrows. simpl.
  rewrite <- app_assoc. reflexivity.
Qed.

End Unchecked.

(** ** Pruning that fails part-way *)

(** Whatever a turn of the loop does, it leaves the other datasets and
    their equipment rows alone. *)
Lemma prune_step_other env d db r db' k :
  prune_step env d db = (r, db') → k ≠ EquipmentDataset.id d →
  datasets db' !! k = datasets db !! k
  ∧ equipments_of db' k = equipments_of db k.
Proof.
  intros Hstep Hk. revert Hstep.
  assert (Hfilter : ∀ es : list Equipment.t,
            filter (λ e, Equipment.dataset e = k)
              (filter (λ e, Equipment.dataset e ≠ EquipmentDataset.id d) es)
            = filter (λ e, Equipment.dataset e = k) es).
  { intros es. rewrite list_filter_filter. apply list_filter_iff.
    intros e. split; [tauto | intros ->; done]. }
  unfold prune_step, file_delete, model_delete, equipments_of.
  destruct (EquipmentDataset.file d) as [path|]; simpl.
  - destruct (storage_delete_error env path) as [msg|].
    { intros [= <- <-]. done. }
    unfold mbind, M_bind, modify, mret, M_ret, raise. simpl.
    destruct (row_delete_error env (EquipmentDataset.id d)) as [msg|].
    + intros [= <- <-]. simpl. by rewrite lookup_insert_ne.
    + intros [= <- <-]. simpl.
      rewrite lookup_delete_ne, lookup_insert_ne by done. by rewrite Hfilter.
  - unfold mbind, M_bind, modify, mret, M_ret, raise. simpl.
    destruct (row_delete_error env (EquipmentDataset.id d)) as [msg|].
    + intros [= <- <-]. done.
    + intros [= <- <-]. simpl. rewrite lookup_delete_ne by done. by rewrite Hfilter.
Qed.

Lemma for_each_prune_other env l : ∀ db r db' k,
  for_each l (prune_step env) db = (r, db') → k ∉ EquipmentDataset.id <$> l →
  datasets db' !! k = datasets db !! k
  ∧ equipments_of db' k = equipments_of db k.
Proof.
  induction l as [|d l IH]; intros db r db' k Hrun Hk.
  - injection Hrun as <- <-. done.
  - rewrite fmap_cons, not_elem_of_cons in Hk. destruct Hk as [Hd Hl].
    simpl in Hrun. rewrite run_bind in Hrun.
    destruct (prune_step env d db) as [[e | []] db0] eqn:Hstep.
    + injection Hrun as <- <-. by apply (prune_step_other env d db (inl e)).
    + destruct (prune_step_other env d db _ db0 k Hstep Hd) as [<- <-].
      by apply (IH db0 r).
Qed.

(** A dataset newer than every other one is not among those to prune. *)
Lemma newest_not_pruned db dataset :
  db_wf db →
  datasets db !! EquipmentDataset.id dataset = Some dataset →
  (∀ d, d ∈ objects_all db → d ≠ dataset →
        EquipmentDataset.uploaded_at d < EquipmentDataset.uploaded_at dataset) →
  EquipmentDataset.id dataset ∉ EquipmentDataset.id <$> drop 5 (objects_all db).
Proof.
  intros Hwf Hrow Hnewest (d' & Hid & Hin)%list_elem_of_fmap.
  pose proof (NoDup_objects_all_ids db Hwf) as Hnd.
  pose proof (objects_all_sorted db) as Hsorted.
  rewrite <- (take_drop 5 (objects_all db)) in Hnd, Hsorted.
  rewrite fmap_app in Hnd. apply NoDup_app in Hnd as (_ & Hdisj & _).
  assert (d' = dataset) as ->.
  { assert (d' ∈ objects_all db) as Hd'.
    { rewrite <- (take_drop 5 (objects_all db)), elem_of_app. auto. }
    apply elem_of_objects_all in Hd' as (k & Hk).
    pose proof (Hwf k d' Hk) as Hkid. subst k. rewrite <- Hid in Hk. congruence. }
  destruct (take 5 (objects_all db)) as [|x kept] eqn:Htake.
  { destruct (objects_all db) as [|y l]; [inversion Hin | discriminate]. }
  assert (x ∈ x :: kept) as Hx by left.
  pose proof (StronglySorted_app_1_elem_of _ _ _ x dataset Hsorted Hx Hin) as Hord.
  assert (x ≠ dataset) as Hne.
  { intros ->. apply (Hdisj (EquipmentDataset.id dataset)).
    - apply list_elem_of_fmap. eauto.
    - apply list_elem_of_fmap. eauto. }
  assert (x ∈ objects_all db) as Hxall.
  { rewrite <- (take_drop 5 (objects_all db)), Htake, elem_of_app. auto. }
  specialize (Hnewest x Hxall Hne). unfold EquipmentDataset.ordering in Hord. lia.
Qed.

Section PruningFails.

Variable py_str : pyfloat → string.
Variable mean_error_text : list Cell → string.

(** C2 (as the code has it).  When the dataset and its equipment rows have
    been stored and the pruning step then raises, the exception reaches the
    catch-all handler of [upload]: the caller gets status 400 with
    "Error processing CSV: " and the exception's text, not the created
    dataset.  What was stored stays: if the new dataset is newer than every
    other one, its row and its equipment rows are in the store the failed
    request leaves. *)
Theorem pruning_failure_is_reported env request file df db dataset db1 e db2 :
  csv_request request file →
  content file = Table df →
  has_required_cols df →
  create_dataset py_str mean_error_text env request file df db = (inr dataset, db1) →
  keep_last_5 env db1 = (inl e, db2) →
  upload py_str mean_error_text env request db
  = (inr {| data := JDict [("error", JStr ("Error processing CSV: " +:+ str e))];
            status := HTTP_400_BAD_REQUEST |}, db2)
  ∧ (db_wf db1 →
     datasets db1 !! EquipmentDataset.id dataset = Some dataset →
     (∀ d, d ∈ objects_all db1 → d ≠ dataset →
           EquipmentDataset.uploaded_at d < EquipmentDataset.uploaded_at dataset) →
     datasets db2 !! EquipmentDataset.id dataset = Some dataset
     ∧ equipments_of db2 (EquipmentDataset.id dataset)
       = equipments_of db1 (EquipmentDataset.id dataset)).
Proof.
  intros Hreq Hcontent Hcols Hcreate Hkeep. split.
  - rewrite (upload_stored _ _ _ _ _ _ _ _ _ Hreq Hcontent Hcols Hcreate), Hkeep.
    reflexivity.
  - intros Hwf Hrow Hnewest.
    rewrite keep_last_5_unfold in Hkeep.
    destruct (for_each_prune_other env _ _ _ _ (EquipmentDataset.id dataset) Hkeep)
      as [-> ->]; [| done].
    by apply newest_not_pruned.
Qed.

End PruningFails.

(** ** Retention after an upload *)

Section Retention.

Variable py_str : pyfloat → string.
Variable mean_error_text : list Cell → string.

(** What a [create_dataset] that returns has done to the dataset table. *)
Lemma create_dataset_returns env request file df db dataset db1 :
  create_dataset py_str mean_error_text env request file df db = (inr dataset, db1) →
  EquipmentDataset.id dataset = next_dataset_id db
  ∧ EquipmentDataset.uploaded_at dataset = now env
  ∧ datasets db1 = <[next_dataset_id db := dataset]> (datasets db)
  ∧ next_dataset_id db1 = next_dataset_id db + 1
  ∧ ∃ path, EquipmentDataset.file dataset = Some path ∧ path ∈ storage db1.
Proof.
  unfold create_dataset.
  destruct (getitem_column df "Flowrate" ≫= mean mean_error_text env) as [e | a1];
    [discriminate |].
  destruct (getitem_column df "Pressure" ≫= mean mean_error_text env) as [e | a2];
    [discriminate |].
  destruct (getitem_column df "Temperature" ≫= mean mean_error_text env) as [e | a3];
    [discriminate |].
  simpl lift. do 3 (erewrite run_bind_ok by reflexivity).
  unfold objects_create.
  destruct (storage_save_error env) as [msg|]; [discriminate |].
  destruct (insert_error env) as [msg|]; [discriminate |].
  unfold mbind at 1, M_bind at 1. simpl.
  match goal with
  | |- context [equipment_objects py_str df ?d (rows df)] =>
      destruct (equipment_objects py_str df d (rows df)) as [e | objs]
  end; [discriminate |].
  simpl lift. unfold bulk_create.
  destruct (bulk_create_error env) as [msg|]; [discriminate |].
  unfold mbind, M_bind, mret, M_ret, modify. simpl.
  intros [= <- <-]. simpl. do 4 (split; [done |]).
  eexists. split; [done |]. set_solver.
Qed.

Lemma create_dataset_wf env request file df db dataset db1 :
  create_dataset py_str mean_error_text env request file df db = (inr dataset, db1) →
  db_wf db → db_wf db1.
Proof.
  intros (Hid & _ & Hrows & _)%create_dataset_returns Hwf k d.
  rewrite Hrows, lookup_insert. case_decide as Hk.
  - intros [= <-]. congruence.
  - apply Hwf.
Qed.

(** A 201 answer means the dataset was stored and the pruning went through. *)
Lemma upload_created env request db resp db' :
  upload py_str mean_error_text env request db = (inr resp, db') →
  status resp = HTTP_201_CREATED →
  ∃ file df dataset db1,
    FILES request = Some file ∧ content file = Table df
    ∧ create_dataset py_str mean_error_text env request file df db = (inr dataset, db1)
    ∧ keep_last_5 env db1 = (inr (), db')
    ∧ resp = created db' dataset.
Proof.
  assert (Hbad : ∀ body (db0 : DB),
            (inr {| data := body; status := HTTP_400_BAD_REQUEST |}, db0)
            = (@inr Exn Response resp, db') → status resp = HTTP_201_CREATED → False).
  { intros body db0 [= <- <-]. discriminate. }
  intros Hup Hst.
  destruct (FILES request) as [file|] eqn:Hfile.
  2: { unfold upload in Hup. rewrite Hfile in Hup. destruct (Hbad _ _ Hup Hst). }
  destruct (decide (filename file = "")) as [Hempty | Hname].
  { unfold upload in Hup. rewrite Hfile in Hup.
    destruct (decide (filename file = "")); [| done]. destruct (Hbad _ _ Hup Hst). }
  destruct (endswith (filename file) ".csv") eqn:Hcsv.
  2: { unfold upload in Hup. rewrite Hfile, Hcsv in Hup.
       destruct (decide (filename file = "")); [done |].
       destruct (Hbad _ _ Hup Hst). }
  rewrite (upload_csv_request py_str mean_error_text env request file) in Hup by done.
  unfold try_except in Hup.
  destruct (content file) as [| msg | df] eqn:Hcontent.
  { unfold upload_body in Hup. rewrite Hcontent in Hup.
    destruct (Hbad _ _ Hup Hst). }
  { unfold upload_body in Hup. rewrite Hcontent in Hup.
    destruct (Hbad _ _ Hup Hst). }
  destruct (decide (missing_columns df = [])) as [Hcols | Hmissing].
  2: { rewrite (upload_body_missing _ _ _ _ _ _ _ Hcontent Hmissing) in Hup.
       destruct (Hbad _ _ Hup Hst). }
  apply has_required_cols_missing in Hcols.
  rewrite (upload_body_required _ _ _ _ _ _ Hcontent Hcols), run_bind in Hup.
  destruct (create_dataset py_str mean_error_text env request file df db)
    as [[e | dataset] db1] eqn:Hcreate.
  { destruct e; destruct (Hbad _ _ Hup Hst). }
  rewrite run_bind in Hup.
  destruct (keep_last_5 env db1) as [[e | []] db2] eqn:Hkeep.
  { destruct e; destruct (Hbad _ _ Hup Hst). }
  injection Hup as <- <-. by exists file, df, dataset, db1.
Qed.

(** After every successful upload.  From a store whose rows are filed under
    their own keys, an upload answered 201 leaves at most five datasets:
    exactly the first five of the newest-first ordering of the datasets
    present once the new one is stored, each unchanged, so every dataset
    kept is at least as new as every dataset dropped.  Each dropped dataset
    first loses its file, then its row, and none of their files is left in
    the storage.  The history listing then shows every dataset that is
    left, newest first. *)
Lemma retention_after_upload env request db resp db' :
  db_wf db →
  upload py_str mean_error_text env request db = (inr resp, db') →
  status resp = HTTP_201_CREATED →
  ∃ file df dataset db1,
    FILES request = Some file ∧ content file = Table df
    ∧ create_dataset py_str mean_error_text env request file df db = (inr dataset, db1)
    ∧ (size (datasets db') ≤ 5)%nat
    ∧ datasets db' = list_to_map (keyed (take 5 (objects_all db1)))
    ∧ (∀ kept dropped,
         kept ∈ take 5 (objects_all db1) → dropped ∈ drop 5 (objects_all db1) →
         EquipmentDataset.uploaded_at dropped ≤ EquipmentDataset.uploaded_at kept)
    ∧ trace db' = trace db1 ++ mbind prune_events (drop 5 (objects_all db1))
    ∧ (∀ dropped path,
         dropped ∈ drop 5 (objects_all db1) →
         EquipmentDataset.file dropped = Some path →
         (path ∉ storage db')
         ∧ prune_events dropped
           = [FileDeleted path; RowDeleted (EquipmentDataset.id dropped)])
    ∧ objects_all db' ≡ₚ take 5 (objects_all db1)
    ∧ StronglySorted EquipmentDataset.ordering (objects_all db')
    ∧ history db'
      = (inr {| data := JList (DatasetSummarySerializer db' <$> objects_all db');
                status := HTTP_200_OK |}, db').
Proof.
  intros Hwf Hupload Hstatus.
  destruct (upload_created _ _ _ _ _ Hupload Hstatus)
    as (file & df & dataset & db1 & Hfile & Hcontent & Hcreate & Hkeep & ->).
  exists file, df, dataset, db1. do 3 (split; [done |]).
  pose proof (create_dataset_wf _ _ _ _ _ _ _ Hcreate Hwf) as Hwf1.
  pose proof (keep_last_5_ok _ _ _ Hkeep) as ->.
  pose proof (NoDup_objects_all_ids db1 Hwf1) as Hnd.
  rewrite <- (take_drop 5 (objects_all db1)), fmap_app in Hnd.
  apply NoDup_app in Hnd as (Hnd1 & _ & _).
  assert (Hperm : objects_all (foldl pruned db1 (drop 5 (objects_all db1)))
                  ≡ₚ take 5 (objects_all db1)).
  { rewrite objects_all_perm, (pruned_datasets db1 Hwf1).
    rewrite map_to_list_to_map by (by rewrite keyed_fst).
    unfold keyed. rewrite <- list_fmap_compose. simpl.
    by rewrite list_fmap_id. }
  split; [by apply pruned_size |].
  split; [by apply pruned_datasets |].
  split.
  { intros kept dropped Hkept Hdropped.
    pose proof (objects_all_sorted db1) as Hsorted.
    rewrite <- (take_drop 5 (objects_all db1)) in Hsorted.
    apply (StronglySorted_app_1_elem_of _ _ _ kept dropped Hsorted Hkept Hdropped). }
  split; [apply foldl_pruned_trace |].
  split.
  { intros dropped path Hdropped Hpath. split.
    - rewrite foldl_pruned_storage. intros [_ Hnot]. apply Hnot.
      apply list_elem_of_fmap. eauto.
    - unfold prune_events. by rewrite Hpath. }
  split; [exact Hperm |].
  split; [apply objects_all_sorted |].
  unfold history. rewrite run_bind. unfold get_db, mret, M_ret.
  rewrite take_ge; [done |].
  rewrite (Permutation_length Hperm), length_take. lia.
Qed.

End Retention.

(** ** Retention over a sequence of uploads *)

(** [a] was uploaded strictly after [b]. *)
Definition newer_than (a b : EquipmentDataset.t) : Prop :=
  EquipmentDataset.uploaded_at b < EquipmentDataset.uploaded_at a.

(** The dataset table that holds exactly the rows of [l]. *)
Definition table_of (l : list EquipmentDataset.t) : gmap Z EquipmentDataset.t :=
  list_to_map (keyed l).

Lemma newer_than_ordering L :
  StronglySorted newer_than L → StronglySorted EquipmentDataset.ordering L.
Proof.
  induction 1 as [|d L Hs IH Hall]; constructor; [done |].
  eapply Forall_impl; [exact Hall |].
  intros x Hx. unfold newer_than, EquipmentDataset.ordering in *. lia.
Qed.

Lemma newer_than_unique L :
  StronglySorted newer_than L → ∀ x y, x ∈ L → y ∈ L →
  EquipmentDataset.uploaded_at x = EquipmentDataset.uploaded_at y → x = y.
Proof.
  induction 1 as [|d L Hs IH Hall]; intros x y Hx Hy Heq; [inversion Hx |].
  rewrite Forall_forall in Hall. unfold newer_than in Hall.
  apply elem_of_cons in Hx as [-> | Hx]; apply elem_of_cons in Hy as [-> | Hy].
  - done.
  - specialize (Hall y Hy). lia.
  - specialize (Hall x Hx). lia.
  - by apply IH.
Qed.

(** A table made of a list that is strictly newest-first is enumerated in
    exactly that order. *)
Lemma objects_all_table db L :
  datasets db = table_of L →
  NoDup (EquipmentDataset.id <$> L) →
  StronglySorted newer_than L →
  objects_all db = L.
Proof.
  intros Htable Hnd Hsorted.
  assert (Hperm : objects_all db ≡ₚ L).
  { rewrite objects_all_perm, Htable. unfold table_of.
    rewrite map_to_list_to_map by (by rewrite keyed_fst).
    unfold keyed. rewrite <- list_fmap_compose. simpl. by rewrite list_fmap_id. }
  apply StronglySorted_unique_strong with (R := EquipmentDataset.ordering).
  - intros x1 x2 Hx1 Hx2 H12 H21. rewrite Hperm in Hx1.
    apply (newer_than_unique L Hsorted); [done | done |].
    unfold EquipmentDataset.ordering in *. lia.
  - apply objects_all_sorted.
  - by apply newer_than_ordering.
  - exact Hperm.
Qed.

Lemma table_of_wf db L : datasets db = table_of L → db_wf db.
Proof.
  intros Htable k d. rewrite Htable. unfold table_of.
  intros Hin%elem_of_list_to_map_2. unfold keyed in Hin.
  apply list_elem_of_fmap in Hin as (d' & [= -> ->] & _). done.
Qed.

(** The store is made of the list [L], strictly newest-first, with keys
    below the next key and upload times up to [t]. *)
Definition holds_list (db : DB) (L : list EquipmentDataset.t) (t : Z) : Prop :=
  datasets db = table_of L
  ∧ StronglySorted newer_than L
  ∧ NoDup (EquipmentDataset.id <$> L)
  ∧ ∀ d, d ∈ L → EquipmentDataset.id d < next_dataset_id db
               ∧ EquipmentDataset.uploaded_at d ≤ t.

Lemma holds_list_empty t : holds_list empty_db [] t.
Proof.
  split; [done |]. split; [constructor |]. split; [constructor |].
  intros d Hd. inversion Hd.
Qed.

Section Sequence.

Variable py_str : pyfloat → string.
Variable mean_error_text : list Cell → string.

(** One successful upload at a later time puts the new dataset in front of
    the list and keeps the first five. *)
Lemma upload_step env request db resp db' L t :
  holds_list db L t → t < now env →
  upload py_str mean_error_text env request db = (inr resp, db') →
  status resp = HTTP_201_CREATED →
  ∃ d path,
    resp = created db' d
    ∧ EquipmentDataset.file d = Some path
    ∧ EquipmentDataset.uploaded_at d = now env
    ∧ holds_list db' (take 5 (d :: L)) (now env)
    ∧ (drop 5 (d :: L) = [] → path ∈ storage db')
    ∧ (∀ old p, old ∈ drop 5 (d :: L) → EquipmentDataset.file old = Some p →
         p ∉ storage db').
Proof.
  intros (Htable & Hsorted & Hnd & Hbound) Hlater Hupload Hstatus.
  destruct (upload_created _ _ _ _ _ _ _ Hupload Hstatus)
    as (file & df & d & db1 & Hfile & Hcontent & Hcreate & Hkeep & ->).
  destruct (create_dataset_returns _ _ _ _ _ _ _ _ _ Hcreate)
    as (Hid & Htime & Hrows & Hnext & path & Hpath & Hstored).
  exists d, path. do 3 (split; [done |]).
  assert (Htable1 : datasets db1 = table_of (d :: L)).
  { rewrite Hrows, Htable, <- Hid. reflexivity. }
  assert (Hsorted1 : StronglySorted newer_than (d :: L)).
  { constructor; [done |]. apply Forall_forall. intros x Hx.
    unfold newer_than. destruct (Hbound x Hx). lia. }
  assert (Hnd1 : NoDup (EquipmentDataset.id <$> d :: L)).
  { rewrite fmap_cons. constructor; [| done].
    intros (x & Hx & Hin)%list_elem_of_fmap. destruct (Hbound x Hin). lia. }
  pose proof (objects_all_table db1 (d :: L) Htable1 Hnd1 Hsorted1) as Hall.
  pose proof (table_of_wf db1 _ Htable1) as Hwf1.
  pose proof (keep_last_5_ok _ _ _ Hkeep) as ->. rewrite Hall.
  split; [| split].
  - split; [| split; [| split]].
    + rewrite <- Hall at 1. rewrite (pruned_datasets db1 Hwf1), Hall. done.
    + rewrite <- (take_drop 5 (d :: L)) in Hsorted1.
      by apply StronglySorted_app_1_l in Hsorted1.
    + rewrite fmap_take. eapply sublist_NoDup; [exact Hnd1 | apply sublist_take].
    + intros x Hx%subseteq_take.
      destruct (foldl_pruned_next (drop 5 (d :: L)) db1) as [-> _]. rewrite Hnext.
      apply elem_of_cons in Hx as [-> | Hx].
      * lia.
      * destruct (Hbound x Hx). lia.
  - intros ->. simpl. done.
  - intros old p Hold Hp. rewrite foldl_pruned_storage. intros [_ Hnot].
    apply Hnot. apply list_elem_of_fmap. eauto.
Qed.

End Sequence.

Section SixUploads.

Variable py_str : pyfloat → string.
Variable mean_error_text : list Cell → string.

(** Six uploads in a row into an empty store, each answered 201, at
    increasing times: the history then lists the datasets of uploads six
    down to two, and the file of the first dataset, stored by the first
    upload, is gone. *)
Lemma six_uploads_in_a_row env1 env2 env3 env4 env5 env6
    request1 request2 request3 request4 request5 request6
    r1 r2 r3 r4 r5 r6 s1 s2 s3 s4 s5 s6 :
  upload py_str mean_error_text env1 request1 empty_db = (inr r1, s1) →
  upload py_str mean_error_text env2 request2 s1 = (inr r2, s2) →
  upload py_str mean_error_text env3 request3 s2 = (inr r3, s3) →
  upload py_str mean_error_text env4 request4 s3 = (inr r4, s4) →
  upload py_str mean_error_text env5 request5 s4 = (inr r5, s5) →
  upload py_str mean_error_text env6 request6 s5 = (inr r6, s6) →
  Forall (λ r, status r = HTTP_201_CREATED) [r1; r2; r3; r4; r5; r6] →
  now env1 < now env2 < now env3 ∧ now env3 < now env4 < now env5
  ∧ now env5 < now env6 →
  ∃ d1 d2 d3 d4 d5 d6 path1,
    [r1; r2; r3; r4; r5; r6]
    = [created s1 d1; created s2 d2; created s3 d3; created s4 d4;
       created s5 d5; created s6 d6]
    ∧ EquipmentDataset.uploaded_at <$> [d1; d2; d3; d4; d5; d6]
      = now <$> [env1; env2; env3; env4; env5; env6]
    ∧ EquipmentDataset.file d1 = Some path1
    ∧ path1 ∈ storage s1
    ∧ (path1 ∉ storage s6)
    ∧ objects_all s6 = [d6; d5; d4; d3; d2]
    ∧ history s6
      = (inr {| data := JList (DatasetSummarySerializer s6 <$> [d6; d5; d4; d3; d2]);
                status := HTTP_200_OK |}, s6).
Proof.
  intros U1 U2 U3 U4 U5 U6 Hst Ht.
  repeat (apply Forall_cons in Hst as [? Hst]).
  destruct (upload_step py_str mean_error_text env1 request1 empty_db r1 s1 []
              (now env1 - 1) (holds_list_empty _) ltac:(lia) U1 ltac:(done))
    as (d1 & p1 & -> & Hp1 & T1 & I1 & Hin1 & _).
  destruct (upload_step py_str mean_error_text env2 request2 s1 r2 s2 _ _
              I1 ltac:(lia) U2 ltac:(done))
    as (d2 & p2 & -> & _ & T2 & I2 & _ & _).
  destruct (upload_step py_str mean_error_text env3 request3 s2 r3 s3 _ _
              I2 ltac:(lia) U3 ltac:(done))
    as (d3 & p3 & -> & _ & T3 & I3 & _ & _).
  destruct (upload_step py_str mean_error_text env4 request4 s3 r4 s4 _ _
              I3 ltac:(lia) U4 ltac:(done))
    as (d4 & p4 & -> & _ & T4 & I4 & _ & _).
  destruct (upload_step py_str mean_error_text env5 request5 s4 r5 s5 _ _
              I4 ltac:(lia) U5 ltac:(done))
    as (d5 & p5 & -> & _ & T5 & I5 & _ & _).
  destruct (upload_step py_str mean_error_text env6 request6 s5 r6 s6 _ _
              I5 ltac:(lia) U6 ltac:(done))
    as (d6 & p6 & -> & _ & T6 & I6 & _ & Hgone).
  simpl take in *. simpl drop in *.
  exists d1, d2, d3, d4, d5, d6, p1.
  split; [done |]. split; [simpl; congruence |]. split; [done |].
  split; [by apply Hin1 |].
  split; [apply (Hgone d1 p1); [left | done] |].
  destruct I6 as (Htable & Hsorted & Hnd & _).
  pose proof (objects_all_table s6 _ Htable Hnd Hsorted) as Hall.
  split; [done |].
  unfold history. rewrite run_bind. unfold get_db, mret, M_ret. by rewrite Hall.
Qed.

(** C3.  After every successful upload at most five datasets exist: the
    ones kept are exactly the first five of the newest-first ordering (by
    upload time, descending) of the datasets present once the new one is
    stored, and each dropped dataset loses its file before its row.  So
    after six successful uploads in a row, at increasing times, into an
    empty store, the history lists exactly the five newest datasets, newest
    first, and the file of the first dataset no longer exists. *)
Theorem upload_keeps_newest_five :
  (∀ env request db resp db',
     db_wf db →
     upload py_str mean_error_text env request db = (inr resp, db') →
     status resp = HTTP_201_CREATED →
     ∃ file df dataset db1,
       FILES request = Some file ∧ content file = Table df
       ∧ create_dataset py_str mean_error_text env request file df db
         = (inr dataset, db1)
       ∧ (size (datasets db') ≤ 5)%nat
       ∧ datasets db' = list_to_map (keyed (take 5 (objects_all db1)))
       ∧ (∀ kept dropped,
            kept ∈ take 5 (objects_all db1) → dropped ∈ drop 5 (objects_all db1) →
            EquipmentDataset.uploaded_at dropped ≤ EquipmentDataset.uploaded_at kept)
       ∧ trace db' = trace db1 ++ mbind prune_events (drop 5 (objects_all db1))
       ∧ (∀ dropped path,
            dropped ∈ drop 5 (objects_all db1) →
            EquipmentDataset.file dropped = Some path →
            (path ∉ storage db')
            ∧ prune_events dropped
              = [FileDeleted path; RowDeleted (EquipmentDataset.id dropped)])
       ∧ objects_all db' ≡ₚ take 5 (objects_all db1)
       ∧ StronglySorted EquipmentDataset.ordering (objects_all db')
       ∧ history db'
         = (inr {| data := JList (DatasetSummarySerializer db' <$> objects_all db');
                   status := HTTP_200_OK |}, db'))
  ∧ (∀ env1 env2 env3 env4 env5 env6
       request1 request2 request3 request4 request5 request6
       r1 r2 r3 r4 r5 r6 s1 s2 s3 s4 s5 s6,
     upload py_str mean_error_text env1 request1 empty_db = (inr r1, s1) →
     upload py_str mean_error_text env2 request2 s1 = (inr r2, s2) →
     upload py_str mean_error_text env3 request3 s2 = (inr r3, s3) →
     upload py_str mean_error_text env4 request4 s3 = (inr r4, s4) →
     upload py_str mean_error_text env5 request5 s4 = (inr r5, s5) →
     upload py_str mean_error_text env6 request6 s5 = (inr r6, s6) →
     Forall (λ r, status r = HTTP_201_CREATED) [r1; r2; r3; r4; r5; r6] →
     now env1 < now env2 < now env3 ∧ now env3 < now env4 < now env5
     ∧ now env5 < now env6 →
     ∃ d1 d2 d3 d4 d5 d6 path1,
       [r1; r2; r3; r4; r5; r6]
       = [created s1 d1; created s2 d2; created s3 d3; created s4 d4;
          created s5 d5; created s6 d6]
       ∧ EquipmentDataset.uploaded_at <$> [d1; d2; d3; d4; d5; d6]
         = now <$> [env1; env2; env3; env4; env5; env6]
       ∧ EquipmentDataset.file d1 = Some path1
       ∧ path1 ∈ storage s1
       ∧ (path1 ∉ storage s6)
       ∧ objects_all s6 = [d6; d5; d4; d3; d2]
       ∧ history s6
         = (inr {| data := JList (DatasetSummarySerializer s6
                                    <$> [d6; d5; d4; d3; d2]);
                   status := HTTP_200_OK |}, s6)).
Proof.
  split.
  - intros. by eapply retention_after_upload.
  - intros. by eapply six_uploads_in_a_row.
Qed.

End SixUploads.

(** ** Reading: summary, history and retrieve *)

(** Rounding to two decimals gives a whole number of hundredths within half
    a hundredth of the value. *)
Lemma py_round_2 (q : Q) :
  ∃ r n, py_round (Num q) 2 = Num r
         ∧ (r == inject_Z n / 100)%Q
         ∧ (Qabs (r - q) <= 1 # 200)%Q.
Proof.
  exists (Qred (inject_Z (round_half_even (q * 100)) / 100)),
         (round_half_even (q * 100)).
  split; [reflexivity |]. split; [apply Qred_correct |].
  rewrite Qred_correct.
  pose proof (round_half_even_close (q * 100)) as H.
  apply Qabs_Qle_condition in H. apply Qabs_Qle_condition.
  set (n := inject_Z (round_half_even (q * 100))) in *.
  unfold Qdiv. change (/ 100)%Q with (1 # 100)%Q. lra.
Qed.

Lemma get_object_found pk db d :
  datasets db !! pk = Some d → get_object pk db = (inr d, db).
Proof. intros H. unfold get_object. rewrite run_bind. unfold get_db. by rewrite H. Qed.

(** The three averages as a serializer shows them. *)
Definition shown_averages (j : JSON) : list (option JSON) :=
  [jget "avg_flowrate" j; jget "avg_pressure" j; jget "avg_temperature" j].

Definition stored_averages (d : EquipmentDataset.t) : list (option JSON) :=
  [Some (JFloat (EquipmentDataset.avg_flowrate d));
   Some (JFloat (EquipmentDataset.avg_pressure d));
   Some (JFloat (EquipmentDataset.avg_temperature d))].

(** C10.  For a stored dataset, [summary] answers with the three averages
    rounded to two decimals (a whole number of hundredths within half a
    hundredth of the stored value; NaN stays NaN), while the detail
    serializer of [retrieve] and the summary serializer of [history] and of
    the list action show the stored values themselves; none of these reads
    changes the store. *)
Theorem summary_rounds_averages db pk d :
  datasets db !! pk = Some d →
  (∃ resp, summary pk db = (inr resp, db)
     ∧ jget "averages" (data resp)
       = Some (JDict
           [("flowrate", JFloat (py_round (EquipmentDataset.avg_flowrate d) 2));
            ("pressure", JFloat (py_round (EquipmentDataset.avg_pressure d) 2));
            ("temperature",
             JFloat (py_round (EquipmentDataset.avg_temperature d) 2))]))
  ∧ (∀ q, ∃ r n, py_round (Num q) 2 = Num r
                 ∧ (r == inject_Z n / 100)%Q ∧ (Qabs (r - q) <= 1 # 200)%Q)
  ∧ py_round NaN 2 = NaN
  ∧ retrieve pk db
    = (inr {| data := DatasetDetailSerializer db d; status := HTTP_200_OK |}, db)
  ∧ shown_averages (DatasetDetailSerializer db d) = stored_averages d
  ∧ history db
    = (inr {| data := JList (DatasetSummarySerializer db <$> take 5 (objects_all db));
              status := HTTP_200_OK |}, db)
  ∧ list_datasets db
    = (inr {| data := JList (DatasetSummarySerializer db <$> objects_all db);
              status := HTTP_200_OK |}, db)
  ∧ d ∈ objects_all db
  ∧ shown_averages (DatasetSummarySerializer db d) = stored_averages d.
Proof.
  intros Hd. split.
  { eexists. split.
    - unfold summary. rewrite (run_bind_ok _ _ _ _ _ (get_object_found _ _ _ Hd)).
      reflexivity.
    - reflexivity. }
  split; [apply py_round_2 |]. split; [reflexivity |]. split.
  { unfold retrieve. rewrite (run_bind_ok _ _ _ _ _ (get_object_found _ _ _ Hd)).
    reflexivity. }
  split; [reflexivity |]. split; [reflexivity |]. split; [reflexivity |].
  split; [apply elem_of_objects_all; eauto | reflexivity].
Qed.

(** ** The report *)

#[global] Instance item_le_total : Total item_le.
Proof.
  intros [k1 c1] [k2 c2]. unfold item_le. simpl.
  destruct (decide (k1 = k2)) as [-> | Hne].
  - destruct (Z.le_ge_cases c1 c2); [left | right]; right; split; auto; lia.
  - destruct (total String.le k1 k2); [left | right]; left; split; auto.
Qed.

#[global] Instance item_le_trans : Transitive item_le.
Proof.
  intros [k1 c1] [k2 c2] [k3 c3]. unfold item_le. simpl.
  intros [[Hne12 H12] | [-> H12]] [[Hne23 H23] | [-> H23]].
  - left. split; [| by etrans].
    intros ->. apply Hne12. by apply (anti_symm String.le).
  - left. done.
  - left. done.
  - right. split; [done | lia].
Qed.

(** [a] comes strictly before [b] in the order of strings. *)
Definition string_lt (a b : string) : Prop := String.le a b ∧ a ≠ b.

Lemma sorted_items_perm dist : sorted_items dist ≡ₚ map_to_list dist.
Proof. apply merge_sort_Permutation. Qed.

(** The items of a distribution come out with their keys strictly
    ascending. *)
Lemma sorted_items_ascending (dist : gmap string Z) :
  StronglySorted string_lt (sorted_items dist).*1.
Proof.
  pose proof (StronglySorted_merge_sort item_le (map_to_list dist)) as Hsorted.
  assert (Hnd : NoDup (sorted_items dist).*1).
  { rewrite (sorted_items_perm dist). apply NoDup_fst_map_to_list. }
  fold (sorted_items dist) in Hsorted.
  induction Hsorted as [|[k c] l Hs IH Hall]; [constructor |].
  rewrite fmap_cons in Hnd |- *. apply NoDup_cons in Hnd as [Hk Hnd].
  constructor; [by apply IH |].
  apply Forall_forall. intros k' Hk'.
  apply list_elem_of_fmap in Hk' as ([k'' c'] & -> & Hin).
  rewrite Forall_forall in Hall. specialize (Hall _ Hin).
  unfold item_le in Hall. simpl in *.
  destruct Hall as [[Hne Hle] | [-> _]]; [by split |].
  exfalso. apply Hk. apply list_elem_of_fmap. by exists (k'', c').
Qed.

(** The lines the loop over the sorted items draws, from height [y] down. *)
Fixpoint type_lines (y : Q) (items : list (string * Z)) : list CanvasOp :=
  match items with
  | [] => []
  | item :: rest =>
      DrawString (inches (12 # 10)) y (item.1 +:+ ": " +:+ pretty item.2)
      :: type_lines (down y (inches (25 # 100))) rest
  end.

Lemma foldl_draw_type_line items : ∀ p y,
  ∃ y', foldl draw_type_line (p, y) items = (p ++ type_lines y items, y').
Proof.
  induction items as [|item rest IH]; intros p y.
  - exists y. simpl. by rewrite app_nil_r.
  - simpl foldl. destruct (IH (p ++ [DrawString (inches (12 # 10)) y
                                      (item.1 +:+ ": " +:+ pretty item.2)])
                             (down y (inches (25 # 100)))) as [y' ->].
    exists y'. simpl. by rewrite <- app_assoc.
Qed.

Lemma draw_equipment_line_adds height p y eq :
  ∃ added y', draw_equipment_line height (p, y) eq = (p ++ added, y').
Proof.
  unfold draw_equipment_line. destruct (Qlt_le_dec y (inches 1)).
  - eexists (_ :: _ :: _), _. rewrite <- app_assoc. reflexivity.
  - eexists _, _. reflexivity.
Qed.

Lemma foldl_draw_equipment_line height eqs : ∀ p y,
  ∃ added y', foldl (draw_equipment_line height) (p, y) eqs = (p ++ added, y').
Proof.
  induction eqs as [|eq rest IH]; intros p y.
  - exists [], y. simpl. by rewrite app_nil_r.
  - change (foldl (draw_equipment_line height) (p, y) (eq :: rest))
      with (foldl (draw_equipment_line height)
              (draw_equipment_line height (p, y) eq) rest).
    destruct (draw_equipment_line_adds height p y eq) as (a1 & y1 & ->).
    destruct (IH (p ++ a1) y1) as (a2 & y2 & ->).
    exists (a1 ++ a2), y2. by rewrite <- app_assoc.
Qed.

Section Report.

Variable strftime : Z → string.

(** In every report the type distribution is drawn one line per type, in
    the order of the sorted items, right after its heading. *)
Lemma draw_report_type_lines dataset equipments :
  ∃ before after,
    draw_report strftime dataset equipments
    = before
      ++ [SetFont "Helvetica-Bold" 14;
          DrawString 72 (2466 # 5) "Equipment Type Distribution";
          SetFont "Helvetica" 11]
      ++ type_lines (2358 # 5) (sorted_items (type_distribution equipments))
      ++ after.
Proof.
  unfold draw_report, letter.
  match goal with
  | |- context [foldl draw_type_line (((?P ++ ?h1) ++ ?h2), ?y) ?items] =>
      set (before := P);
      destruct (foldl_draw_type_line items ((before ++ h1) ++ h2) y) as [y' ->]
  end.
  cbv beta iota zeta.
  destruct (Qlt_le_dec _ _);
    match goal with
    | |- context [foldl (draw_equipment_line ?h) (?p, ?y) ?eqs] =>
        destruct (foldl_draw_equipment_line h eqs p y) as (added & y'' & ->)
    end;
    exists before; eexists; rewrite <- !app_assoc; reflexivity.
Qed.

(** The report of a dataset without equipment rows: title, dataset lines,
    summary statistics, the two headings with nothing under them, footer. *)
Definition empty_report (d : EquipmentDataset.t) : list CanvasOp :=
  [SetFont "Helvetica-Bold" 20;
   DrawString 72 720 "Equipment Analysis Report";
   SetFont "Helvetica" 12;
   DrawString 72 684 ("Dataset: " +:+ EquipmentDataset.name d);
   DrawString 72 (3312 # 5)
     ("Uploaded: " +:+ strftime (EquipmentDataset.uploaded_at d));
   DrawString 72 (3204 # 5)
     ("Uploaded by: " +:+ username (EquipmentDataset.uploaded_by d));
   SetFont "Helvetica-Bold" 14;
   DrawString 72 (3024 # 5) "Summary Statistics";
   SetFont "Helvetica" 11;
   DrawString 72 (2916 # 5)
     ("Total Equipment Count: "
      +:+ pretty (EquipmentDataset.total_count d));
   DrawString 72 (2826 # 5)
     ("Average Flowrate: "
      +:+ format_f 2 (EquipmentDataset.avg_flowrate d));
   DrawString 72 (2736 # 5)
     ("Average Pressure: "
      +:+ format_f 2 (EquipmentDataset.avg_pressure d));
   DrawString 72 (2646 # 5)
     ("Average Temperature: "
      +:+ format_f 2 (EquipmentDataset.avg_temperature d));
   SetFont "Helvetica-Bold" 14;
   DrawString 72 (2466 # 5) "Equipment Type Distribution";
   SetFont "Helvetica" 11;
   SetFont "Helvetica-Bold" 14;
   DrawString 72 450 "Equipment Details";
   SetFont "Helvetica-Bold" 9;
   DrawString 72 (2142 # 5) "Name";
   DrawString 216 (2142 # 5) "Type";
   DrawString 324 (2142 # 5) "Flowrate";
   DrawString 396 (2142 # 5) "Pressure";
   DrawString 468 (2142 # 5) "Temp";
   Line 72 (2124 # 5) 540 (2124 # 5);
   SetFont "Helvetica" 8;
   SetFont "Helvetica-Oblique" 8;
   DrawString 72 36 "Generated by Chemical Equipment Visualizer";
   ShowPage;
   Save].

(** C9.  For a dataset without equipment rows the report is produced all
    the same: one page with the title, the three lines about the dataset,
    the summary statistics (count and the three averages with two
    decimals), the heading of the type distribution with no line under it,
    the heading and the column titles of the equipment table with no row
    under them, and the footer.  In every report the type distribution is
    drawn one line per type with the type names strictly ascending. *)
Theorem report_of_empty_dataset pk db d :
  datasets db !! pk = Some d →
  equipments_of db (EquipmentDataset.id d) = [] →
  generate_pdf strftime pk db
  = (inr {| document := empty_report d;
            as_attachment := true;
            attachment_name := "equipment_report_"
                               +:+ pretty (EquipmentDataset.id d) +:+ ".pdf" |},
     db)
  ∧ (∀ dataset equipments,
       StronglySorted string_lt
         (sorted_items (type_distribution equipments)).*1
       ∧ ∃ before after,
           draw_report strftime dataset equipments
           = before
             ++ [SetFont "Helvetica-Bold" 14;
                 DrawString 72 (2466 # 5) "Equipment Type Distribution";
                 SetFont "Helvetica" 11]
             ++ type_lines (2358 # 5) (sorted_items (type_distribution equipments))
             ++ after).
Proof.
  intros Hd Hnone. split.
  - unfold generate_pdf.
    rewrite (run_bind_ok _ _ _ _ _ (get_object_found _ _ _ Hd)).
    rewrite run_bind. unfold get_db, mret, M_ret. rewrite Hnone. reflexivity.
  - intros dataset equipments. split.
    + apply sorted_items_ascending.
    + apply draw_report_type_lines.
Qed.

End Report.


(** ** The key discipline is an invariant *)

Lemma db_wf_same db db' : datasets db' = datasets db → db_wf db → db_wf db'.
Proof. intros Heq Hwf k d. rewrite Heq. apply Hwf. Qed.

Lemma db_wf_insert db db' d :
  datasets db' = <[EquipmentDataset.id d := d]> (datasets db) →
  db_wf db → db_wf db'.
Proof.
  intros Heq Hwf k d'. rewrite Heq, lookup_insert. case_decide as Hk.
  - intros [= <-]. done.
  - apply Hwf.
Qed.

Lemma db_wf_delete db db' i :
  datasets db' = delete i (datasets db) → db_wf db → db_wf db'.
Proof.
  intros Heq Hwf k d. rewrite Heq, lookup_delete. case_decide; [done | apply Hwf].
Qed.

Lemma prune_step_wf env d db r db' :
  db_wf db → prune_step env d db = (r, db') → db_wf db'.
Proof.
  intros Hwf. unfold prune_step, file_delete, model_delete.
  destruct (EquipmentDataset.file d) as [path|]; simpl.
  - destruct (storage_delete_error env path) as [msg|].
    { by intros [= <- <-]. }
    unfold mbind, M_bind, modify, mret, M_ret, raise. simpl.
    destruct (row_delete_error env (EquipmentDataset.id d)) as [msg|];
      intros [= <- <-].
    + by apply (db_wf_insert db _ (EquipmentDataset.with_file d None)).
    + apply (db_wf_delete db _ (EquipmentDataset.id d)); [| done].
      simpl. by rewrite delete_insert_eq.
  - unfold mbind, M_bind, modify, mret, M_ret, raise. simpl.
    destruct (row_delete_error env (EquipmentDataset.id d)) as [msg|];
      intros [= <- <-]; [done |].
    by apply (db_wf_delete db _ (EquipmentDataset.id d)).
Qed.

Lemma keep_last_5_wf env db r db' :
  db_wf db → keep_last_5 env db = (r, db') → db_wf db'.
Proof.
  rewrite keep_last_5_unfold. generalize (drop 5 (objects_all db)) as l.
  intros l. revert db. induction l as [|d l IH]; intros db Hwf.
  - by intros [= <- <-].
  - simpl for_each. rewrite run_bind.
    destruct (prune_step env d db) as [[e | []] db0] eqn:Hstep.
    + intros [= <- <-]. by apply (prune_step_wf env d db (inl e)).
    + apply IH. by apply (prune_step_wf env d db (inr ())).
Qed.

Section Invariant.

Variable py_str : pyfloat → string.
Variable mean_error_text : list Cell → string.

Lemma create_dataset_keeps_wf env request file df db r db1 :
  db_wf db →
  create_dataset py_str mean_error_text env request file df db = (r, db1) →
  db_wf db1.
Proof.
  intros Hwf. unfold create_dataset.
  destruct (getitem_column df "Flowrate" ≫= mean mean_error_text env) as [e | a1];
    [by intros [= <- <-] |].
  destruct (getitem_column df "Pressure" ≫= mean mean_error_text env) as [e | a2];
    [by intros [= <- <-] |].
  destruct (getitem_column df "Temperature" ≫= mean mean_error_text env) as [e | a3];
    [by intros [= <- <-] |].
  simpl lift. do 3 (erewrite run_bind_ok by reflexivity).
  unfold objects_create.
  destruct (storage_save_error env) as [msg|]; [by intros [= <- <-] |].
  destruct (insert_error env) as [msg|]; [by intros [= <- <-] |].
  unfold mbind at 1, M_bind at 1. simpl.
  match goal with
  | |- context [equipment_objects py_str df ?d (rows df)] =>
      set (obj := d);
      destruct (equipment_objects py_str df obj (rows df)) as [e | objs]
  end.
  { intros [= <- <-]. by apply (db_wf_insert db _ obj). }
  simpl lift. unfold bulk_create.
  destruct (bulk_create_error env) as [msg|]; intros [= <- <-];
    by apply (db_wf_insert db _ obj).
Qed.

(** Every outcome of an upload, failed or not, leaves the rows filed under
    their own keys; so does every store reached from the empty one. *)
Lemma upload_wf env request db r db' :
  db_wf db → upload py_str mean_error_text env request db = (r, db') → db_wf db'.
Proof.
  intros Hwf. unfold upload.
  destruct (FILES request) as [file|]; [| by intros [= <- <-]].
  destruct (decide (filename file = "")); [by intros [= <- <-] |].
  destruct (negb (endswith (filename file) ".csv")); [by intros [= <- <-] |].
  assert (Hbody : ∀ r0 db0,
            upload_body py_str mean_error_text env request file db = (r0, db0) →
            db_wf db0).
  { intros r0 db0. unfold upload_body.
    destruct (read_csv (content file)) as [e | df]; simpl lift;
      [by intros [= <- <-] |].
    unfold mbind at 1, M_bind at 1, mret at 1, M_ret at 1.
    destruct (decide (filter (λ col, col ∉ columns df) required_cols ≠ []));
      [by intros [= <- <-] |].
    rewrite run_bind.
    destruct (create_dataset py_str mean_error_text env request file df db)
      as [[e | dataset] db1] eqn:Hcreate.
    { intros [= <- <-]. by eapply create_dataset_keeps_wf. }
    pose proof (create_dataset_keeps_wf _ _ _ _ _ _ _ Hwf Hcreate) as Hwf1.
    rewrite run_bind.
    destruct (keep_last_5 env db1) as [[e | []] db2] eqn:Hkeep;
      intros [= <- <-]; by eapply keep_last_5_wf. }
  unfold try_except.
  destruct (upload_body py_str mean_error_text env request file db)
    as [[e | resp] db0].
  - specialize (Hbody _ _ eq_refl). destruct e; by intros [= <- <-].
  - specialize (Hbody _ _ eq_refl). by intros [= <- <-].
Qed.

End Invariant.

Lemma empty_db_wf : db_wf empty_db.
Proof. intros k d H. simpl in H. by rewrite lookup_empty in H. Qed.
(** * Further properties of the views *)

(** The [error] text of a response body, if it has one. *)
Definition error_text (resp : Response) : option string :=
  match jget "error" (data resp) with
  | Some (JStr msg) => Some msg
  | _ => None
  end.

(** ** Upload: the eight ways a request can go *)

(** The request carries no usable file: none at all, or one without a name. *)
Definition no_file (request : Request) : Prop :=
  FILES request = None ∨ ∃ file, FILES request = Some file ∧ filename file = "".

Definition bad_request (msg : string) : Response :=
  {| data := error_body msg; status := HTTP_400_BAD_REQUEST |}.

Definition missing_columns_response (df : DataFrame) : Response :=
  {| data := JDict [("error", JStr ("Missing required columns: "
                                     +:+ join ", " (missing_columns df)));
                    ("required_columns", JList (JStr <$> required_cols));
                    ("found_columns", JList (JStr <$> columns df))];
     status := HTTP_400_BAD_REQUEST |}.

Section UploadCases.

Variable py_str : pyfloat → string.
Variable mean_error_text : list Cell → string.

(** Every way [upload] can go, with the answer and the store it leaves. *)
Inductive upload_outcome (env : Env) (request : Request) (db : DB)
    : (Exn + Response) * DB → Prop :=
| NoFile :
    no_file request →
    upload_outcome env request db (inr (bad_request "No file provided"), db)
| NotCsv file :
    FILES request = Some file → filename file ≠ "" →
    endswith (filename file) ".csv" = false →
    upload_outcome env request db
      (inr (bad_request "Only CSV files are allowed"), db)
| EmptyCsv file :
    csv_request request file → content file = NoColumns →
    upload_outcome env request db (inr (bad_request "CSV file is empty"), db)
| Unreadable file msg :
    csv_request request file → content file = Unparsable msg →
    upload_outcome env request db (inr (processing_error (OtherError msg)), db)
| MissingColumns file df :
    csv_request request file → content file = Table df →
    missing_columns df ≠ [] →
    upload_outcome env request db (inr (missing_columns_response df), db)
| CreateFailed file df msg db1 :
    csv_request request file → content file = Table df → has_required_cols df →
    create_dataset py_str mean_error_text env request file df db
    = (inl (OtherError msg), db1) →
    upload_outcome env request db (inr (processing_error (OtherError msg)), db1)
| PruneFailed file df dataset db1 msg db2 :
    csv_request request file → content file = Table df → has_required_cols df →
    create_dataset py_str mean_error_text env request file df db
    = (inr dataset, db1) →
    keep_last_5 env db1 = (inl (OtherError msg), db2) →
    upload_outcome env request db (inr (processing_error (OtherError msg)), db2)
| Created file df dataset db1 db2 :
    csv_request request file → content file = Table df → has_required_cols df →
    create_dataset py_str mean_error_text env request file df db
    = (inr dataset, db1) →
    keep_last_5 env db1 = (inr (), db2) →
    upload_outcome env request db (inr (created db2 dataset), db2).

(** [create_dataset] only ever raises an ordinary exception. *)
Lemma create_dataset_raises env request file df db e db1 :
  create_dataset py_str mean_error_text env request file df db = (inl e, db1) →
  ∃ msg, e = OtherError msg.
Proof.
  assert (Hcol : ∀ col e0,
            getitem_column df col ≫= mean mean_error_text env = inl e0 →
            ∃ msg, e0 = OtherError msg).
  { intros col e0. unfold getitem_column, KeyError.
    destruct (column_index df col) as [i|]; simpl; [| intros [= <-]; eauto].
    unfold mean. destruct (existsb is_text _); intros [= <-]. eauto. }
  assert (Hfloat : ∀ row col e0,
            getitem_row df row col ≫= float = inl e0 → ∃ msg, e0 = OtherError msg).
  { intros row col e0. unfold getitem_row, KeyError.
    destruct (column_index df col) as [i|]; simpl; [| intros [= <-]; eauto].
    destruct (cell_at i row); simpl; intros [= <-]. eauto. }
  assert (Hcell : ∀ row col e0,
            getitem_row df row col = inl e0 → ∃ msg, e0 = OtherError msg).
  { intros row col e0. unfold getitem_row, KeyError.
    destruct (column_index df col) as [i|]; simpl; intros [= <-]. eauto. }
  assert (Hrow : ∀ d row e0,
            equipment_of_row py_str df d row = inl e0 → ∃ msg, e0 = OtherError msg).
  { intros d row e0. unfold equipment_of_row.
    destruct (getitem_row df row "Equipment Name") as [e1|c1] eqn:H1; simpl;
      [intros [= <-]; eauto |].
    destruct (getitem_row df row "Type") as [e2|c2] eqn:H2; simpl;
      [intros [= <-]; eauto |].
    destruct (getitem_row df row "Flowrate" ≫= float) as [e3|c3] eqn:H3; simpl;
      [intros [= <-]; eauto |].
    destruct (getitem_row df row "Pressure" ≫= float) as [e4|c4] eqn:H4; simpl;
      [intros [= <-]; eauto |].
    destruct (getitem_row df row "Temperature" ≫= float) as [e5|c5] eqn:H5; simpl;
      [intros [= <-]; eauto |].
    discriminate. }
  assert (Hrows : ∀ d rows0 e0,
            equipment_objects py_str df d rows0 = inl e0 →
            ∃ msg, e0 = OtherError msg).
  { intros d rows0. induction rows0 as [|row rest IH]; intros e0; [discriminate |].
    simpl. destruct (equipment_of_row py_str df d row) as [e1|obj] eqn:H1; simpl;
      [intros [= <-]; eauto |].
    destruct (equipment_objects py_str df d rest) as [e2|objs]; simpl;
      [intros [= <-]; eauto | discriminate]. }
  unfold create_dataset.
  destruct (getitem_column df "Flowrate" ≫= mean mean_error_text env) as [e1 | a1] eqn:H1;
    [intros [= <- <-]; eauto |].
  destruct (getitem_column df "Pressure" ≫= mean mean_error_text env) as [e2 | a2] eqn:H2;
    [intros [= <- <-]; eauto |].
  destruct (getitem_column df "Temperature" ≫= mean mean_error_text env) as [e3 | a3] eqn:H3;
    [intros [= <- <-]; eauto |].
  simpl lift. do 3 (erewrite run_bind_ok by reflexivity).
  unfold objects_create.
  destruct (storage_save_error env) as [msg|]; [intros [= <- <-]; eauto |].
  destruct (insert_error env) as [msg|]; [intros [= <- <-]; eauto |].
  unfold mbind at 1, M_bind at 1. simpl.
  match goal with
  | |- context [equipment_objects py_str df ?d (rows df)] =>
      destruct (equipment_objects py_str df d (rows df)) as [e0 | objs] eqn:Hobjs
  end.
  { intros [= <- <-]. eauto. }
  simpl lift. unfold bulk_create.
  destruct (bulk_create_error env) as [msg|]; intros [= <- <-]. eauto.
Qed.

Lemma upload_outcome_holds env request db :
  upload_outcome env request db (upload py_str mean_error_text env request db).
Proof.
  destruct (FILES request) as [file|] eqn:Hfile.
  2: { unfold upload. rewrite Hfile. apply NoFile. by left. }
  destruct (decide (filename file = "")) as [Hempty | Hname].
  { unfold upload. rewrite Hfile.
    destruct (decide (filename file = "")); [| done].
    apply NoFile. right. eauto. }
  destruct (endswith (filename file) ".csv") eqn:Hcsv.
  2: { unfold upload. rewrite Hfile, Hcsv.
       destruct (decide (filename file = "")); [done |]. by eapply NotCsv. }
  assert (Hreq : csv_request request file) by done.
  rewrite (upload_csv_request py_str mean_error_text env request file Hreq).
  unfold try_except.
  destruct (content file) as [| msg | df] eqn:Hcontent.
  { unfold upload_body. rewrite Hcontent. by eapply EmptyCsv. }
  { unfold upload_body. rewrite Hcontent. by eapply Unreadable. }
  destruct (decide (missing_columns df = [])) as [Hcols | Hmissing].
  2: { rewrite (upload_body_missing _ _ _ _ _ _ _ Hcontent Hmissing).
       by eapply MissingColumns. }
  apply has_required_cols_missing in Hcols.
  rewrite (upload_body_required _ _ _ _ _ _ Hcontent Hcols), run_bind.
  destruct (create_dataset py_str mean_error_text env request file df db)
    as [[e | dataset] db1] eqn:Hcreate.
  { destruct (create_dataset_raises _ _ _ _ _ _ _ Hcreate) as [msg ->].
    by eapply CreateFailed. }
  rewrite run_bind.
  destruct (keep_last_5 env db1) as [[e | []] db2] eqn:Hkeep.
  { destruct (keep_last_5_raises _ _ _ _ Hkeep) as [msg ->].
    by eapply PruneFailed. }
  by eapply Created.
Qed.

End UploadCases.

(** ** Upload: what the answers say *)

Section UploadAnswers.

Variable py_str : pyfloat → string.
Variable mean_error_text : list Cell → string.

(** The file has a name, and the name does not end in [.csv]. *)
Definition not_csv (request : Request) : Prop :=
  ∃ file, FILES request = Some file ∧ filename file ≠ ""
          ∧ endswith (filename file) ".csv" = false.

(** The file is a [.csv] in which pandas finds no column at all. *)
Definition no_columns (request : Request) : Prop :=
  ∃ file, csv_request request file ∧ content file = NoColumns.

(** X2.  The three fixed error texts of [upload] each name one cause and
    nothing else produces them: "No file provided" is answered exactly when
    the request carries no file or a file without a name, "Only CSV files
    are allowed" exactly when the file's name does not end in [.csv], and
    "CSV file is empty" exactly when pandas finds no columns; no exception
    text that the catch-all handler wraps can pass for one of them. *)
Theorem upload_fixed_messages env request db resp db' :
  upload py_str mean_error_text env request db = (inr resp, db') →
  (error_text resp = Some "No file provided" ↔ no_file request)
  ∧ (error_text resp = Some "Only CSV files are allowed" ↔ not_csv request)
  ∧ (error_text resp = Some "CSV file is empty" ↔ no_columns request).
Proof.
  assert (Hfile : ∀ file, FILES request = Some file → filename file ≠ "" →
            ¬ no_file request).
  { intros file Hf Hn [Hnone | (file' & Hf' & Hn')]; congruence. }
  assert (Hcsv : ∀ file, csv_request request file → ¬ no_file request).
  { intros file (Hf & Hn & _). eauto. }
  assert (Hnot : ∀ file, csv_request request file → ¬ not_csv request).
  { intros file (Hf & Hn & He) (file' & Hf' & Hn' & He'). congruence. }
  assert (Hcols : ∀ file c, csv_request request file → content file = c →
            c ≠ NoColumns → ¬ no_columns request).
  { intros file c (Hf & _) Hc Hne (file' & (Hf' & _) & Hc'). congruence. }
  generalize (upload_outcome_holds py_str mean_error_text env request db).
  generalize (upload py_str mean_error_text env request db) as o.
  intros o Ho Heq.
  destruct Ho as [Hno | file Hf Hn He | file Hreq Hc | file msg Hreq Hc
                 | file df Hreq Hc Hm | file df msg db1 Hreq Hc Hcl Hcr
                 | file df d db1 msg db2 Hreq Hc Hcl Hcr Hk
                 | file df d db1 db2 Hreq Hc Hcl Hcr Hk];
    injection Heq as <- <-; unfold error_text; simpl.
  - split; [done |]. split; (split; [discriminate |]).
    + intros (file & Hf & Hn & _). destruct (Hfile file Hf Hn Hno).
    + intros (file & Hreq & _). destruct (Hcsv file Hreq Hno).
  - split; [| split].
    + split; [discriminate |]. intros Hno. by apply (Hfile file) in Hno.
    + split; [| done]. intros _. by exists file.
    + split; [discriminate |]. intros (file' & (Hf' & _ & He') & _). congruence.
  - split; [| split].
    + split; [discriminate |]. intros Hno. by apply (Hcsv file) in Hno.
    + split; [discriminate |]. intros Hno. by apply (Hnot file) in Hno.
    + split; [| done]. intros _. by exists file.
  - split; [| split]; (split; [discriminate |]); intros Hno.
    + by apply (Hcsv file) in Hno.
    + by apply (Hnot file) in Hno.
    + by apply (Hcols file _ Hreq Hc) in Hno.
  - split; [| split]; (split; [discriminate |]); intros Hno.
    + by apply (Hcsv file) in Hno.
    + by apply (Hnot file) in Hno.
    + by apply (Hcols file _ Hreq Hc) in Hno.
  - split; [| split]; (split; [discriminate |]); intros Hno.
    + by apply (Hcsv file) in Hno.
    + by apply (Hnot file) in Hno.
    + by apply (Hcols file _ Hreq Hc) in Hno.
  - split; [| split]; (split; [discriminate |]); intros Hno.
    + by apply (Hcsv file) in Hno.
    + by apply (Hnot file) in Hno.
    + by apply (Hcols file _ Hreq Hc) in Hno.
  - split; [| split]; (split; [discriminate |]); intros Hno.
    + by apply (Hcsv file) in Hno.
    + by apply (Hnot file) in Hno.
    + by apply (Hcols file _ Hreq Hc) in Hno.
Qed.

End UploadAnswers.

(** ** Upload: when nothing in the surroundings fails *)

Lemma numeric_frame_cases df : numeric_frame df ∨ ¬ numeric_frame df.
Proof.
  destruct (existsb is_text (column_cells df "Flowrate")) eqn:HF.
  { right. intros H. rewrite H in HF; [done |]. unfold numeric_cols. set_solver. }
  destruct (existsb is_text (column_cells df "Pressure")) eqn:HP.
  { right. intros H. rewrite H in HP; [done |]. unfold numeric_cols. set_solver. }
  destruct (existsb is_text (column_cells df "Temperature")) eqn:HT.
  { right. intros H. rewrite H in HT; [done |]. unfold numeric_cols. set_solver. }
  left. intros col Hcol. unfold numeric_cols in Hcol.
  rewrite !elem_of_cons in Hcol.
  destruct Hcol as [-> | [-> | [-> | Hnil]]]; [done | done | done | inversion Hnil].
Qed.

(** A request [upload] can store: a [.csv] file that parses to a frame with
    the five required columns and no text in the three numeric ones. *)
Definition acceptable (request : Request) : Prop :=
  ∃ file df, csv_request request file ∧ content file = Table df
             ∧ has_required_cols df ∧ numeric_frame df.

Section FaultFree.

Variable py_str : pyfloat → string.
Variable mean_error_text : list Cell → string.

(** With a storage and a database that accept what they are given,
    [create_dataset] either stores everything or raises before it has stored
    anything. *)
Lemma create_dataset_all_or_nothing env request file df db :
  has_required_cols df → persistence_succeeds env →
  (numeric_frame df
   ∧ create_dataset py_str mean_error_text env request file df db
     = (inr (new_dataset env request file df db),
        stored py_str env request file df db))
  ∨ (¬ numeric_frame df
     ∧ ∃ msg, create_dataset py_str mean_error_text env request file df db
              = (inl (OtherError msg), db)).
Proof.
  intros Hcols (Hsave & Hinsert & Hbulk).
  destruct (numeric_frame_cases df) as [Hnum | Hnum].
  - left. split; [done |]. by apply create_dataset_ok.
  - right. split; [done |].
    destruct (create_dataset_text py_str mean_error_text env request file df db
                Hcols Hnum) as (col & _ & _ & ->).
    eauto.
Qed.

(** X3.  When neither the storage nor the database fails, [upload] answers
    201 exactly for the acceptable requests, and a request it answers 400
    has changed nothing: no file, no row, no effect at all. *)
Theorem upload_accepts_exactly env request db resp db' :
  persistence_succeeds env → deletions_succeed env →
  upload py_str mean_error_text env request db = (inr resp, db') →
  (status resp = HTTP_201_CREATED ↔ acceptable request)
  ∧ (status resp = HTTP_400_BAD_REQUEST → db' = db).
Proof.
  intros Hpersist Hdel.
  assert (Hfile : ∀ file, csv_request request file → ¬ no_file request).
  { intros file (Hf & Hn & _) [Hnone | (file' & Hf' & Hn')]; congruence. }
  generalize (upload_outcome_holds py_str mean_error_text env request db).
  generalize (upload py_str mean_error_text env request db) as o.
  intros o Ho Heq.
  destruct Ho as [Hno | file Hf Hn He | file Hreq Hc | file msg Hreq Hc
                 | file df Hreq Hc Hm | file df msg db1 Hreq Hc Hcl Hcr
                 | file df d db1 msg db2 Hreq Hc Hcl Hcr Hk
                 | file df d db1 db2 Hreq Hc Hcl Hcr Hk];
    injection Heq as <- <-; simpl.
  - split; [| done]. split; [discriminate |].
    intros (file & df & Hreq & _). destruct (Hfile file Hreq Hno).
  - split; [| done]. split; [discriminate |].
    intros (file' & df & (Hf' & _ & He') & _). congruence.
  - split; [| done]. split; [discriminate |].
    intros (file' & df & (Hf' & _) & Hc' & _). destruct Hreq as (Hf & _). congruence.
  - split; [| done]. split; [discriminate |].
    intros (file' & df & (Hf' & _) & Hc' & _). destruct Hreq as (Hf & _). congruence.
  - split; [| done]. split; [discriminate |].
    intros (file' & df' & (Hf' & _) & Hc' & Hcols%has_required_cols_missing & _).
    destruct Hreq as (Hf & _). congruence.
  - destruct (create_dataset_all_or_nothing env request file df db Hcl Hpersist)
      as [[_ Hok] | [Hnum (msg' & Hraise)]]; [congruence |].
    split; [| congruence]. split; [discriminate |].
    intros (file' & df' & (Hf' & _) & Hc' & _ & Hnum').
    destruct Hreq as (Hf & _). congruence.
  - rewrite (keep_last_5_succeeds env db1 Hdel) in Hk. discriminate.
  - split; [| discriminate]. split; [| done]. intros _.
    destruct (create_dataset_all_or_nothing env request file df db Hcl Hpersist)
      as [[Hnum _] | [_ (msg' & Hraise)]]; [| congruence].
    by exists file, df.
Qed.

End FaultFree.

(** ** Upload: a store that fails part-way *)

(** The store after the FileField has written the upload. *)
Definition file_saved (path : string) (db : DB) : DB :=
  log (FileSaved path) (set_storage (λ s, {[path]} ∪ s) db).

(** The store after the dataset row went in. *)
Definition row_inserted (d : EquipmentDataset.t) (db : DB) : DB :=
  log (RowInserted (EquipmentDataset.id d))
    (bump_dataset_id (set_datasets (insert (EquipmentDataset.id d) d) db)).

Section PartialPersistence.

Variable py_str : pyfloat → string.
Variable mean_error_text : list Cell → string.

Lemma create_dataset_insert_fails env request file df db msg :
  has_required_cols df → numeric_frame df →
  storage_save_error env = None → insert_error env = Some msg →
  create_dataset py_str mean_error_text env request file df db
  = (inl (OtherError msg),
     file_saved (get_available_name ("datasets/" +:+ filename file) (storage db)) db).
Proof.
  intros Hreq Hnum Hsave Hinsert. unfold create_dataset.
  rewrite !(column_mean_ok mean_error_text env df) by
    (done || unfold numeric_cols; rewrite !elem_of_cons; tauto).
  simpl lift. do 3 (erewrite run_bind_ok by reflexivity).
  unfold objects_create. rewrite Hsave, Hinsert. reflexivity.
Qed.

Lemma create_dataset_bulk_fails env request file df db msg :
  has_required_cols df → numeric_frame df →
  storage_save_error env = None → insert_error env = None →
  bulk_create_error env = Some msg →
  create_dataset py_str mean_error_text env request file df db
  = (inl (OtherError msg),
     row_inserted (new_dataset env request file df db)
       (file_saved (get_available_name ("datasets/" +:+ filename file) (storage db))
          db)).
Proof.
  intros Hreq Hnum Hsave Hinsert Hbulk. unfold create_dataset.
  rewrite !(column_mean_ok mean_error_text env df) by
    (done || unfold numeric_cols; rewrite !elem_of_cons; tauto).
  fold (column_mean env df "Flowrate") (column_mean env df "Pressure")
    (column_mean env df "Temperature").
  simpl lift. do 3 (erewrite run_bind_ok by reflexivity).
  erewrite run_bind_ok by (by apply objects_create_ok).
  fold (new_dataset env request file df db).
  rewrite (equipment_objects_ok py_str df (new_dataset env request file df db) (rows df));
    [| done | by intros; apply numeric_frame_cell].
  unfold bulk_create. rewrite Hbulk. reflexivity.
Qed.

(** X4.  The dataset row cannot be inserted.  The FileField has written the
    upload by then and nothing takes it back: the request is answered 400
    with the text of the database error, no row and no equipment row is
    added, and the file stays in the storage with no row pointing at it. *)
Theorem insert_failure_leaves_file env request file df db msg :
  csv_request request file → content file = Table df →
  has_required_cols df → numeric_frame df →
  storage_save_error env = None → insert_error env = Some msg →
  ∃ db',
    upload py_str mean_error_text env request db
    = (inr (bad_request ("Error processing CSV: " +:+ msg)), db')
    ∧ storage db'
      = {[get_available_name ("datasets/" +:+ filename file) (storage db)]}
        ∪ storage db
    ∧ datasets db' = datasets db
    ∧ equipments db' = equipments db
    ∧ trace db'
      = trace db
        ++ [FileSaved (get_available_name ("datasets/" +:+ filename file)
                         (storage db))].
Proof.
  intros Hreq Hcontent Hcols Hnum Hsave Hinsert. eexists. split.
  - apply (upload_create_raises py_str mean_error_text env request file df db msg);
      [done | done | done |].
    by apply create_dataset_insert_fails.
  - done.
Qed.

(** X5.  The equipment rows cannot be inserted.  The dataset row and its
    file are stored by then and stay: the request is answered 400 with the
    text of the database error, yet the store now holds a dataset whose
    [total_count] is the number of data rows of the file and which has no
    equipment row at all; the pruning step has not run. *)
Theorem bulk_create_failure_leaves_dataset env request file df db msg :
  csv_request request file → content file = Table df →
  has_required_cols df → numeric_frame df →
  storage_save_error env = None → insert_error env = None →
  bulk_create_error env = Some msg →
  ∃ db',
    upload py_str mean_error_text env request db
    = (inr (bad_request ("Error processing CSV: " +:+ msg)), db')
    ∧ datasets db'
      = <[next_dataset_id db := new_dataset env request file df db]> (datasets db)
    ∧ EquipmentDataset.total_count (new_dataset env request file df db) = len df
    ∧ equipments db' = equipments db
    ∧ get_available_name ("datasets/" +:+ filename file) (storage db) ∈ storage db'
    ∧ trace db'
      = trace db
        ++ [FileSaved (get_available_name ("datasets/" +:+ filename file)
                         (storage db));
            RowInserted (next_dataset_id db)].
Proof.
  intros Hreq Hcontent Hcols Hnum Hsave Hinsert Hbulk. eexists. split.
  - apply (upload_create_raises py_str mean_error_text env request file df db msg);
      [done | done | done |].
    by apply create_dataset_bulk_fails.
  - simpl. do 3 (split; [done |]). split; [set_solver |].
    by rewrite <- app_assoc.
Qed.

End PartialPersistence.

(** ** The store stays consistent *)

(** Primary keys in use lie below the next one to be given out. *)
Definition keys_below (db : DB) : Prop :=
  ∀ k, is_Some (datasets db !! k) → k < next_dataset_id db.

(** The foreign key of every equipment row names a dataset that is there. *)
Definition references_resolve (db : DB) : Prop :=
  ∀ e, e ∈ equipments db → is_Some (datasets db !! Equipment.dataset e).

(** [total_count] of every dataset is the number of its equipment rows. *)
Definition counts_agree (db : DB) : Prop :=
  ∀ k d, datasets db !! k = Some d →
         EquipmentDataset.total_count d = Z.of_nat (length (equipments_of db k)).

Definition store_sound (db : DB) : Prop :=
  db_wf db ∧ keys_below db ∧ references_resolve db.

(** The store after the equipment rows went in. *)
Definition records_inserted (dataset_id : Z) (objs : list Equipment.t) (db : DB) : DB :=
  log (RecordsInserted dataset_id (length objs))
    (bump_equipment_id (length objs)
       (set_equipments (λ es, es ++ assign_ids (next_equipment_id db) objs) db)).

(** The store after [file.delete()] of a dataset with a file. *)
Definition file_dropped (path : string) (d : EquipmentDataset.t) (db : DB) : DB :=
  set_datasets (insert (EquipmentDataset.id d) (EquipmentDataset.with_file d None))
    (log (FileDeleted path) (set_storage (λ s, s ∖ {[path]}) db)).

Lemma empty_db_sound : store_sound empty_db ∧ counts_agree empty_db.
Proof.
  split; [split; [| split] |].
  - apply empty_db_wf.
  - intros k [d H]. simpl in H. by rewrite lookup_empty in H.
  - intros e H. inversion H.
  - intros k d H. simpl in H. by rewrite lookup_empty in H.
Qed.

Lemma assign_ids_dataset objs : ∀ first e,
  e ∈ assign_ids first objs →
  ∃ e0, e0 ∈ objs ∧ Equipment.dataset e = Equipment.dataset e0.
Proof.
  induction objs as [|o objs IH]; intros first e He; [inversion He |].
  simpl in He. apply elem_of_cons in He as [-> | He].
  - exists o. split; [left | done].
  - destruct (IH _ _ He) as (e0 & Hin & Heq). exists e0. split; [by right | done].
Qed.

Lemma file_saved_sound path db : store_sound db → store_sound (file_saved path db).
Proof. intros (Hwf & Hkeys & Href). done. Qed.

Lemma row_inserted_sound d db :
  EquipmentDataset.id d = next_dataset_id db →
  store_sound db → store_sound (row_inserted d db).
Proof.
  intros Hid (Hwf & Hkeys & Href). split; [| split].
  - by apply (db_wf_insert db _ d).
  - intros k. simpl. rewrite lookup_insert_is_Some. intros [<- | [_ Hk]].
    + lia.
    + specialize (Hkeys k Hk). lia.
  - intros e He. simpl. rewrite lookup_insert_is_Some'. right. by apply Href.
Qed.

Lemma records_inserted_sound i objs db :
  (∀ e, e ∈ objs → is_Some (datasets db !! Equipment.dataset e)) →
  store_sound db → store_sound (records_inserted i objs db).
Proof.
  intros Hobjs (Hwf & Hkeys & Href). split; [done | split; [done |]].
  intros e. simpl. rewrite elem_of_app. intros [He | He]; [by apply Href |].
  destruct (assign_ids_dataset _ _ _ He) as (e0 & Hin & ->). by apply Hobjs.
Qed.

Section Outcomes.

Variable py_str : pyfloat → string.
Variable mean_error_text : list Cell → string.

Lemma equipment_of_row_dataset df d row obj :
  equipment_of_row py_str df d row = inr obj →
  Equipment.dataset obj = EquipmentDataset.id d.
Proof.
  clear mean_error_text. unfold equipment_of_row.
  destruct (getitem_row df row "Equipment Name") as [e1|c1]; simpl; [discriminate |].
  destruct (getitem_row df row "Type") as [e2|c2]; simpl; [discriminate |].
  destruct (getitem_row df row "Flowrate" ≫= float) as [e3|c3]; simpl;
    [discriminate |].
  destruct (getitem_row df row "Pressure" ≫= float) as [e4|c4]; simpl;
    [discriminate |].
  destruct (getitem_row df row "Temperature" ≫= float) as [e5|c5]; simpl;
    [discriminate |].
  by intros [= <-].
Qed.

Lemma equipment_objects_dataset df d rows0 : ∀ objs,
  equipment_objects py_str df d rows0 = inr objs →
  ∀ e, e ∈ objs → Equipment.dataset e = EquipmentDataset.id d.
Proof.
  clear mean_error_text.
  induction rows0 as [|row rest IH]; intros objs.
  - intros [= <-] e He. inversion He.
  - simpl. destruct (equipment_of_row py_str df d row) as [e1|obj] eqn:H1; simpl;
      [discriminate |].
    destruct (equipment_objects py_str df d rest) as [e2|objs0]; simpl;
      [discriminate |].
    intros [= <-] e [-> | He]%elem_of_cons.
    + by apply (equipment_of_row_dataset df d row).
    + by apply (IH objs0).
Qed.

(** How far [create_dataset] got, whatever it returned: nowhere, as far as
    the file, as far as the dataset row, or to the end. *)
Lemma create_dataset_effect env request file df db r db1 :
  create_dataset py_str mean_error_text env request file df db = (r, db1) →
  ((∃ e, r = inl e) ∧ db1 = db)
  ∨ (∃ path, (∃ e, r = inl e)
             ∧ db1 = file_saved path db)
  ∨ (∃ path d, (∃ e, r = inl e)
               ∧ EquipmentDataset.id d = next_dataset_id db
               ∧ db1 = row_inserted d (file_saved path db))
  ∨ (∃ path d objs,
       r = inr d
       ∧ EquipmentDataset.id d = next_dataset_id db
       ∧ (∀ e, e ∈ objs → Equipment.dataset e = EquipmentDataset.id d)
       ∧ db1 = records_inserted (EquipmentDataset.id d) objs
                 (row_inserted d (file_saved path db))).
Proof.
  unfold create_dataset.
  destruct (getitem_column df "Flowrate" ≫= mean mean_error_text env) as [e | a1];
    [intros [= <- <-]; left; by eauto |].
  destruct (getitem_column df "Pressure" ≫= mean mean_error_text env) as [e | a2];
    [intros [= <- <-]; left; by eauto |].
  destruct (getitem_column df "Temperature" ≫= mean mean_error_text env) as [e | a3];
    [intros [= <- <-]; left; by eauto |].
  simpl lift. do 3 (erewrite run_bind_ok by reflexivity).
  unfold objects_create.
  destruct (storage_save_error env) as [msg|]; [intros [= <- <-]; left; by eauto |].
  destruct (insert_error env) as [msg|].
  { intros [= <- <-]. right. left. eexists. split; [by eauto | reflexivity]. }
  unfold mbind at 1, M_bind at 1. simpl.
  match goal with
  | |- context [equipment_objects py_str df ?d (rows df)] =>
      set (obj := d);
      destruct (equipment_objects py_str df obj (rows df)) as [e | objs] eqn:Hobjs
  end.
  { intros [= <- <-]. right. right. left. eexists _, obj.
    split; [by eauto |]. split; reflexivity. }
  simpl lift. unfold bulk_create.
  destruct (bulk_create_error env) as [msg|]; intros [= <- <-].
  - right. right. left. eexists _, obj. split; [by eauto |]. split; reflexivity.
  - right. right. right. eexists _, obj, objs. split; [done |]. split; [done |].
    split; [| reflexivity]. by apply (equipment_objects_dataset df obj (rows df)).
Qed.

Lemma create_dataset_sound env request file df db r db1 :
  store_sound db →
  create_dataset py_str mean_error_text env request file df db = (r, db1) →
  store_sound db1.
Proof.
  intros Hsound Hcreate.
  destruct (create_dataset_effect _ _ _ _ _ _ _ Hcreate)
    as [[_ ->] | [(path & _ & ->) | [(path & d & _ & Hid & ->)
       | (path & d & objs & _ & Hid & Hobjs & ->)]]].
  - done.
  - by apply file_saved_sound.
  - apply row_inserted_sound; [done |]. by apply file_saved_sound.
  - apply records_inserted_sound.
    + intros e He. rewrite (Hobjs e He). simpl. rewrite lookup_insert_eq. eauto.
    + apply row_inserted_sound; [done |]. by apply file_saved_sound.
Qed.

End Outcomes.

(** One turn of the pruning loop, whatever it returned: it went through, it
    changed nothing, or it took the file and then could not delete the row. *)
Lemma prune_step_effect env d db r db' :
  prune_step env d db = (r, db') →
  (r = inr () ∧ db' = pruned db d)
  ∨ (∃ msg, r = inl (OtherError msg) ∧ db' = db)
  ∨ (∃ msg path, r = inl (OtherError msg)
       ∧ EquipmentDataset.file d = Some path
       ∧ row_delete_error env (EquipmentDataset.id d) = Some msg
       ∧ db' = file_dropped path d db).
Proof.
  unfold prune_step, file_delete, model_delete, pruned, prune_events.
  destruct (EquipmentDataset.file d) as [path|] eqn:Hfile; simpl.
  - destruct (storage_delete_error env path) as [msg|] eqn:Hs.
    { intros [= <- <-]. right. left. eauto. }
    unfold mbind, M_bind, modify, mret, M_ret, raise. simpl.
    destruct (row_delete_error env (EquipmentDataset.id d)) as [msg|] eqn:Hr;
      intros [= <- <-].
    + right. right. exists msg, path. done.
    + left. split; [done |].
      unfold log, set_equipments, set_datasets, set_storage. simpl.
      rewrite delete_insert_eq, <- app_assoc. reflexivity.
  - unfold mbind, M_bind, modify, mret, M_ret, raise. simpl.
    destruct (row_delete_error env (EquipmentDataset.id d)) as [msg|] eqn:Hr;
      intros [= <- <-].
    + right. left. eauto.
    + left. done.
Qed.

Lemma filter_dataset_other (k i : Z) (es : list Equipment.t) :
  k ≠ i →
  filter (λ e, Equipment.dataset e = k) (filter (λ e, Equipment.dataset e ≠ i) es)
  = filter (λ e, Equipment.dataset e = k) es.
Proof.
  intros Hk. rewrite list_filter_filter. apply list_filter_iff.
  intros e. split; [tauto | intros ->; done].
Qed.

Lemma pruned_sound db d :
  store_sound db → store_sound (pruned db d).
Proof.
  intros (Hwf & Hkeys & Href). split; [| split].
  - by apply (db_wf_delete db _ (EquipmentDataset.id d)).
  - intros k. simpl. rewrite lookup_delete_is_Some. intros [_ Hk]. by apply Hkeys.
  - intros e. simpl. rewrite list_elem_of_filter, lookup_delete_is_Some.
    intros [Hne He]. split; [done | by apply Href].
Qed.

Lemma pruned_counts db d : counts_agree db → counts_agree (pruned db d).
Proof.
  intros Hcount k d'. simpl. rewrite lookup_delete_Some. intros [Hne Hk].
  unfold equipments_of. simpl. rewrite filter_dataset_other by done.
  by apply Hcount.
Qed.

Lemma file_dropped_sound path d db :
  is_Some (datasets db !! EquipmentDataset.id d) →
  store_sound db → store_sound (file_dropped path d db).
Proof.
  intros Hd (Hwf & Hkeys & Href). split; [| split].
  - by apply (db_wf_insert db _ (EquipmentDataset.with_file d None)).
  - intros k. simpl. rewrite lookup_insert_is_Some. intros [<- | [_ Hk]];
      by apply Hkeys.
  - intros e He. simpl. rewrite lookup_insert_is_Some'. right. by apply Href.
Qed.

Lemma file_dropped_counts path d db :
  datasets db !! EquipmentDataset.id d = Some d →
  counts_agree db → counts_agree (file_dropped path d db).
Proof.
  intros Hd Hcount k d'. simpl. rewrite lookup_insert_Some.
  intros [[<- <-] | [Hne Hk]].
  - by apply (Hcount _ d).
  - by apply Hcount.
Qed.

Lemma prune_step_sound env d db r db' :
  store_sound db → datasets db !! EquipmentDataset.id d = Some d →
  prune_step env d db = (r, db') →
  store_sound db' ∧ (counts_agree db → counts_agree db').
Proof.
  intros Hsound Hd Hstep.
  destruct (prune_step_effect _ _ _ _ _ Hstep)
    as [[_ ->] | [(msg & _ & ->) | (msg & path & _ & _ & _ & ->)]].
  - split; [by apply pruned_sound | by apply pruned_counts].
  - done.
  - split; [apply file_dropped_sound; eauto | by apply file_dropped_counts].
Qed.

Lemma for_each_prune_sound env l : ∀ db r db',
  store_sound db → NoDup (EquipmentDataset.id <$> l) →
  (∀ d, d ∈ l → datasets db !! EquipmentDataset.id d = Some d) →
  for_each l (prune_step env) db = (r, db') →
  store_sound db' ∧ (counts_agree db → counts_agree db').
Proof.
  induction l as [|d l IH]; intros db r db' Hsound Hnd Hrows.
  - by intros [= <- <-].
  - rewrite fmap_cons in Hnd. apply NoDup_cons in Hnd as [Hd Hnd].
    simpl for_each. rewrite run_bind.
    destruct (prune_step env d db) as [[e | []] db0] eqn:Hstep.
    + intros [= <- <-]. apply (prune_step_sound env d db (inl e)); [done | | done].
      apply Hrows. left.
    + intros Hrest.
      destruct (prune_step_sound env d db (inr ()) db0 Hsound) as [Hsound0 Hcount0];
        [apply Hrows; left | done |].
      destruct (IH db0 r db' Hsound0 Hnd) as [Hsound' Hcount']; [| done |].
      * intros d' Hd'.
        destruct (prune_step_other env d db (inr ()) db0 (EquipmentDataset.id d') Hstep)
          as [-> _].
        { intros Heq. apply Hd. rewrite <- Heq. apply list_elem_of_fmap. eauto. }
        apply Hrows. by right.
      * split; [done |]. intros Hc. by apply Hcount', Hcount0.
Qed.

Lemma keep_last_5_sound env db r db' :
  store_sound db → keep_last_5 env db = (r, db') →
  store_sound db' ∧ (counts_agree db → counts_agree db').
Proof.
  intros Hsound. rewrite keep_last_5_unfold.
  apply for_each_prune_sound; [done | |].
  - pose proof (NoDup_objects_all_ids db (proj1 Hsound)) as Hnd.
    rewrite <- (take_drop 5 (objects_all db)), fmap_app in Hnd.
    by apply NoDup_app in Hnd as (_ & _ & Hnd).
  - intros d Hd.
    assert (d ∈ objects_all db) as Hall.
    { rewrite <- (take_drop 5 (objects_all db)), elem_of_app. auto. }
    apply elem_of_objects_all in Hall as (k & Hk).
    by rewrite (proj1 Hsound k d Hk).
Qed.

Lemma filter_all {A} (P : A → Prop) `{∀ x, Decision (P x)} (l : list A) :
  (∀ x, x ∈ l → P x) → filter P l = l.
Proof.
  induction l as [|x l IH]; intros Hall; [done |].
  rewrite filter_cons_True by (apply Hall; left).
  f_equal. apply IH. intros y Hy. apply Hall. by right.
Qed.

Lemma filter_none {A} (P : A → Prop) `{∀ x, Decision (P x)} (l : list A) :
  (∀ x, x ∈ l → ¬ P x) → filter P l = [].
Proof.
  induction l as [|x l IH]; intros Hall; [done |].
  rewrite filter_cons_False by (apply Hall; left).
  apply IH. intros y Hy. apply Hall. by right.
Qed.

Section Counts.

Variable py_str : pyfloat → string.
Variable mean_error_text : list Cell → string.

Lemma new_records_dataset df db e :
  e ∈ new_records py_str df db → Equipment.dataset e = next_dataset_id db.
Proof.
  clear mean_error_text. unfold new_records. intros He.
  destruct (assign_ids_dataset _ _ _ He) as (e0 & Hin & ->).
  apply list_elem_of_fmap in Hin as (row & -> & _). done.
Qed.

Lemma length_new_records df db :
  length (new_records py_str df db) = length (rows df).
Proof. unfold new_records. by rewrite length_assign_ids, length_fmap. Qed.

(** A dataset stored in full has as many equipment rows as it says. *)
Lemma stored_counts env request file df db :
  store_sound db → counts_agree db →
  counts_agree (stored py_str env request file df db).
Proof.
  clear mean_error_text. intros (Hwf & Hkeys & Href) Hcount k d.
  assert (Hfresh : ∀ e, e ∈ equipments db → Equipment.dataset e ≠ next_dataset_id db).
  { intros e He Heq. specialize (Hkeys _ (Href e He)). lia. }
  unfold equipments_of. simpl. rewrite filter_app, length_app, lookup_insert_Some.
  intros [[<- <-] | [Hne Hk]].
  - rewrite (filter_none _ (equipments db)) by exact Hfresh.
    rewrite filter_all by (intros e He; by apply (new_records_dataset df db)).
    rewrite length_new_records. reflexivity.
  - rewrite (filter_none _ (new_records py_str df db)).
    + rewrite Nat.add_0_r. by apply Hcount.
    + intros e He. rewrite (new_records_dataset df db e He). done.
Qed.

(** X6.  Whatever an upload does (turned away, stored, or failing part-way
    while it stores or prunes), the store it leaves is consistent when the
    one it found was: every dataset is filed under its own key, the keys in
    use are below the next key, and every equipment row belongs to a dataset
    that is in the store. *)
Theorem upload_keeps_store_sound env request db r db' :
  store_sound db →
  upload py_str mean_error_text env request db = (r, db') →
  store_sound db'.
Proof.
  intros Hsound.
  generalize (upload_outcome_holds py_str mean_error_text env request db).
  generalize (upload py_str mean_error_text env request db) as o.
  intros o Ho Heq.
  destruct Ho as [Hno | file Hf Hn He | file Hreq Hc | file msg Hreq Hc
                 | file df Hreq Hc Hm | file df msg db1 Hreq Hc Hcl Hcr
                 | file df d db1 msg db2 Hreq Hc Hcl Hcr Hk
                 | file df d db1 db2 Hreq Hc Hcl Hcr Hk];
    injection Heq as <- <-; try exact Hsound.
  - by apply (create_dataset_sound _ _ _ _ _ _ _ _ _ Hsound Hcr).
  - pose proof (create_dataset_sound _ _ _ _ _ _ _ _ _ Hsound Hcr) as Hsound1.
    by destruct (keep_last_5_sound _ _ _ _ Hsound1 Hk).
  - pose proof (create_dataset_sound _ _ _ _ _ _ _ _ _ Hsound Hcr) as Hsound1.
    by destruct (keep_last_5_sound _ _ _ _ Hsound1 Hk).
Qed.

(** X7.  When storing does not fail, an upload also keeps the counts right:
    in the store it leaves, [total_count] of every dataset is the number of
    equipment rows that belong to it.  This holds for every answer, also
    when the pruning step fails part-way. *)
Theorem upload_keeps_counts env request db r db' :
  persistence_succeeds env →
  store_sound db → counts_agree db →
  upload py_str mean_error_text env request db = (r, db') →
  counts_agree db'.
Proof.
  intros Hpersist Hsound Hcount.
  assert (Hstored : ∀ file df d db1,
            has_required_cols df →
            create_dataset py_str mean_error_text env request file df db
            = (inr d, db1) →
            store_sound db1 ∧ counts_agree db1).
  { intros file df d db1 Hcl Hcr. split.
    - by apply (create_dataset_sound _ _ _ _ _ _ _ _ _ Hsound Hcr).
    - destruct (create_dataset_all_or_nothing py_str mean_error_text env request
                  file df db Hcl Hpersist)
        as [[_ Hok] | [_ (msg & Hraise)]]; [| congruence].
      rewrite Hok in Hcr. injection Hcr as _ <-. by apply stored_counts. }
  generalize (upload_outcome_holds py_str mean_error_text env request db).
  generalize (upload py_str mean_error_text env request db) as o.
  intros o Ho Heq.
  destruct Ho as [Hno | file Hf Hn He | file Hreq Hc | file msg Hreq Hc
                 | file df Hreq Hc Hm | file df msg db1 Hreq Hc Hcl Hcr
                 | file df d db1 msg db2 Hreq Hc Hcl Hcr Hk
                 | file df d db1 db2 Hreq Hc Hcl Hcr Hk];
    injection Heq as <- <-; try exact Hcount.
  - destruct (create_dataset_all_or_nothing py_str mean_error_text env request
                file df db Hcl Hpersist)
      as [[_ Hok] | [_ (msg' & Hraise)]]; [congruence |].
    rewrite Hraise in Hcr. by injection Hcr as _ <-.
  - destruct (Hstored _ _ _ _ Hcl Hcr) as [Hsound1 Hcount1].
    destruct (keep_last_5_sound _ _ _ _ Hsound1 Hk) as [_ Himp]. by apply Himp.
  - destruct (Hstored _ _ _ _ Hcl Hcr) as [Hsound1 Hcount1].
    destruct (keep_last_5_sound _ _ _ _ Hsound1 Hk) as [_ Himp]. by apply Himp.
Qed.

End Counts.

(** X8.  In a store where the counts agree, both serializers tell the same
    number twice: [equipment_count] of the summary serializer (a count
    query) is the stored [total_count], and the [equipments] list of the
    detail serializer has [total_count] entries. *)
Theorem serializers_count_rows db d :
  db_wf db → counts_agree db → d ∈ objects_all db →
  jget "equipment_count" (DatasetSummarySerializer db d)
  = jget "total_count" (DatasetSummarySerializer db d)
  ∧ ∃ l, jget "equipments" (DatasetDetailSerializer db d) = Some (JList l)
         ∧ Z.of_nat (length l) = EquipmentDataset.total_count d.
Proof.
  intros Hwf Hcount (k & Hk)%elem_of_objects_all.
  pose proof (Hwf k d Hk) as Hid. pose proof (Hcount k d Hk) as Hn.
  rewrite <- Hid in Hn. split.
  - unfold jget, DatasetSummarySerializer. simpl. by rewrite Hn.
  - eexists. split; [reflexivity |]. by rewrite length_fmap, Hn.
Qed.

(** ** Pruning: failures and the cascade *)

Lemma filter_ext_elem {A} (P Q : A → Prop) `{∀ x, Decision (P x)}
    `{∀ x, Decision (Q x)} (l : list A) :
  (∀ x, x ∈ l → P x ↔ Q x) → filter P l = filter Q l.
Proof.
  induction l as [|x l IH]; intros Hall; [done |].
  assert (Hx : P x ↔ Q x) by (apply Hall; left).
  assert (Hl : filter P l = filter Q l).
  { apply IH. intros y Hy. apply Hall. by right. }
  destruct (decide (P x)) as [HP | HP].
  - rewrite !filter_cons_True by tauto. by f_equal.
  - rewrite !filter_cons_False by tauto. done.
Qed.

(** X9.  The first dataset to prune has a file, the storage gives the file
    up, and then the row cannot be deleted.  The loop stops there with the
    exception; the file is gone for good, the row is still in the table
    with its file field cleared, its equipment rows are untouched, and no
    later dataset of the loop has been looked at. *)
Theorem failed_row_delete_clears_file env db d rest path msg :
  drop 5 (objects_all db) = d :: rest →
  EquipmentDataset.file d = Some path →
  storage_delete_error env path = None →
  row_delete_error env (EquipmentDataset.id d) = Some msg →
  ∃ db',
    keep_last_5 env db = (inl (OtherError msg), db')
    ∧ datasets db' !! EquipmentDataset.id d
      = Some (EquipmentDataset.with_file d None)
    ∧ (path ∉ storage db')
    ∧ equipments db' = equipments db
    ∧ trace db' = trace db ++ [FileDeleted path]
    ∧ ∀ k, k ≠ EquipmentDataset.id d → datasets db' !! k = datasets db !! k.
Proof.
  intros Hdrop Hfile Hstorage Hrow. exists (file_dropped path d db).
  split; [| split; [| split; [| split; [| split]]]].
  - rewrite keep_last_5_unfold, Hdrop. simpl for_each. rewrite run_bind.
    unfold prune_step, file_delete, model_delete. rewrite Hfile, Hstorage.
    unfold mbind, M_bind, modify, mret, M_ret, raise. simpl. rewrite Hrow.
    reflexivity.
  - simpl. by rewrite lookup_insert_eq.
  - simpl. set_solver.
  - done.
  - done.
  - intros k Hk. simpl. by rewrite lookup_insert_ne.
Qed.

(** X10.  Deleting a dataset takes its equipment rows along and no others.
    After a pruning run that went through on a consistent store, the
    equipment rows left are exactly those of the five datasets kept, in
    their old order: a dropped dataset has none left, a kept one has all
    of its own. *)
Theorem keep_last_5_cascades env db db' :
  store_sound db → keep_last_5 env db = (inr (), db') →
  equipments db'
  = filter (λ e, Equipment.dataset e
                 ∈ EquipmentDataset.id <$> take 5 (objects_all db))
      (equipments db)
  ∧ (∀ dropped, dropped ∈ drop 5 (objects_all db) →
       equipments_of db' (EquipmentDataset.id dropped) = [])
  ∧ (∀ kept, kept ∈ take 5 (objects_all db) →
       equipments_of db' (EquipmentDataset.id kept)
       = equipments_of db (EquipmentDataset.id kept)).
Proof.
  intros (Hwf & Hkeys & Href) Hkeep.
  pose proof (NoDup_objects_all_ids db Hwf) as Hnd.
  rewrite <- (take_drop 5 (objects_all db)), fmap_app in Hnd.
  apply NoDup_app in Hnd as (_ & Hdisj & _).
  pose proof (keep_last_5_ok _ _ _ Hkeep) as ->.
  split; [| split].
  - rewrite foldl_pruned_equipments. apply filter_ext_elem. intros e He. split.
    + intros Hout. destruct (Href e He) as [d Hd].
      assert (d ∈ objects_all db) as Hall by (apply elem_of_objects_all; eauto).
      pose proof (Hwf _ _ Hd) as Hid.
      rewrite <- (take_drop 5 (objects_all db)), elem_of_app in Hall.
      destruct Hall as [Hin | Hin].
      * apply list_elem_of_fmap. eauto.
      * exfalso. apply Hout. apply list_elem_of_fmap. eauto.
    + intros Hin Hout. by apply (Hdisj (Equipment.dataset e)).
  - intros dropped Hin. unfold equipments_of. rewrite foldl_pruned_equipments.
    rewrite list_filter_filter. apply filter_none. intros e _ [Heq Hout].
    apply Hout. rewrite Heq. apply list_elem_of_fmap. eauto.
  - intros kept Hin. unfold equipments_of. rewrite foldl_pruned_equipments.
    rewrite list_filter_filter. apply list_filter_iff. intros e.
    split; [tauto |]. intros Heq. split; [done |]. rewrite Heq.
    apply (Hdisj (EquipmentDataset.id kept)). apply list_elem_of_fmap. eauto.
Qed.

Section ClockSkew.

Variable py_str : pyfloat → string.
Variable mean_error_text : list Cell → string.

(** X11.  The pruning step orders by upload time, not by key.  If the store
    already holds five datasets with an upload time after the clock reading
    of this request, then an upload answered 201 has deleted the very
    dataset it reports: its row and its file are gone from the store it
    leaves, and the [equipments] list in the 201 body is empty. *)
Theorem upload_into_the_past env request db resp db' newer :
  db_wf db → keys_below db →
  NoDup newer → length newer = 5%nat →
  (∀ d, d ∈ newer →
        d ∈ objects_all db ∧ now env < EquipmentDataset.uploaded_at d) →
  upload py_str mean_error_text env request db = (inr resp, db') →
  status resp = HTTP_201_CREATED →
  ∃ dataset path,
    resp = created db' dataset
    ∧ EquipmentDataset.id dataset = next_dataset_id db
    ∧ datasets db' !! EquipmentDataset.id dataset = None
    ∧ EquipmentDataset.file dataset = Some path
    ∧ (path ∉ storage db')
    ∧ jget "equipments" (data resp) = Some (JList []).
Proof.
  intros Hwf Hkeys Hnd Hlen Hnewer Hupload Hstatus.
  destruct (upload_created _ _ _ _ _ _ _ Hupload Hstatus)
    as (file & df & d & db1 & Hfile & Hcontent & Hcreate & Hkeep & ->).
  destruct (create_dataset_returns _ _ _ _ _ _ _ _ _ Hcreate)
    as (Hid & Htime & Hrows & Hnext & path & Hpath & Hstored).
  pose proof (create_dataset_wf _ _ _ _ _ _ _ _ _ Hcreate Hwf) as Hwf1.
  pose proof (keep_last_5_ok _ _ _ Hkeep) as ->.
  assert (Hd : d ∈ objects_all db1).
  { apply elem_of_objects_all. exists (next_dataset_id db).
    by rewrite Hrows, lookup_insert_eq. }
  assert (Hold : ∀ y, y ∈ newer → y ∈ objects_all db1).
  { intros y Hy. destruct (Hnewer y Hy) as [(k & Hk)%elem_of_objects_all _].
    apply elem_of_objects_all. exists k. rewrite Hrows, lookup_insert_ne; [done |].
    assert (k < next_dataset_id db) by (apply Hkeys; eauto). lia. }
  assert (Hdropped : d ∈ drop 5 (objects_all db1)).
  { pose proof (objects_all_sorted db1) as Hsorted.
    rewrite <- (take_drop 5 (objects_all db1)) in Hsorted, Hd, Hold.
    apply elem_of_app in Hd as [Hd | Hd]; [exfalso | done].
    assert (Hsub : d :: newer ⊆+ take 5 (objects_all db1)).
    { apply NoDup_submseteq.
      - constructor; [| done]. intros Hin. destruct (Hnewer d Hin) as [_ Hlt]. lia.
      - intros y [-> | Hy]%elem_of_cons; [done |].
        pose proof (Hold y Hy) as Hin.
        apply elem_of_app in Hin as [Hin | Hin]; [done | exfalso].
        pose proof (StronglySorted_app_1_elem_of _ _ _ d y Hsorted Hd Hin) as Hord.
        destruct (Hnewer y Hy) as [_ Hlt].
        unfold EquipmentDataset.ordering in Hord. lia. }
    apply submseteq_length in Hsub. simpl in Hsub.
    rewrite length_take in Hsub. lia. }
  exists d, path. split; [done |]. split; [done |]. split; [| split; [done | split]].
  - rewrite foldl_pruned_datasets.
    destruct (decide (EquipmentDataset.id d
                      ∈ EquipmentDataset.id <$> drop 5 (objects_all db1)))
      as [_ | Hout]; [done |].
    destruct Hout. apply list_elem_of_fmap. eauto.
  - rewrite foldl_pruned_storage. intros [_ Hnot]. apply Hnot.
    apply list_elem_of_fmap. eauto.
  - unfold created, jget, DatasetDetailSerializer. simpl. do 3 f_equal.
    unfold equipments_of. rewrite foldl_pruned_equipments, list_filter_filter.
    rewrite filter_none; [done |]. intros e _ [Heq Hout].
    apply Hout. rewrite Heq. apply list_elem_of_fmap. eauto.
Qed.

End ClockSkew.

(** ** Reading: what is not there, and what adds up *)

Definition counts_total (dist : gmap string Z) : Z :=
  map_fold (λ _ n acc, n + acc) 0 dist.

Lemma counts_total_insert dist t n :
  dist !! t = None → counts_total (<[t := n]> dist) = n + counts_total dist.
Proof.
  intros Hnone. unfold counts_total. apply map_fold_insert_L; [| done].
  intros. lia.
Qed.

Lemma counts_total_count_type dist e :
  counts_total (count_type dist e) = counts_total dist + 1.
Proof.
  unfold count_type. destruct (dist !! Equipment.type e) as [n|] eqn:Hn; simpl.
  - rewrite <- insert_delete_eq.
    rewrite counts_total_insert by apply lookup_delete_eq.
    rewrite <- (insert_delete_id dist (Equipment.type e) n Hn) at 2.
    rewrite counts_total_insert by apply lookup_delete_eq. lia.
  - rewrite counts_total_insert by done. lia.
Qed.

Lemma counts_total_foldl es : ∀ dist,
  counts_total (foldl count_type dist es) = counts_total dist + Z.of_nat (length es).
Proof.
  induction es as [|e es IH]; intros dist; simpl.
  - lia.
  - rewrite IH, counts_total_count_type. lia.
Qed.

(** X12.  The counts of a type distribution add up to the number of rows:
    the loop counts every row once, under exactly one type. *)
Theorem type_distribution_total (es : list Equipment.t) :
  counts_total (type_distribution es) = Z.of_nat (length es).
Proof.
  unfold type_distribution. rewrite counts_total_foldl.
  unfold counts_total at 1. rewrite map_fold_empty. lia.
Qed.

(** X13.  [summary] of a stored dataset, in a store where the counts agree:
    the counts of [type_distribution] add up to [total_count], and the
    [equipments] list has [total_count] entries, in the order of the rows. *)
Theorem summary_adds_up db pk d :
  db_wf db → counts_agree db → datasets db !! pk = Some d →
  ∃ resp dist rows,
    summary pk db = (inr resp, db)
    ∧ jget "total_count" (data resp) = Some (JInt (EquipmentDataset.total_count d))
    ∧ jget "type_distribution" (data resp) = Some (JCounts dist)
    ∧ counts_total dist = EquipmentDataset.total_count d
    ∧ jget "equipments" (data resp) = Some (JList rows)
    ∧ rows = EquipmentSerializer <$> equipments_of db pk
    ∧ Z.of_nat (length rows) = EquipmentDataset.total_count d.
Proof.
  intros Hwf Hcount Hd. pose proof (Hwf pk d Hd) as Hid.
  pose proof (Hcount pk d Hd) as Hn.
  eexists _, (type_distribution (equipments_of db pk)), _. split.
  - unfold summary. rewrite (run_bind_ok _ _ _ _ _ (get_object_found _ _ _ Hd)).
    rewrite run_bind. unfold get_db, mret, M_ret. rewrite Hid. reflexivity.
  - split; [reflexivity |]. split; [reflexivity |].
    split.
    { unfold type_distribution. rewrite counts_total_foldl.
      unfold counts_total at 1. rewrite map_fold_empty. lia. }
    split; [reflexivity |]. split; [reflexivity |]. by rewrite length_fmap.
Qed.


(** ** The report: where things are drawn *)

(** The five cells of one line of the equipment table. *)
Definition row_cells (y : Q) (eq : Equipment.t) : list CanvasOp :=
  [DrawString (inches 1) y (prefix_chars 20 (Equipment.name eq));
   DrawString (inches 3) y (Equipment.type eq);
   DrawString (inches (45 # 10)) y (format_f 1 (Equipment.flowrate eq));
   DrawString (inches (55 # 10)) y (format_f 1 (Equipment.pressure eq));
   DrawString (inches (65 # 10)) y (format_f 1 (Equipment.temperature eq))].

(** What the loop over the equipment rows puts on the canvas, entered at
    height [y]. *)
Fixpoint table_rows (y : Q) (eqs : list Equipment.t) : list CanvasOp :=
  match eqs with
  | [] => []
  | eq :: rest =>
      if Qlt_le_dec y (inches 1)
      then [ShowPage; SetFont "Helvetica" 8]
           ++ row_cells (down 792 (inches 1)) eq
           ++ table_rows (down (down 792 (inches 1)) (inches (2 # 10))) rest
      else row_cells y eq ++ table_rows (down y (inches (2 # 10))) rest
  end.

Definition footer : list CanvasOp :=
  [SetFont "Helvetica-Oblique" 8;
   DrawString (inches 1) (inches (5 # 10)) "Generated by Chemical Equipment Visualizer";
   ShowPage;
   Save].

Lemma table_rows_cons y eq rest :
  table_rows y (eq :: rest)
  = if Qlt_le_dec y (inches 1)
    then [ShowPage; SetFont "Helvetica" 8]
         ++ row_cells (down 792 (inches 1)) eq
         ++ table_rows (down (down 792 (inches 1)) (inches (2 # 10))) rest
    else row_cells y eq ++ table_rows (down y (inches (2 # 10))) rest.
Proof. reflexivity. Qed.

Lemma foldl_draw_equipment_rows eqs : ∀ p y,
  ∃ y', foldl (draw_equipment_line 792) (p, y) eqs = (p ++ table_rows y eqs, y').
Proof.
  induction eqs as [|eq rest IH]; intros p y.
  - exists y. simpl. by rewrite app_nil_r.
  - change (foldl (draw_equipment_line 792) (p, y) (eq :: rest))
      with (foldl (draw_equipment_line 792) (draw_equipment_line 792 (p, y) eq) rest).
    destruct (draw_equipment_line 792 (p, y) eq) as [p1 y1] eqn:Hstep.
    destruct (IH p1 y1) as [y' ->]. exists y'. f_equal.
    unfold draw_equipment_line in Hstep. rewrite table_rows_cons.
    destruct (Qlt_le_dec y (inches 1)); injection Hstep as <- <-;
      unfold row_cells; by rewrite <- !app_assoc.
Qed.

Lemma down_eq (y d : Q) : (down y d == y - d)%Q.
Proof. apply Qred_correct. Qed.

(** Every cell of the table is drawn between one inch from the bottom and
    one inch from the top of the page. *)
Lemma table_rows_on_page eqs : ∀ y x y' text,
  (y <= 720)%Q →
  DrawString x y' text ∈ table_rows y eqs → (72 <= y' <= 720)%Q.
Proof.
  induction eqs as [|eq rest IH]; intros y x y' text Hy Hin; [inversion Hin |].
  rewrite table_rows_cons in Hin. destruct (Qlt_le_dec y (inches 1)) as [Hlt | Hge].
  - rewrite !elem_of_app in Hin. destruct Hin as [Hin | [Hin | Hin]].
    + apply elem_of_cons in Hin as [[=] | Hin].
      apply elem_of_cons in Hin as [[=] | Hin]. inversion Hin.
    + unfold row_cells in Hin. rewrite !elem_of_cons in Hin.
      assert (y' = down 792 (inches 1)) as -> by
        (destruct Hin as [[=] | [[=] | [[=] | [[=] | [[=] | Hin]]]]];
         (done || inversion Hin)).
      vm_compute. split; discriminate.
    + refine (IH _ x y' text _ Hin). vm_compute. discriminate.
  - rewrite elem_of_app in Hin. destruct Hin as [Hin | Hin].
    + unfold row_cells in Hin. rewrite !elem_of_cons in Hin.
      assert (y' = y) as -> by
        (destruct Hin as [[=] | [[=] | [[=] | [[=] | [[=] | Hin]]]]];
         (done || inversion Hin)).
      split; [exact Hge | exact Hy].
    + refine (IH _ x y' text _ Hin).
      rewrite down_eq. change (inches (2 # 10)) with (72 # 5)%Q. lra.
Qed.

(** The texts drawn, in order. *)
Definition drawn_texts (ops : list CanvasOp) : list string :=
  omap (λ op, match op with DrawString _ _ text => Some text | _ => None end) ops.

Definition row_texts (eq : Equipment.t) : list string :=
  [prefix_chars 20 (Equipment.name eq); Equipment.type eq;
   format_f 1 (Equipment.flowrate eq); format_f 1 (Equipment.pressure eq);
   format_f 1 (Equipment.temperature eq)].

Lemma drawn_texts_app a b : drawn_texts (a ++ b) = drawn_texts a ++ drawn_texts b.
Proof. apply omap_app. Qed.

Lemma table_rows_texts eqs : ∀ y,
  drawn_texts (table_rows y eqs) = eqs ≫= row_texts.
Proof.
  induction eqs as [|eq rest IH]; intros y; [done |].
  rewrite table_rows_cons. destruct (Qlt_le_dec y (inches 1)).
  - rewrite !drawn_texts_app, IH. reflexivity.
  - rewrite !drawn_texts_app, IH. reflexivity.
Qed.

Lemma length_prefix_chars n : ∀ s, (String.length (prefix_chars n s) ≤ n)%nat.
Proof.
  unfold prefix_chars. induction n as [|n IH]; intros s.
  - destruct s; simpl; lia.
  - destruct s as [|c s]; simpl; [lia |]. specialize (IH s). lia.
Qed.

Lemma foldl_draw_type_line_height items : ∀ p y,
  ∃ y', foldl draw_type_line (p, y) items = (p ++ type_lines y items, y')
        ∧ (y' <= y)%Q.
Proof.
  induction items as [|item rest IH]; intros p y.
  - exists y. simpl. rewrite app_nil_r. split; [done | lra].
  - simpl foldl.
    destruct (IH (p ++ [DrawString (inches (12 # 10)) y
                          (item.1 +:+ ": " +:+ pretty item.2)])
                 (down y (inches (25 # 100)))) as (y' & -> & Hle).
    exists y'. split; [simpl; by rewrite <- app_assoc |].
    rewrite down_eq in Hle. change (inches (25 # 100)) with 18%Q in Hle. lra.
Qed.

Section ReportLayout.

Variable strftime : Z → string.

Lemma draw_report_table dataset equipments :
  ∃ before y0,
    draw_report strftime dataset equipments
    = before ++ [SetFont "Helvetica" 8] ++ table_rows y0 equipments ++ footer
    ∧ (y0 <= 720)%Q.
Proof.
  unfold draw_report, letter.
  match goal with
  | |- context [foldl draw_type_line (?p, ?y) ?items] =>
      destruct (foldl_draw_type_line_height items p y) as (y' & -> & Hle)
  end.
  cbv beta iota zeta.
  destruct (Qlt_le_dec _ _) as [Hlt | Hge];
    match goal with
    | |- context [foldl (draw_equipment_line ?h) (?p ++ [SetFont "Helvetica" 8], ?y) ?eqs] =>
        destruct (foldl_draw_equipment_rows eqs (p ++ [SetFont "Helvetica" 8]) y)
          as (y'' & ->);
        exists p, y
    end.
  - split; [by rewrite <- !app_assoc |]. vm_compute. discriminate.
  - split; [by rewrite <- !app_assoc |].
    rewrite !down_eq.
    change (inches (2 # 10)) with (72 # 5)%Q.
    change (inches (5 # 100)) with (18 # 5)%Q.
    change (inches (3 # 10)) with (108 # 5)%Q.
    revert Hle. vm_compute (down _ _). intros Hle. lra.
Qed.

(** X16.  The equipment table of every report.  The rows are drawn in the
    order of the equipment rows, five cells to a row (the name cut to at
    most twenty characters, the three readings with one decimal), at the
    end of the document just before the footer; and every cell is drawn
    between one inch from the bottom and one inch from the top of the page,
    so no row reaches the footer line or runs off the sheet. *)
Theorem report_rows_on_page dataset equipments :
  ∃ before rows_drawn,
    draw_report strftime dataset equipments = before ++ rows_drawn ++ footer
    ∧ drawn_texts rows_drawn = equipments ≫= row_texts
    ∧ (∀ x y text, DrawString x y text ∈ rows_drawn → (72 <= y <= 720)%Q)
    ∧ (∀ eq, (String.length (prefix_chars 20 (Equipment.name eq)) ≤ 20)%nat).
Proof.
  destruct (draw_report_table dataset equipments) as (before & y0 & Heq & Hy0).
  exists (before ++ [SetFont "Helvetica" 8]), (table_rows y0 equipments).
  split; [by rewrite Heq, <- !app_assoc |].
  split; [apply table_rows_texts |].
  split; [| intros; apply length_prefix_chars].
  intros x y text Hin. by apply (table_rows_on_page equipments y0 x y text).
Qed.

End ReportLayout.

(** *** The type lines have no page break *)

Definition type_line_text (item : string * Z) : string :=
  item.1 +:+ ": " +:+ pretty item.2.

Lemma type_lines_height items : ∀ y i item,
  items !! i = Some item →
  ∃ y', DrawString (inches (12 # 10)) y' (type_line_text item) ∈ type_lines y items
        ∧ (y' == y - 18 * inject_Z (Z.of_nat i))%Q.
Proof.
  induction items as [|first rest IH]; intros y i item Hi; [done |].
  destruct i as [|i]; simpl in Hi.
  - injection Hi as ->. exists y. split; [left |].
    change (inject_Z (Z.of_nat 0)) with 0%Q. lra.
  - destruct (IH (down y (inches (25 # 100))) i item Hi) as (y' & Hin & Hy').
    exists y'. split; [by right |].
    rewrite Hy', down_eq. change (inches (25 # 100)) with 18%Q.
    rewrite Nat2Z.inj_succ. unfold Z.succ. rewrite inject_Z_plus.
    change (inject_Z 1) with 1%Q. lra.
Qed.

Lemma type_lines_no_page items : ∀ y, ShowPage ∉ type_lines y items.
Proof.
  induction items as [|item rest IH]; intros y Hin; [inversion Hin |].
  simpl in Hin. apply elem_of_cons in Hin as [[=] | Hin]. by apply (IH _ Hin).
Qed.

Lemma foldl_draw_type_line_exact items : ∀ p y,
  ∃ y', foldl draw_type_line (p, y) items = (p ++ type_lines y items, y')
        ∧ (y' == y - 18 * inject_Z (Z.of_nat (length items)))%Q.
Proof.
  induction items as [|item rest IH]; intros p y.
  - exists y. simpl. rewrite app_nil_r. split; [done |].
    change (inject_Z (Z.of_nat 0)) with 0%Q. lra.
  - simpl foldl.
    destruct (IH (p ++ [DrawString (inches (12 # 10)) y
                          (item.1 +:+ ": " +:+ pretty item.2)])
                 (down y (inches (25 # 100)))) as (y' & -> & Hy').
    exists y'. split; [simpl; by rewrite <- app_assoc |].
    rewrite Hy', down_eq. change (inches (25 # 100)) with 18%Q.
    simpl length. rewrite Nat2Z.inj_succ. unfold Z.succ. rewrite inject_Z_plus.
    change (inject_Z 1) with 1%Q. lra.
Qed.

Lemma length_sorted_items dist : length (sorted_items dist) = size dist.
Proof. rewrite (Permutation_length (sorted_items_perm dist)). apply length_map_to_list. Qed.

Section ReportPages.

Variable strftime : Z → string.

(** Everything up to the last type line is drawn without a page break. *)
Lemma draw_report_first_page dataset equipments :
  ∃ before after,
    draw_report strftime dataset equipments
    = (before ++ type_lines (2358 # 5) (sorted_items (type_distribution equipments)))
      ++ after
    ∧ (ShowPage ∉ before).
Proof.
  unfold draw_report, letter.
  match goal with
  | |- context [foldl draw_type_line (?P, ?y) ?items] =>
      set (before := P);
      destruct (foldl_draw_type_line items before y) as [y' ->]
  end.
  cbv beta iota zeta.
  destruct (Qlt_le_dec _ _);
    match goal with
    | |- context [foldl (draw_equipment_line ?h) (?p, ?y) ?eqs] =>
        destruct (foldl_draw_equipment_line h eqs p y) as (added & y'' & ->)
    end;
    exists before; eexists; (split; [rewrite <- !app_assoc; reflexivity |]);
    unfold before; rewrite !elem_of_app, !elem_of_cons, elem_of_nil;
    intros H; decompose [or] H; (discriminate || done).
Qed.

(** X17.  The loop over the type distribution never starts a new page: the
    line of the type at position [i] of the sorted items is drawn on the
    first page at height 471.6 - 18 i points, whatever [i] is.  From the
    28th type on that height is negative, so the line falls below the
    bottom edge of the page. *)
Theorem type_lines_run_off_the_page dataset equipments i item :
  sorted_items (type_distribution equipments) !! i = Some item →
  ∃ first_page after y,
    draw_report strftime dataset equipments = first_page ++ after
    ∧ (ShowPage ∉ first_page)
    ∧ DrawString (inches (12 # 10)) y (type_line_text item) ∈ first_page
    ∧ (y == (2358 # 5) - 18 * inject_Z (Z.of_nat i))%Q
    ∧ ((27 ≤ i)%nat → (y < 0)%Q).
Proof.
  intros Hi.
  destruct (draw_report_first_page dataset equipments) as (before & after & Heq & Hno).
  destruct (type_lines_height _ (2358 # 5)%Q i item Hi) as (y & Hin & Hy).
  exists (before ++ type_lines (2358 # 5) (sorted_items (type_distribution equipments))),
         after, y.
  split; [done |]. split; [| split; [| split; [done |]]].
  - rewrite elem_of_app. intros [H | H]; [done |]. by apply type_lines_no_page in H.
  - rewrite elem_of_app. by right.
  - intros Hbig. rewrite Hy.
    assert (inject_Z 27 <= inject_Z (Z.of_nat i))%Q as Hq by (rewrite <- Zle_Qle; lia).
    change (inject_Z 27) with 27%Q in Hq. lra.
Qed.

(** X18.  The heading of the equipment table.  With at most 16 types it is
    drawn on the first page, 21.6 points under the last type line, at
    height 450 - 18 n for [n] types (the exact value; the float64 height
    is this one up to rounding).  With 18 types or more the page is
    turned first and the heading is drawn one inch from the top of the new
    page.  (With exactly 17 types the height tested is two inches, the
    threshold itself, up to the rounding of the float64 subtractions: that
    case is decided by the rounding and is left out here.) *)
Theorem table_heading_page_break dataset equipments :
  ∃ before after y,
    draw_report strftime dataset equipments
    = before
      ++ [SetFont "Helvetica-Bold" 14; DrawString (inches 1) y "Equipment Details"]
      ++ after
    ∧ ((size (type_distribution equipments) ≤ 16)%nat →
       (ShowPage ∉ before)
       ∧ (y == 450 - 18 * inject_Z (Z.of_nat (size (type_distribution equipments))))%Q)
    ∧ ((18 ≤ size (type_distribution equipments))%nat →
       last before = Some ShowPage ∧ y = 720%Q).
Proof.
  rewrite <- length_sorted_items.
  unfold draw_report, letter.
  match goal with
  | |- context [foldl draw_type_line (?P, ?y) ?items] =>
      set (head := P);
      assert (Hhead : ShowPage ∉ head) by
        (unfold head; rewrite !elem_of_app, !elem_of_cons, elem_of_nil;
         intros H; decompose [or] H; (discriminate || done));
      destruct (foldl_draw_type_line_exact items head y) as (y' & Hfold & Hy');
      rewrite Hfold; clear Hfold
  end.
  match type of Hy' with
  | (_ == ?Y - _)%Q => change Y with (2358 # 5)%Q in Hy'
  end.
  cbv beta iota zeta.
  destruct (Qlt_le_dec _ _) as [Hlt | Hge];
    match goal with
    | |- context [foldl (draw_equipment_line ?h) (?p, ?y) ?eqs] =>
        destruct (foldl_draw_equipment_line h eqs p y) as (added & y'' & ->)
    end.
  - match goal with
    | |- context [?b ++ [SetFont "Helvetica-Bold" 14;
                         DrawString (inches 1) ?y "Equipment Details"]] =>
        exists b; eexists; exists y
    end.
    split; [rewrite <- !app_assoc; reflexivity |].
    split.
    + intros Hn. exfalso.
      rewrite down_eq, Hy' in Hlt.
      change (inches (3 # 10)) with (108 # 5)%Q in Hlt.
      change (inches 2) with 144%Q in Hlt.
      assert (inject_Z (Z.of_nat (length (sorted_items (type_distribution equipments)))) <= inject_Z 16)%Q as Hq by (rewrite <- Zle_Qle; lia).
      change (inject_Z 16) with 16%Q in Hq. lra.
    + intros _. split; [apply last_snoc | reflexivity].
  - match goal with
    | |- context [?b ++ [SetFont "Helvetica-Bold" 14;
                         DrawString (inches 1) ?y "Equipment Details"]] =>
        exists b; eexists; exists y
    end.
    split; [rewrite <- !app_assoc; reflexivity |].
    split.
    + intros _. split.
      * rewrite elem_of_app. intros [H | H]; [done |]. by apply type_lines_no_page in H.
      * rewrite down_eq, Hy'. change (inches (3 # 10)) with (108 # 5)%Q. lra.
    + intros Hn. exfalso.
      rewrite down_eq, Hy' in Hge.
      change (inches (3 # 10)) with (108 # 5)%Q in Hge.
      change (inches 2) with 144%Q in Hge.
      assert (inject_Z 18 <= inject_Z (Z.of_nat (length (sorted_items (type_distribution equipments)))))%Q as Hq by (rewrite <- Zle_Qle; lia).
      change (inject_Z 18) with 18%Q in Hq. lra.
Qed.

End ReportPages.

(** ** From the file to the summary *)

Section RoundTrip.

Variable py_str : pyfloat → string.
Variable mean_error_text : list Cell → string.

(** The equipment rows of a dataset stored in full are the rows of the
    file, in file order. *)
Lemma stored_equipments env request file df db :
  store_sound db →
  equipments_of (stored py_str env request file df db) (next_dataset_id db)
  = new_records py_str df db.
Proof.
  clear mean_error_text. intros (Hwf & Hkeys & Href).
  unfold equipments_of. simpl. rewrite filter_app.
  rewrite (filter_none _ (equipments db)).
  - simpl. apply filter_all. intros e He. by apply (new_records_dataset py_str df db).
  - intros e He Heq. specialize (Hkeys _ (Href e He)). lia.
Qed.

(** X19.  From the file to the summary.  An acceptable upload into a
    consistent store, at a clock reading later than every stored dataset
    and with nothing failing, is answered 201 with the new primary key; and
    [summary] of that key then gives back the data rows of the file: one
    equipment entry per row, in file order, with consecutive primary keys,
    [total_count] the number of rows, and the type distribution of exactly
    these rows.  The 201 body lists the same entries. *)
Theorem uploaded_rows_come_back env request file df db :
  store_sound db →
  csv_request request file → content file = Table df →
  has_required_cols df → numeric_frame df →
  persistence_succeeds env → deletions_succeed env →
  (∀ d, d ∈ objects_all db → EquipmentDataset.uploaded_at d < now env) →
  ∃ resp db' shown,
    upload py_str mean_error_text env request db = (inr resp, db')
    ∧ status resp = HTTP_201_CREATED
    ∧ jget "id" (data resp) = Some (JInt (next_dataset_id db))
    ∧ summary (next_dataset_id db) db' = (inr shown, db')
    ∧ status shown = HTTP_200_OK
    ∧ jget "total_count" (data shown) = Some (JInt (Z.of_nat (length (rows df))))
    ∧ jget "equipments" (data shown)
      = Some (JList (EquipmentSerializer
                       <$> assign_ids (next_equipment_id db)
                             (row_equipment py_str df (next_dataset_id db)
                                <$> rows df)))
    ∧ jget "equipments" (data resp) = jget "equipments" (data shown)
    ∧ jget "type_distribution" (data shown)
      = Some (JCounts (type_distribution
                         (row_equipment py_str df (next_dataset_id db) <$> rows df))).
Proof.
  intros Hsound Hreq Hcontent Hcols Hnum Hpersist Hdel Hlater.
  pose proof Hpersist as (Hsave & Hinsert & Hbulk).
  pose proof (create_dataset_ok py_str mean_error_text env request file df db
                Hcols Hnum Hsave Hinsert Hbulk) as Hcreate.
  set (new := new_dataset env request file df db) in *.
  set (db1 := stored py_str env request file df db) in *.
  pose proof (keep_last_5_succeeds env db1 Hdel) as Hkeep.
  set (db2 := foldl pruned db1 (drop 5 (objects_all db1))) in *.
  assert (Hwf1 : db_wf db1).
  { apply (db_wf_insert db _ new); [reflexivity | apply Hsound]. }
  assert (Hrow1 : datasets db1 !! next_dataset_id db = Some new).
  { unfold db1. simpl. by rewrite lookup_insert_eq. }
  assert (Hkept : next_dataset_id db
                  ∉ EquipmentDataset.id <$> drop 5 (objects_all db1)).
  { apply (newest_not_pruned db1 new Hwf1 Hrow1).
    intros d (k & Hk)%elem_of_objects_all Hne.
    unfold db1 in Hk. simpl in Hk. rewrite lookup_insert_Some in Hk.
    destruct Hk as [[_ <-] | [_ Hk]]; [done |].
    apply Hlater. apply elem_of_objects_all. eauto. }
  rewrite keep_last_5_unfold in Hkeep.
  destruct (for_each_prune_other env _ db1 (inr ()) db2 (next_dataset_id db)
              Hkeep Hkept) as [Hrow2 Hrows2].
  rewrite Hrow1 in Hrow2.
  pose proof (stored_equipments env request file df db Hsound) as Hse.
  fold db1 in Hse. rewrite Hse in Hrows2. clear Hse.
  assert (Htypes : type_distribution (new_records py_str df db)
                   = type_distribution
                       (row_equipment py_str df (next_dataset_id db) <$> rows df)).
  { unfold new_records, type_distribution.
    generalize (∅ : gmap string Z) (next_equipment_id db).
    induction (row_equipment py_str df (next_dataset_id db) <$> rows df)
      as [|e es IH]; intros dist first; [done |].
    simpl. apply IH. }
  exists (created db2 new), db2. eexists.
  split.
  { rewrite (upload_stored py_str mean_error_text env request file df db new db1
               Hreq Hcontent Hcols Hcreate).
    rewrite <- keep_last_5_unfold in Hkeep. rewrite Hkeep. reflexivity. }
  split; [reflexivity |]. split; [reflexivity |].
  split.
  { unfold summary. rewrite (run_bind_ok _ _ _ _ _ (get_object_found _ _ _ Hrow2)).
    rewrite run_bind. unfold get_db, mret, M_ret.
    change (EquipmentDataset.id new) with (next_dataset_id db).
    rewrite Hrows2. reflexivity. }
  split; [reflexivity |]. split; [reflexivity |]. split; [reflexivity |].
  split.
  { unfold created, DatasetDetailSerializer, jget. simpl.
    change (EquipmentDataset.id new) with (next_dataset_id db).
    by rewrite Hrows2. }
  unfold jget. simpl. by rewrite Htypes.
Qed.

End RoundTrip.

(** ** Row order and the type distribution *)

Lemma rows_of_type_types t es :
  rows_of_type t es
  = Z.of_nat (length (filter (λ s, s = t) (Equipment.type <$> es))).
Proof.
  unfold rows_of_type. induction es as [|e es IH]; [done |].
  rewrite fmap_cons, !filter_cons.
  destruct (decide (Equipment.type e = t)); simpl; lia.
Qed.

(** X20.  The type distribution does not depend on the order of the rows,
    nor on anything but their types: two lists of equipment rows whose types
    are the same up to order have the same distribution, so [summary] shows
    the same mapping and the report the same sorted type lines. *)
Theorem type_distribution_order_free (es es' : list Equipment.t) :
  Equipment.type <$> es ≡ₚ Equipment.type <$> es' →
  type_distribution es = type_distribution es'
  ∧ sorted_items (type_distribution es) = sorted_items (type_distribution es').
Proof.
  intros Hperm.
  assert (Heq : type_distribution es = type_distribution es').
  { assert (Hrows : ∀ t, rows_of_type t es = rows_of_type t es').
    { intros t. rewrite !rows_of_type_types. f_equal.
      apply Permutation_length. by rewrite Hperm. }
    apply map_eq. intros t. by rewrite !type_distribution_lookup, Hrows. }
  split; [done | by rewrite Heq].
Qed.

(** ** Upload: the storage refuses the file *)

Section StorageFails.

Variable py_str : pyfloat → string.
Variable mean_error_text : list Cell → string.

(** X21.  The storage cannot write the file.  Whatever the file holds, the
    request is answered 400 and the store is left exactly as it was; for a
    file that would otherwise be accepted, the answer carries the text of
    the storage error. *)
Theorem storage_failure_changes_nothing env request db msg :
  storage_save_error env = Some msg →
  ∃ resp,
    upload py_str mean_error_text env request db = (inr resp, db)
    ∧ status resp = HTTP_400_BAD_REQUEST
    ∧ (acceptable request →
       resp = bad_request ("Error processing CSV: " +:+ msg)).
Proof.
  intros Hsave.
  assert (Hcreate : ∀ file df r db1,
            has_required_cols df →
            create_dataset py_str mean_error_text env request file df db = (r, db1) →
            db1 = db
            ∧ (∃ e, r = inl e)
            ∧ (numeric_frame df → r = inl (OtherError msg))).
  { intros file df r db1 Hcols. unfold create_dataset.
    destruct (numeric_frame_cases df) as [Hnum | Hnum].
    - rewrite !(column_mean_ok mean_error_text env df) by
        (done || unfold numeric_cols; rewrite !elem_of_cons; tauto).
      simpl lift. do 3 (erewrite run_bind_ok by reflexivity).
      unfold objects_create. rewrite Hsave. intros [= <- <-]. eauto.
    - intros Hrun.
      destruct (create_dataset_text py_str mean_error_text env request file df db
                  Hcols Hnum) as (col & _ & _ & Htext).
      unfold create_dataset in Htext. rewrite Htext in Hrun.
      injection Hrun as <- <-. split; [done |]. split; [eauto | done]. }
  assert (Hacc : ∀ file df, csv_request request file → content file = Table df →
            acceptable request → numeric_frame df).
  { intros file df (Hf & _) Hc (file' & df' & (Hf' & _) & Hc' & _ & Hnum).
    assert (file' = file) as -> by congruence.
    assert (df' = df) as -> by congruence. exact Hnum. }
  assert (Hnone : ∀ file, csv_request request file → ¬ no_file request).
  { intros file (Hf & Hn & _) [Hno | (file' & Hf' & Hn')]; congruence. }
  generalize (upload_outcome_holds py_str mean_error_text env request db).
  generalize (upload py_str mean_error_text env request db) as o.
  intros o Ho.
  destruct Ho as [Hno | file Hf Hn He | file Hreq Hc | file msg' Hreq Hc
                 | file df Hreq Hc Hm | file df msg' db1 Hreq Hc Hcl Hcr
                 | file df d db1 msg' db2 Hreq Hc Hcl Hcr Hk
                 | file df d db1 db2 Hreq Hc Hcl Hcr Hk].
  - eexists. split; [done |]. split; [done |].
    intros (file & df & Hreq & _). destruct (Hnone file Hreq Hno).
  - eexists. split; [done |]. split; [done |].
    intros (file' & df & (Hf' & _ & He') & _). congruence.
  - eexists. split; [done |]. split; [done |].
    intros (file' & df & (Hf' & _) & Hc' & _). destruct Hreq as (Hf & _). congruence.
  - eexists. split; [done |]. split; [done |].
    intros (file' & df & (Hf' & _) & Hc' & _). destruct Hreq as (Hf & _). congruence.
  - eexists. split; [done |]. split; [done |].
    intros (file' & df' & (Hf' & _) & Hc' & Hcols%has_required_cols_missing & _).
    destruct Hreq as (Hf & _). congruence.
  - destruct (Hcreate _ _ _ _ Hcl Hcr) as (-> & _ & Hmsg).
    eexists. split; [done |]. split; [done |].
    intros Hok. specialize (Hmsg (Hacc file df Hreq Hc Hok)).
    injection Hmsg as ->. done.
  - destruct (Hcreate _ _ _ _ Hcl Hcr) as (_ & (e & He) & _). discriminate.
  - destruct (Hcreate _ _ _ _ Hcl Hcr) as (_ & (e & He) & _). discriminate.
Qed.

End StorageFails.
(** * Concrete runs *)

(** Stand-ins for the library texts, to run the views on concrete inputs. *)
Definition sample_py_str (x : pyfloat) : string :=
  match x with
  | Num q => if decide (Zpos (Qden q) = 1) then pretty (Qnum q) else format_f 1 x
  | Inf s => if s then "-inf" else "inf"
  | NaN => "nan"
  end.

Definition sample_mean_error (cells : list Cell) : string :=
  "Could not convert string '"
  +:+ foldr (λ c acc, char_value sample_py_str c +:+ acc) "" cells
  +:+ "' to numeric".

Definition sample_strftime (t : Z) : string := "t" +:+ pretty t.

Definition alice : User := {| pk := 1; username := "alice" |}.

Definition reading (name type : string) (flow press temp : Q) : list Cell :=
  [CStr name; CStr type; number flow; number press; number temp].

(** Three data rows under the required header. *)
Definition three_rows : DataFrame :=
  {| columns := required_cols;
     rows := [reading "P1" "Pump" 10 2 30;
              reading "V1" "Valve" 20 4 50;
              reading "P2" "Pump" 31 7 41] |}.

(** Flowrate values that cancel: 1e16, then 1, then -1e16. *)
Definition cancelling : DataFrame :=
  {| columns := required_cols;
     rows := [reading "P1" "Pump" 10000000000000000 2 30;
              reading "V1" "Valve" 1 4 50;
              reading "P2" "Pump" (-10000000000000000) 7 41] |}.

(** Two Flowrate values of 2^1023, the largest power of two of a float64. *)
Definition overflowing : DataFrame :=
  {| columns := required_cols;
     rows := [reading "P1" "Pump" (pow2 1023) 2 30;
              reading "V1" "Valve" (pow2 1023) 4 50] |}.

(** The required header and nothing under it. *)
Definition header_only : DataFrame :=
  {| columns := required_cols; rows := [] |}.

(** The Pressure cell of the second data row is the text abc. *)
Definition text_in_pressure : DataFrame :=
  {| columns := required_cols;
     rows := [reading "P1" "Pump" 10 2 30;
              [CStr "V1"; CStr "Valve"; number 20; CStr "abc"; number 50]] |}.

(** A header without the Pressure column. *)
Definition no_pressure : DataFrame :=
  {| columns := ["Equipment Name"; "Type"; "Flowrate"; "Temperature"];
     rows := [[CStr "P1"; CStr "Pump"; number 10; number 30]] |}.

Definition csv_file (name : string) (df : DataFrame) : UploadedFile :=
  {| filename := name; content := Table df |}.

Definition post (file : UploadedFile) : Request :=
  {| user := alice; FILES := Some file |}.

Definition sample_upload (env : Env) (file : UploadedFile) (db : DB)
    : (Exn + Response) * DB :=
  upload sample_py_str sample_mean_error env (post file) db.

(** Five uploads, one after the other, into the empty store. *)
Definition one_upload : DB :=
  (sample_upload (no_faults 101) (csv_file "a.csv" three_rows) empty_db).2.
Definition two_uploads : DB :=
  (sample_upload (no_faults 102) (csv_file "b.csv" three_rows) one_upload).2.
Definition three_uploads : DB :=
  (sample_upload (no_faults 103) (csv_file "c.csv" three_rows) two_uploads).2.
Definition four_uploads : DB :=
  (sample_upload (no_faults 104) (csv_file "d.csv" three_rows) three_uploads).2.
Definition five_uploads : DB :=
  (sample_upload (no_faults 105) (csv_file "e.csv" three_rows) four_uploads).2.

(** A sixth upload during which no file can be deleted from the storage. *)
Definition undeletable (t : Z) : Env :=
  {| now := t; storage_save_error := None; insert_error := None;
     bulk_create_error := None;
     storage_delete_error := λ _, Some "Permission denied";
     row_delete_error := λ _, None; summation := λ _, InOrder |}.

Lemma csv_request_post name df :
  name ≠ "" → endswith name ".csv" = true →
  csv_request (post (csv_file name df)) (csv_file name df).
Proof. intros Hname Hcsv. by repeat split. Defined.

Lemma three_rows_required : has_required_cols three_rows.
Proof. intros col Hcol. exact Hcol. Defined.

Lemma header_only_required : has_required_cols header_only.
Proof. intros col Hcol. exact Hcol. Defined.

Lemma text_in_pressure_required : has_required_cols text_in_pressure.
Proof. intros col Hcol. exact Hcol. Defined.

(** C2 fails as stated: the sixth upload stores its dataset and its three
    equipment rows, the pruning step then fails on the file of the oldest
    dataset, and the caller is answered 400, not 201. *)
Lemma pruning_failure_escalates :
  (sample_upload (undeletable 106) (csv_file "f.csv" three_rows) five_uploads).1
  = inr {| data := JDict [("error",
                           JStr "Error processing CSV: Permission denied")];
           status := HTTP_400_BAD_REQUEST |}
  ∧ EquipmentDataset.total_count
      <$> datasets (sample_upload (undeletable 106) (csv_file "f.csv" three_rows)
                      five_uploads).2 !! 6
    = Some 3
  ∧ length (equipments_of
              (sample_upload (undeletable 106) (csv_file "f.csv" three_rows)
                 five_uploads).2 6)
    = 3%nat
  ∧ size (datasets (sample_upload (undeletable 106) (csv_file "f.csv" three_rows)
                      five_uploads).2)
    = 6%nat.
Proof. vm_compute. repeat split; reflexivity. Qed.

(** C4 fails as stated: text in the Pressure cell of the second data row is
    answered with the catch-all error, whose only field is [error]; no field
    holds a row index or a column name. *)
Lemma malformed_row_not_reported :
  sample_upload (no_faults 100) (csv_file "bad.csv" text_in_pressure) empty_db
  = (inr {| data := JDict [("error",
              JStr "Error processing CSV: Could not convert string '2abc' to numeric")];
            status := HTTP_400_BAD_REQUEST |},
     empty_db)
  ∧ jkeys (JDict [("error",
              JStr "Error processing CSV: Could not convert string '2abc' to numeric")])
    = ["error"]
  ∧ ∀ row col,
      ¬ carries_row_and_column
          {| data := JDict [("error",
               JStr "Error processing CSV: Could not convert string '2abc' to numeric")];
             status := HTTP_400_BAD_REQUEST |} row col.
Proof.
  split; [vm_compute; reflexivity |]. split; [reflexivity |].
  intros row col. apply (processing_error_fields (OtherError _)).
Qed.

(** ** The theorems at concrete inputs *)

Ltac by_compute := apply (bool_decide_unpack _); vm_compute; exact I.

Lemma wf_of_objects_all db :
  datasets db = table_of (objects_all db) → db_wf db.
Proof. apply table_of_wf. Defined.

Lemma five_uploads_wf : db_wf five_uploads.
Proof. apply wf_of_objects_all. vm_compute. reflexivity. Defined.

Lemma keep_last_5_noop_witness :
  (size (datasets five_uploads) ≤ 5)%nat
  ∧ keep_last_5 (undeletable 0) five_uploads = (inr (), five_uploads).
Proof.
  assert (H : (size (datasets five_uploads) ≤ 5)%nat) by (vm_compute; lia).
  exact (conj H (keep_last_5_noop (undeletable 0) five_uploads H)).
Defined.

Lemma type_distribution_counts_witness :
  Equipment.type <$> equipments_of one_upload 1 = ["Pump"; "Valve"; "Pump"]
  ∧ datasets one_upload !! 1
    = Some (new_dataset (no_faults 101) (post (csv_file "a.csv" three_rows))
              (csv_file "a.csv" three_rows) three_rows empty_db)
  ∧ type_distribution (equipments_of one_upload 1) = {["Pump" := 2; "Valve" := 1]}
  ∧ ∃ resp, summary 1 one_upload = (inr resp, one_upload)
      ∧ jget "type_distribution" (data resp)
        = Some (JCounts (type_distribution (equipments_of one_upload 1))).
Proof.
  assert (H1 : Equipment.type <$> equipments_of one_upload 1
               = ["Pump"; "Valve"; "Pump"]) by (vm_compute; reflexivity).
  assert (H2 : datasets one_upload !! 1
    = Some (new_dataset (no_faults 101) (post (csv_file "a.csv" three_rows))
              (csv_file "a.csv" three_rows) three_rows empty_db))
    by (vm_compute; reflexivity).
  destruct type_distribution_counts as (_ & _ & Hexample & Hsummary).
  exact (conj H1 (conj H2 (conj (Hexample _ H1) (Hsummary 1 one_upload _ H2)))).
Defined.

Lemma missing_columns_rejected_witness :
  csv_request (post (csv_file "np.csv" no_pressure)) (csv_file "np.csv" no_pressure)
  ∧ (∃ col, col ∈ required_cols ∧ col ∉ columns no_pressure)
  ∧ (∀ col, col ∈ required_cols → col ∉ columns no_pressure ↔ col = "Pressure")
  ∧ sample_upload (no_faults 100) (csv_file "np.csv" no_pressure) empty_db
    = (inr {| data := JDict [("error", JStr "Missing required columns: Pressure");
                             ("required_columns", JList (JStr <$> required_cols));
                             ("found_columns",
                              JList (JStr <$> ["Equipment Name"; "Type"; "Flowrate";
                                               "Temperature"]))];
              status := HTTP_400_BAD_REQUEST |}, empty_db).
Proof.
  assert (H1 : csv_request (post (csv_file "np.csv" no_pressure))
                 (csv_file "np.csv" no_pressure))
    by (apply csv_request_post; [discriminate | reflexivity]).
  assert (H2 : ∃ col, col ∈ required_cols ∧ col ∉ columns no_pressure).
  { exists "Pressure". split; by_compute. }
  assert (H3 : ∀ col, col ∈ required_cols →
                 col ∉ columns no_pressure ↔ col = "Pressure").
  { intros col Hcol. unfold required_cols in Hcol.
    rewrite !elem_of_cons in Hcol.
    destruct Hcol as [-> | [-> | [-> | [-> | [-> | Hnil]]]]];
      [| | | | | inversion Hnil]; split; intros H;
      first [ reflexivity | discriminate H | by_compute
            | exfalso; apply H; by_compute ]. }
  destruct (missing_columns_rejected sample_py_str sample_mean_error (no_faults 100)
              _ _ no_pressure empty_db H1 eq_refl H2)
    as (missing & _ & _ & Hupload & Honly).
  destruct (Honly H3) as [-> _].
  exact (conj H1 (conj H2 (conj H3 Hupload))).
Defined.

Lemma header_only_upload_witness :
  csv_request (post (csv_file "data.csv" header_only)) (csv_file "data.csv" header_only)
  ∧ has_required_cols header_only
  ∧ rows header_only = []
  ∧ persistence_succeeds (no_faults 100)
  ∧ deletions_succeed (no_faults 100)
  ∧ ∃ dataset db' path dropped,
      sample_upload (no_faults 100) (csv_file "data.csv" header_only) empty_db
      = (inr (created db' dataset), db')
      ∧ EquipmentDataset.total_count dataset = 0
      ∧ EquipmentDataset.avg_flowrate dataset = NaN
      ∧ EquipmentDataset.avg_pressure dataset = NaN
      ∧ EquipmentDataset.avg_temperature dataset = NaN
      ∧ trace db' = trace empty_db
                    ++ [FileSaved path;
                        RowInserted (EquipmentDataset.id dataset);
                        RecordsInserted (EquipmentDataset.id dataset) 0]
                    ++ dropped.
Proof.
  assert (H1 : csv_request (post (csv_file "data.csv" header_only))
                 (csv_file "data.csv" header_only))
    by (apply csv_request_post; [discriminate | reflexivity]).
  exact (conj H1 (conj header_only_required (conj eq_refl
          (conj (no_faults_persistence 100) (conj (no_faults_deletions 100)
            (header_only_upload_is_stored sample_py_str sample_mean_error
               (no_faults 100) _ _ header_only empty_db H1 eq_refl
               header_only_required eq_refl (no_faults_persistence 100)
               (no_faults_deletions 100))))))).
Defined.

(** What the header-only upload leaves: a dataset row and its file. *)
Example header_only_upload_result :
  (sample_upload (no_faults 100) (csv_file "data.csv" header_only) empty_db).1
  = inr {| data := JDict [("id", JInt 1); ("name", JStr "data.csv");
                          ("uploaded_at", JTime 100); ("total_count", JInt 0);
                          ("avg_flowrate", JFloat NaN); ("avg_pressure", JFloat NaN);
                          ("avg_temperature", JFloat NaN); ("equipments", JList [])];
           status := HTTP_201_CREATED |}
  ∧ elements (storage (sample_upload (no_faults 100)
                         (csv_file "data.csv" header_only) empty_db).2)
    = ["datasets/data.csv"]
  ∧ size (datasets (sample_upload (no_faults 100)
                      (csv_file "data.csv" header_only) empty_db).2) = 1%nat.
Proof. vm_compute. repeat split; reflexivity. Qed.

(** A file with nothing to parse is the one input answered as empty. *)
Example no_columns_upload_result :
  sample_upload (no_faults 100) {| filename := "void.csv"; content := NoColumns |}
    empty_db
  = (inr {| data := JDict [("error", JStr "CSV file is empty")];
            status := HTTP_400_BAD_REQUEST |}, empty_db).
Proof. vm_compute. reflexivity. Qed.

Lemma text_cell_fails_upload_witness :
  csv_request (post (csv_file "bad.csv" text_in_pressure))
    (csv_file "bad.csv" text_in_pressure)
  ∧ has_required_cols text_in_pressure
  ∧ (∃ col row, col ∈ numeric_cols ∧ row ∈ rows text_in_pressure
                ∧ is_text (cell_of text_in_pressure row col) = true)
  ∧ ∃ col, col ∈ numeric_cols
      ∧ existsb is_text (column_cells text_in_pressure col) = true
      ∧ sample_upload (no_faults 100) (csv_file "bad.csv" text_in_pressure) empty_db
        = (inr {| data := JDict [("error",
                     JStr ("Error processing CSV: "
                           +:+ sample_mean_error (column_cells text_in_pressure col)))];
                  status := HTTP_400_BAD_REQUEST |}, empty_db)
      ∧ ∀ row c,
          ¬ carries_row_and_column
              (processing_error
                 (OtherError (sample_mean_error (column_cells text_in_pressure col))))
              row c.
Proof.
  assert (H1 : csv_request (post (csv_file "bad.csv" text_in_pressure))
                 (csv_file "bad.csv" text_in_pressure))
    by (apply csv_request_post; [discriminate | reflexivity]).
  assert (H2 : ∃ col row, col ∈ numeric_cols ∧ row ∈ rows text_in_pressure
                 ∧ is_text (cell_of text_in_pressure row col) = true).
  { exists "Pressure", [CStr "V1"; CStr "Valve"; number 20; CStr "abc"; number 50].
    split; [by_compute |]. split; [| reflexivity].
    apply list_elem_of_further, list_elem_of_here. }
  exact (conj H1 (conj text_in_pressure_required (conj H2
          (text_cell_fails_upload sample_py_str sample_mean_error (no_faults 100)
             _ _ text_in_pressure empty_db H1 eq_refl text_in_pressure_required H2)))).
Defined.

Lemma upload_stores_count_and_means_witness :
  csv_request (post (csv_file "a.csv" three_rows)) (csv_file "a.csv" three_rows)
  ∧ has_required_cols three_rows
  ∧ column_cells three_rows "Flowrate" = number <$> [10; 20; 31]%Q
  ∧ column_cells three_rows "Pressure" = number <$> [2; 4; 7]%Q
  ∧ column_cells three_rows "Temperature" = number <$> [30; 50; 41]%Q
  ∧ 1 ≤ len three_rows
  ∧ persistence_succeeds (no_faults 101)
  ∧ len three_rows ≤ 1000000
  ∧ (inject_Z (len three_rows) * 50 <= 1000000)%Q
  ∧ bounded 50 [10; 20; 31]%Q
  ∧ bounded 50 [2; 4; 7]%Q
  ∧ bounded 50 [30; 50; 41]%Q
  ∧ ∃ dataset db1,
      create_dataset sample_py_str sample_mean_error (no_faults 101)
        (post (csv_file "a.csv" three_rows)) (csv_file "a.csv" three_rows)
        three_rows empty_db = (inr dataset, db1)
      ∧ datasets db1 !! EquipmentDataset.id dataset = Some dataset
      ∧ EquipmentDataset.total_count dataset = len three_rows
      ∧ length [10; 20; 31]%Q = length (rows three_rows)
      ∧ length [2; 4; 7]%Q = length (rows three_rows)
      ∧ length [30; 50; 41]%Q = length (rows three_rows)
      ∧ EquipmentDataset.avg_flowrate dataset
        = nanmean (summation (no_faults 101)) (Num <$> [10; 20; 31]%Q)
      ∧ EquipmentDataset.avg_pressure dataset
        = nanmean (summation (no_faults 101)) (Num <$> [2; 4; 7]%Q)
      ∧ EquipmentDataset.avg_temperature dataset
        = nanmean (summation (no_faults 101)) (Num <$> [30; 50; 41]%Q)
      ∧ within_tolerance (EquipmentDataset.avg_flowrate dataset)
          (arithmetic_mean [10; 20; 31]%Q)
      ∧ within_tolerance (EquipmentDataset.avg_pressure dataset)
          (arithmetic_mean [2; 4; 7]%Q)
      ∧ within_tolerance (EquipmentDataset.avg_temperature dataset)
          (arithmetic_mean [30; 50; 41]%Q)
      ∧ length (new_records sample_py_str three_rows empty_db)
        = length (rows three_rows)
      ∧ equipments db1
        = equipments empty_db ++ new_records sample_py_str three_rows empty_db
      ∧ ∃ db', sample_upload (no_faults 101) (csv_file "a.csv" three_rows) empty_db
               = (inr (created db' dataset), db').
Proof.
  assert (H1 : csv_request (post (csv_file "a.csv" three_rows))
                 (csv_file "a.csv" three_rows))
    by (apply csv_request_post; [discriminate | reflexivity]).
  assert (H2 : 1 ≤ len three_rows) by (vm_compute; discriminate).
  assert (H3 : len three_rows ≤ 1000000) by (vm_compute; discriminate).
  assert (H4 : (inject_Z (len three_rows) * 50 <= 1000000)%Q)
    by (vm_compute; discriminate).
  assert (Bf : bounded 50 [10; 20; 31]%Q)
    by (repeat constructor; vm_compute; discriminate).
  assert (Bp : bounded 50 [2; 4; 7]%Q)
    by (repeat constructor; vm_compute; discriminate).
  assert (Bt : bounded 50 [30; 50; 41]%Q)
    by (repeat constructor; vm_compute; discriminate).
  destruct (upload_stores_count_and_means sample_py_str sample_mean_error
              (no_faults 101) _ _ three_rows empty_db
              [10; 20; 31]%Q [2; 4; 7]%Q [30; 50; 41]%Q
              H1 eq_refl three_rows_required eq_refl eq_refl eq_refl H2
              (no_faults_persistence 101))
    as (dataset & db1 & Hcreate & Hrow & Hcount & Lf & Lp & Lt & Af & Ap & At
        & Hclose & Hnew & Heq & Hanswer).
  destruct (Hclose 50%Q H3 H4) as (Cf & Cp & Ct).
  exact (conj H1 (conj three_rows_required (conj eq_refl (conj eq_refl (conj eq_refl
          (conj H2 (conj (no_faults_persistence 101) (conj H3 (conj H4 (conj Bf
            (conj Bp (conj Bt
              (ex_intro _ dataset (ex_intro _ db1
                (conj Hcreate (conj Hrow (conj Hcount (conj Lf (conj Lp (conj Lt
                  (conj Af (conj Ap (conj At (conj (Cf Bf) (conj (Cp Bp)
                    (conj (Ct Bt) (conj Hnew (conj Heq
                      (Hanswer (no_faults_deletions 101)))))))))))))))))))))))))))))).
Defined.

(** The stored mean is not always the arithmetic mean within 1e-9.  In the
    three rows of [cancelling] the Flowrate values are 1e16, 1 and -1e16:
    float64 has no 1e16 + 1, the sum in row order is 0 and the stored mean
    is 0.0, a third off the arithmetic mean 1/3.  In the two rows of
    [overflowing] the sum of the Flowrate values is beyond float64 and the
    stored mean is infinite. *)
Lemma stored_mean_misses_arithmetic_mean :
  (csv_request (post (csv_file "a.csv" cancelling)) (csv_file "a.csv" cancelling)
   ∧ has_required_cols cancelling
   ∧ column_cells cancelling "Flowrate"
     = number <$> [10000000000000000; 1; -10000000000000000]%Q
   ∧ len cancelling = 3
   ∧ persistence_succeeds (no_faults 101)
   ∧ ∃ dataset db1,
       create_dataset sample_py_str sample_mean_error (no_faults 101)
         (post (csv_file "a.csv" cancelling)) (csv_file "a.csv" cancelling)
         cancelling empty_db = (inr dataset, db1)
       ∧ EquipmentDataset.total_count dataset = 3
       ∧ EquipmentDataset.avg_flowrate dataset = Num 0
       ∧ (arithmetic_mean [10000000000000000; 1; -10000000000000000]%Q == 1 # 3)%Q
       ∧ (1 # 1000000000
          < Qabs (0 - arithmetic_mean [10000000000000000; 1; -10000000000000000]%Q))%Q)
  ∧ (csv_request (post (csv_file "a.csv" overflowing)) (csv_file "a.csv" overflowing)
     ∧ has_required_cols overflowing
     ∧ column_cells overflowing "Flowrate" = number <$> [pow2 1023; pow2 1023]
     ∧ len overflowing = 2
     ∧ ∃ dataset db1,
         create_dataset sample_py_str sample_mean_error (no_faults 101)
           (post (csv_file "a.csv" overflowing)) (csv_file "a.csv" overflowing)
           overflowing empty_db = (inr dataset, db1)
         ∧ EquipmentDataset.total_count dataset = 2
         ∧ EquipmentDataset.avg_flowrate dataset = Inf false
         ∧ (arithmetic_mean [pow2 1023; pow2 1023] == pow2 1023)%Q).
Proof.
  split.
  - split; [apply csv_request_post; [discriminate | reflexivity] |].
    split; [intros col Hcol; exact Hcol |].
    split; [reflexivity |]. split; [reflexivity |].
    split; [apply no_faults_persistence |].
    eexists _, _. split; [vm_compute; reflexivity |].
    split; [reflexivity |]. split; [vm_compute; reflexivity |].
    split; [vm_compute; reflexivity |]. vm_compute; reflexivity.
  - split; [apply csv_request_post; [discriminate | reflexivity] |].
    split; [intros col Hcol; exact Hcol |].
    split; [reflexivity |]. split; [reflexivity |].
    eexists _, _. split; [vm_compute; reflexivity |].
    split; [reflexivity |]. split; [vm_compute; reflexivity |].
    vm_compute; reflexivity.
Qed.

(** The sixth upload: its file, the dataset it stores, and the store before
    pruning. *)
Definition sixth_file : UploadedFile := csv_file "f.csv" three_rows.

Definition sixth_dataset : EquipmentDataset.t :=
  new_dataset (undeletable 106) (post sixth_file) sixth_file three_rows five_uploads.

Definition six_stored : DB :=
  stored sample_py_str (undeletable 106) (post sixth_file) sixth_file three_rows
    five_uploads.

Lemma pruning_failure_is_reported_witness :
  csv_request (post sixth_file) sixth_file
  ∧ has_required_cols three_rows
  ∧ create_dataset sample_py_str sample_mean_error (undeletable 106)
      (post sixth_file) sixth_file three_rows five_uploads
    = (inr sixth_dataset, six_stored)
  ∧ keep_last_5 (undeletable 106) six_stored
    = (inl (OtherError "Permission denied"), six_stored)
  ∧ db_wf six_stored
  ∧ sample_upload (undeletable 106) sixth_file five_uploads
    = (inr {| data := JDict [("error",
                              JStr "Error processing CSV: Permission denied")];
              status := HTTP_400_BAD_REQUEST |}, six_stored)
  ∧ datasets six_stored !! 6 = Some sixth_dataset
  ∧ length (equipments_of six_stored 6) = 3%nat.
Proof.
  assert (H1 : csv_request (post sixth_file) sixth_file)
    by (apply csv_request_post; [discriminate | reflexivity]).
  assert (H2 : create_dataset sample_py_str sample_mean_error (undeletable 106)
                 (post sixth_file) sixth_file three_rows five_uploads
               = (inr sixth_dataset, six_stored)) by (vm_compute; reflexivity).
  assert (H3 : keep_last_5 (undeletable 106) six_stored
               = (inl (OtherError "Permission denied"), six_stored))
    by (vm_compute; reflexivity).
  assert (H4 : db_wf six_stored)
    by (apply wf_of_objects_all; vm_compute; reflexivity).
  assert (H5 : datasets six_stored !! EquipmentDataset.id sixth_dataset
               = Some sixth_dataset) by (vm_compute; reflexivity).
  assert (H6 : ∀ d, d ∈ objects_all six_stored → d ≠ sixth_dataset →
                 EquipmentDataset.uploaded_at d
                 < EquipmentDataset.uploaded_at sixth_dataset).
  { intros d Hd Hne.
    assert (Hids : Forall (λ x, x = sixth_dataset
                               ∨ EquipmentDataset.uploaded_at x < 106)
                     (objects_all six_stored)).
    { vm_compute. repeat constructor; first [by left | by right]. }
    rewrite Forall_forall in Hids. destruct (Hids d Hd) as [Heq | Hlt].
    - destruct (Hne Heq).
    - exact Hlt. }
  destruct (pruning_failure_is_reported sample_py_str sample_mean_error
              (undeletable 106) _ _ three_rows five_uploads _ _ _ _
              H1 eq_refl three_rows_required H2 H3) as [Hresp Hkept].
  destruct (Hkept H4 H5 H6) as [Hrow _].
  assert (H7 : length (equipments_of six_stored 6) = 3%nat)
    by (vm_compute; reflexivity).
  exact (conj H1 (conj three_rows_required (conj H2 (conj H3 (conj H4
          (conj Hresp (conj Hrow H7))))))).
Defined.

(** The sixth upload when nothing fails, and the store it leaves. *)
Definition six_uploads : DB :=
  (sample_upload (no_faults 106) sixth_file five_uploads).2.

Definition first_dataset : EquipmentDataset.t :=
  new_dataset (no_faults 101) (post (csv_file "a.csv" three_rows))
    (csv_file "a.csv" three_rows) three_rows empty_db.

(** The answer to the [n]-th of the six uploads. *)
Definition answer (n : nat) : Response :=
  let outcome :=
    match n with
    | 1%nat => sample_upload (no_faults 101) (csv_file "a.csv" three_rows) empty_db
    | 2%nat => sample_upload (no_faults 102) (csv_file "b.csv" three_rows) one_upload
    | 3%nat => sample_upload (no_faults 103) (csv_file "c.csv" three_rows) two_uploads
    | 4%nat => sample_upload (no_faults 104) (csv_file "d.csv" three_rows) three_uploads
    | 5%nat => sample_upload (no_faults 105) (csv_file "e.csv" three_rows) four_uploads
    | _ => sample_upload (no_faults 106) sixth_file five_uploads
    end in
  match outcome.1 with
  | inr resp => resp
  | inl e => processing_error e
  end.

Lemma upload_keeps_newest_five_witness :
  db_wf five_uploads
  ∧ sample_upload (no_faults 106) sixth_file five_uploads
    = (inr (created six_uploads
              (new_dataset (no_faults 106) (post sixth_file) sixth_file three_rows
                 five_uploads)),
       six_uploads)
  ∧ (size (datasets six_uploads) ≤ 5)%nat
  ∧ StronglySorted EquipmentDataset.ordering (objects_all six_uploads)
  ∧ EquipmentDataset.id <$> objects_all six_uploads = [6; 5; 4; 3; 2]
  ∧ EquipmentDataset.uploaded_at <$> objects_all six_uploads
    = [106; 105; 104; 103; 102]
  ∧ EquipmentDataset.file first_dataset = Some "datasets/a.csv"
  ∧ "datasets/a.csv" ∈ storage one_upload
  ∧ ("datasets/a.csv" ∉ storage six_uploads)
  ∧ trace six_uploads
    = trace five_uploads
      ++ [FileSaved "datasets/f.csv"; RowInserted 6; RecordsInserted 6 3;
          FileDeleted "datasets/a.csv"; RowDeleted 1]
  ∧ sample_upload (no_faults 101) (csv_file "a.csv" three_rows) empty_db
    = (inr (answer 1), one_upload)
  ∧ sample_upload (no_faults 102) (csv_file "b.csv" three_rows) one_upload
    = (inr (answer 2), two_uploads)
  ∧ sample_upload (no_faults 103) (csv_file "c.csv" three_rows) two_uploads
    = (inr (answer 3), three_uploads)
  ∧ sample_upload (no_faults 104) (csv_file "d.csv" three_rows) three_uploads
    = (inr (answer 4), four_uploads)
  ∧ sample_upload (no_faults 105) (csv_file "e.csv" three_rows) four_uploads
    = (inr (answer 5), five_uploads)
  ∧ sample_upload (no_faults 106) sixth_file five_uploads
    = (inr (answer 6), six_uploads)
  ∧ Forall (λ r, status r = HTTP_201_CREATED) (answer <$> [1; 2; 3; 4; 5; 6]%nat)
  ∧ ∃ d1 d2 d3 d4 d5 d6 path1,
      [answer 1; answer 2; answer 3; answer 4; answer 5; answer 6]
      = [created one_upload d1; created two_uploads d2; created three_uploads d3;
         created four_uploads d4; created five_uploads d5; created six_uploads d6]
      ∧ EquipmentDataset.uploaded_at <$> [d1; d2; d3; d4; d5; d6]
        = now <$> [no_faults 101; no_faults 102; no_faults 103; no_faults 104;
                   no_faults 105; no_faults 106]
      ∧ EquipmentDataset.file d1 = Some path1
      ∧ path1 ∈ storage one_upload
      ∧ (path1 ∉ storage six_uploads)
      ∧ objects_all six_uploads = [d6; d5; d4; d3; d2]
      ∧ history six_uploads
        = (inr {| data := JList (DatasetSummarySerializer six_uploads
                                   <$> [d6; d5; d4; d3; d2]);
                  status := HTTP_200_OK |}, six_uploads).
Proof.
  assert (U1 : sample_upload (no_faults 101) (csv_file "a.csv" three_rows) empty_db
               = (inr (answer 1), one_upload)) by (vm_compute; reflexivity).
  assert (U2 : sample_upload (no_faults 102) (csv_file "b.csv" three_rows) one_upload
               = (inr (answer 2), two_uploads)) by (vm_compute; reflexivity).
  assert (U3 : sample_upload (no_faults 103) (csv_file "c.csv" three_rows) two_uploads
               = (inr (answer 3), three_uploads)) by (vm_compute; reflexivity).
  assert (U4 : sample_upload (no_faults 104) (csv_file "d.csv" three_rows)
                 three_uploads
               = (inr (answer 4), four_uploads)) by (vm_compute; reflexivity).
  assert (U5 : sample_upload (no_faults 105) (csv_file "e.csv" three_rows)
                 four_uploads
               = (inr (answer 5), five_uploads)) by (vm_compute; reflexivity).
  assert (U6 : sample_upload (no_faults 106) sixth_file five_uploads
               = (inr (answer 6), six_uploads)) by (vm_compute; reflexivity).
  assert (Hst : Forall (λ r, status r = HTTP_201_CREATED)
                  (answer <$> [1; 2; 3; 4; 5; 6]%nat))
    by (repeat constructor).
  assert (Ht : now (no_faults 101) < now (no_faults 102) < now (no_faults 103)
               ∧ now (no_faults 103) < now (no_faults 104) < now (no_faults 105)
               ∧ now (no_faults 105) < now (no_faults 106)) by (simpl; lia).
  assert (H1 : sample_upload (no_faults 106) sixth_file five_uploads
    = (inr (created six_uploads
              (new_dataset (no_faults 106) (post sixth_file) sixth_file three_rows
                 five_uploads)),
       six_uploads)) by (vm_compute; reflexivity).
  destruct (upload_keeps_newest_five sample_py_str sample_mean_error) as [Hone Hsix].
  destruct (Hone (no_faults 106) (post sixth_file) five_uploads _ _
              five_uploads_wf H1 eq_refl)
    as (file & df & dataset & db1 & _ & _ & _ & Hsize & _ & _ & _ & _ & _
        & Hsorted & _).
  assert (H2 : EquipmentDataset.id <$> objects_all six_uploads = [6; 5; 4; 3; 2])
    by (vm_compute; reflexivity).
  assert (H3 : EquipmentDataset.uploaded_at <$> objects_all six_uploads
               = [106; 105; 104; 103; 102]) by (vm_compute; reflexivity).
  assert (H4 : "datasets/a.csv" ∈ storage one_upload) by by_compute.
  assert (H5 : "datasets/a.csv" ∉ storage six_uploads) by by_compute.
  assert (H6 : trace six_uploads
    = trace five_uploads
      ++ [FileSaved "datasets/f.csv"; RowInserted 6; RecordsInserted 6 3;
          FileDeleted "datasets/a.csv"; RowDeleted 1]) by (vm_compute; reflexivity).
  pose proof (Hsix _ _ _ _ _ _ _ _ _ _ _ _ _ _ _ _ _ _ _ _ _ _ _ _
                U1 U2 U3 U4 U5 U6 Hst Ht) as Hall.
  exact (conj five_uploads_wf (conj H1 (conj Hsize (conj Hsorted (conj H2 (conj H3
          (conj eq_refl (conj H4 (conj H5 (conj H6 (conj U1 (conj U2 (conj U3
            (conj U4 (conj U5 (conj U6 (conj Hst Hall))))))))))))))))).
Defined.

(** The dataset the header-only upload stores, and the store it leaves. *)
Definition empty_dataset : EquipmentDataset.t :=
  new_dataset (no_faults 100) (post (csv_file "data.csv" header_only))
    (csv_file "data.csv" header_only) header_only empty_db.

Definition header_only_stored : DB :=
  (sample_upload (no_faults 100) (csv_file "data.csv" header_only) empty_db).2.

Lemma report_of_empty_dataset_witness :
  datasets header_only_stored !! 1 = Some empty_dataset
  ∧ equipments_of header_only_stored (EquipmentDataset.id empty_dataset) = []
  ∧ generate_pdf sample_strftime 1 header_only_stored
    = (inr {| document := empty_report sample_strftime empty_dataset;
              as_attachment := true;
              attachment_name := "equipment_report_1.pdf" |}, header_only_stored)
  ∧ [DrawString 72 684 "Dataset: data.csv";
     DrawString 72 (2916 # 5) "Total Equipment Count: 0";
     DrawString 72 (2826 # 5) "Average Flowrate: nan"]
    ⊆ empty_report sample_strftime empty_dataset.
Proof.
  assert (H1 : datasets header_only_stored !! 1 = Some empty_dataset)
    by (vm_compute; reflexivity).
  assert (H2 : equipments_of header_only_stored (EquipmentDataset.id empty_dataset)
               = []) by (vm_compute; reflexivity).
  destruct (report_of_empty_dataset sample_strftime 1 header_only_stored
              empty_dataset H1 H2) as [Hreport _].
  assert (H3 : [DrawString 72 684 "Dataset: data.csv";
                DrawString 72 (2916 # 5) "Total Equipment Count: 0";
                DrawString 72 (2826 # 5) "Average Flowrate: nan"]
               ⊆ empty_report sample_strftime empty_dataset).
  { intros op Hop. vm_compute.
    repeat (apply elem_of_cons in Hop as [-> | Hop]);
      [ do 3 apply list_elem_of_further; apply list_elem_of_here
      | do 9 apply list_elem_of_further; apply list_elem_of_here
      | do 10 apply list_elem_of_further; apply list_elem_of_here
      | inversion Hop ]. }
  exact (conj H1 (conj H2 (conj Hreport H3))).
Defined.

Lemma summary_rounds_averages_witness :
  datasets one_upload !! 1 = Some first_dataset
  ∧ EquipmentDataset.avg_flowrate first_dataset = to_float64 (61 # 3)
  ∧ (∃ resp, summary 1 one_upload = (inr resp, one_upload)
       ∧ jget "averages" (data resp)
         = Some (JDict [("flowrate", JFloat (Num (2033 # 100)));
                        ("pressure", JFloat (Num (433 # 100)));
                        ("temperature", JFloat (Num (4033 # 100)))]))
  ∧ shown_averages (DatasetDetailSerializer one_upload first_dataset)
    = [Some (JFloat (to_float64 (61 # 3))); Some (JFloat (to_float64 (13 # 3)));
       Some (JFloat (to_float64 (121 # 3)))]
  ∧ shown_averages (DatasetSummarySerializer one_upload first_dataset)
    = [Some (JFloat (to_float64 (61 # 3))); Some (JFloat (to_float64 (13 # 3)));
       Some (JFloat (to_float64 (121 # 3)))].
Proof.
  assert (H1 : datasets one_upload !! 1 = Some first_dataset)
    by (vm_compute; reflexivity).
  destruct (summary_rounds_averages one_upload 1 first_dataset H1)
    as (Hsummary & _ & _ & _ & Hdetail & _ & _ & _ & Hlist).
  exact (conj H1 (conj eq_refl (conj Hsummary (conj Hdetail Hlist)))).
Defined.

(** ** Further concrete runs *)

(** Surroundings in which one operation fails. *)
Definition storage_refuses (t : Z) : Env :=
  {| now := t; storage_save_error := Some "No space left on device";
     insert_error := None; bulk_create_error := None;
     storage_delete_error := λ _, None; row_delete_error := λ _, None; summation := λ _, InOrder |}.

Definition insert_refused (t : Z) : Env :=
  {| now := t; storage_save_error := None;
     insert_error := Some "database is locked"; bulk_create_error := None;
     storage_delete_error := λ _, None; row_delete_error := λ _, None; summation := λ _, InOrder |}.

Definition bulk_refused (t : Z) : Env :=
  {| now := t; storage_save_error := None; insert_error := None;
     bulk_create_error := Some "database is locked";
     storage_delete_error := λ _, None; row_delete_error := λ _, None; summation := λ _, InOrder |}.

Definition row_undeletable (t : Z) : Env :=
  {| now := t; storage_save_error := None; insert_error := None;
     bulk_create_error := None; storage_delete_error := λ _, None;
     row_delete_error := λ _, Some "database is locked";
     summation := λ _, InOrder |}.

Definition no_file_request : Request := {| user := alice; FILES := None |}.

Definition first_file : UploadedFile := csv_file "a.csv" three_rows.

Lemma three_rows_numeric : numeric_frame three_rows.
Proof.
  intros col Hcol. unfold numeric_cols in Hcol. rewrite !elem_of_cons in Hcol.
  destruct Hcol as [-> | [-> | [-> | Hnil]]];
    [reflexivity | reflexivity | reflexivity | inversion Hnil].
Defined.

Lemma first_file_request : csv_request (post first_file) first_file.
Proof. apply csv_request_post; [discriminate | reflexivity]. Defined.

(** Checking the invariants of a concrete store by running through it. *)
Lemma store_sound_check db :
  map_Forall (λ k d, EquipmentDataset.id d = k ∧ k < next_dataset_id db) (datasets db) →
  Forall (λ e, is_Some (datasets db !! Equipment.dataset e)) (equipments db) →
  store_sound db.
Proof.
  intros Hrows Hrefs. split; [| split].
  - intros k d Hk. by destruct (Hrows k d Hk).
  - intros k [d Hk]. by destruct (Hrows k d Hk).
  - intros e He. rewrite Forall_forall in Hrefs. by apply Hrefs.
Qed.

Lemma counts_agree_check db :
  map_Forall (λ k d, EquipmentDataset.total_count d
                     = Z.of_nat (length (equipments_of db k))) (datasets db) →
  counts_agree db.
Proof. intros H k d Hk. by apply (H k d). Qed.

Lemma one_upload_sound : store_sound one_upload.
Proof. apply store_sound_check; by_compute. Qed.

Lemma one_upload_counts : counts_agree one_upload.
Proof. apply counts_agree_check; by_compute. Qed.

Lemma six_stored_sound : store_sound six_stored.
Proof. apply store_sound_check; by_compute. Qed.

Lemma upload_fixed_messages_witness :
  upload sample_py_str sample_mean_error (no_faults 100) no_file_request empty_db
  = (inr (bad_request "No file provided"), empty_db)
  ∧ (error_text (bad_request "No file provided") = Some "No file provided"
     ↔ no_file no_file_request)
  ∧ (error_text (bad_request "No file provided") = Some "Only CSV files are allowed"
     ↔ not_csv no_file_request)
  ∧ (error_text (bad_request "No file provided") = Some "CSV file is empty"
     ↔ no_columns no_file_request).
Proof.
  assert (H : upload sample_py_str sample_mean_error (no_faults 100)
                no_file_request empty_db
              = (inr (bad_request "No file provided"), empty_db)) by reflexivity.
  exact (conj H (upload_fixed_messages sample_py_str sample_mean_error
                   (no_faults 100) no_file_request empty_db _ _ H)).
Defined.

Lemma upload_accepts_exactly_witness :
  persistence_succeeds (no_faults 101)
  ∧ deletions_succeed (no_faults 101)
  ∧ sample_upload (no_faults 101) first_file empty_db
    = (inr (created one_upload first_dataset), one_upload)
  ∧ (status (created one_upload first_dataset) = HTTP_201_CREATED
     ↔ acceptable (post first_file))
  ∧ (status (created one_upload first_dataset) = HTTP_400_BAD_REQUEST →
     one_upload = empty_db).
Proof.
  assert (H : sample_upload (no_faults 101) first_file empty_db
              = (inr (created one_upload first_dataset), one_upload))
    by (vm_compute; reflexivity).
  exact (conj (no_faults_persistence 101) (conj (no_faults_deletions 101) (conj H
          (upload_accepts_exactly sample_py_str sample_mean_error (no_faults 101)
             (post first_file) empty_db _ _
             (no_faults_persistence 101) (no_faults_deletions 101) H)))).
Defined.

Lemma insert_failure_leaves_file_witness :
  csv_request (post first_file) first_file
  ∧ has_required_cols three_rows ∧ numeric_frame three_rows
  ∧ ∃ db',
      upload sample_py_str sample_mean_error (insert_refused 101) (post first_file)
        empty_db
      = (inr (bad_request "Error processing CSV: database is locked"), db')
      ∧ storage db' = {[ "datasets/a.csv" ]} ∪ ∅
      ∧ datasets db' = ∅
      ∧ equipments db' = []
      ∧ trace db' = [FileSaved "datasets/a.csv"].
Proof.
  exact (conj first_file_request (conj three_rows_required (conj three_rows_numeric
          (insert_failure_leaves_file sample_py_str sample_mean_error
             (insert_refused 101) (post first_file) first_file three_rows empty_db
             "database is locked" first_file_request eq_refl three_rows_required
             three_rows_numeric eq_refl eq_refl)))).
Defined.

Lemma bulk_create_failure_leaves_dataset_witness :
  csv_request (post first_file) first_file
  ∧ has_required_cols three_rows ∧ numeric_frame three_rows
  ∧ ∃ db',
      upload sample_py_str sample_mean_error (bulk_refused 101) (post first_file)
        empty_db
      = (inr (bad_request "Error processing CSV: database is locked"), db')
      ∧ datasets db'
        = <[1 := new_dataset (bulk_refused 101) (post first_file) first_file
                   three_rows empty_db]> ∅
      ∧ EquipmentDataset.total_count
          (new_dataset (bulk_refused 101) (post first_file) first_file three_rows
             empty_db) = 3
      ∧ equipments db' = []
      ∧ "datasets/a.csv" ∈ storage db'
      ∧ trace db' = [FileSaved "datasets/a.csv"; RowInserted 1].
Proof.
  exact (conj first_file_request (conj three_rows_required (conj three_rows_numeric
          (bulk_create_failure_leaves_dataset sample_py_str sample_mean_error
             (bulk_refused 101) (post first_file) first_file three_rows empty_db
             "database is locked" first_file_request eq_refl three_rows_required
             three_rows_numeric eq_refl eq_refl eq_refl)))).
Defined.

Lemma upload_keeps_store_sound_witness :
  store_sound five_uploads
  ∧ sample_upload (row_undeletable 106) sixth_file five_uploads
    = (inr (bad_request "Error processing CSV: database is locked"),
       (sample_upload (row_undeletable 106) sixth_file five_uploads).2)
  ∧ store_sound (sample_upload (row_undeletable 106) sixth_file five_uploads).2.
Proof.
  assert (H0 : store_sound five_uploads) by (apply store_sound_check; by_compute).
  assert (H : sample_upload (row_undeletable 106) sixth_file five_uploads
              = (inr (bad_request "Error processing CSV: database is locked"),
                 (sample_upload (row_undeletable 106) sixth_file five_uploads).2))
    by (vm_compute; reflexivity).
  exact (conj H0 (conj H
          (upload_keeps_store_sound sample_py_str sample_mean_error
             (row_undeletable 106) (post sixth_file) five_uploads _ _ H0 H))).
Defined.

Lemma upload_keeps_counts_witness :
  persistence_succeeds (row_undeletable 106)
  ∧ store_sound five_uploads ∧ counts_agree five_uploads
  ∧ sample_upload (row_undeletable 106) sixth_file five_uploads
    = (inr (bad_request "Error processing CSV: database is locked"),
       (sample_upload (row_undeletable 106) sixth_file five_uploads).2)
  ∧ counts_agree (sample_upload (row_undeletable 106) sixth_file five_uploads).2.
Proof.
  assert (Hp : persistence_succeeds (row_undeletable 106)) by done.
  assert (H0 : store_sound five_uploads) by (apply store_sound_check; by_compute).
  assert (H1 : counts_agree five_uploads) by (apply counts_agree_check; by_compute).
  assert (H : sample_upload (row_undeletable 106) sixth_file five_uploads
              = (inr (bad_request "Error processing CSV: database is locked"),
                 (sample_upload (row_undeletable 106) sixth_file five_uploads).2))
    by (vm_compute; reflexivity).
  exact (conj Hp (conj H0 (conj H1 (conj H
          (upload_keeps_counts sample_py_str sample_mean_error
             (row_undeletable 106) (post sixth_file) five_uploads _ _ Hp H0 H1 H))))).
Defined.

Lemma serializers_count_rows_witness :
  db_wf one_upload ∧ counts_agree one_upload ∧ first_dataset ∈ objects_all one_upload
  ∧ jget "equipment_count" (DatasetSummarySerializer one_upload first_dataset)
    = jget "total_count" (DatasetSummarySerializer one_upload first_dataset)
  ∧ ∃ l, jget "equipments" (DatasetDetailSerializer one_upload first_dataset)
         = Some (JList l)
         ∧ Z.of_nat (length l) = EquipmentDataset.total_count first_dataset.
Proof.
  assert (Hwf : db_wf one_upload) by apply one_upload_sound.
  assert (Hin : first_dataset ∈ objects_all one_upload) by (vm_compute; left).
  exact (conj Hwf (conj one_upload_counts (conj Hin
          (serializers_count_rows one_upload first_dataset Hwf one_upload_counts
             Hin)))).
Defined.

Lemma failed_row_delete_clears_file_witness :
  drop 5 (objects_all six_stored) = [first_dataset]
  ∧ EquipmentDataset.file first_dataset = Some "datasets/a.csv"
  ∧ ∃ db',
      keep_last_5 (row_undeletable 106) six_stored
      = (inl (OtherError "database is locked"), db')
      ∧ datasets db' !! 1 = Some (EquipmentDataset.with_file first_dataset None)
      ∧ ("datasets/a.csv" ∉ storage db')
      ∧ equipments db' = equipments six_stored
      ∧ trace db' = trace six_stored ++ [FileDeleted "datasets/a.csv"]
      ∧ ∀ k, k ≠ 1 → datasets db' !! k = datasets six_stored !! k.
Proof.
  assert (H : drop 5 (objects_all six_stored) = [first_dataset])
    by (vm_compute; reflexivity).
  exact (conj H (conj eq_refl
          (failed_row_delete_clears_file (row_undeletable 106) six_stored
             first_dataset [] "datasets/a.csv" "database is locked"
             H eq_refl eq_refl eq_refl))).
Defined.

Lemma keep_last_5_cascades_witness :
  store_sound six_stored
  ∧ keep_last_5 (no_faults 106) six_stored = (inr (), six_uploads)
  ∧ equipments six_uploads
    = filter (λ e, Equipment.dataset e
                   ∈ EquipmentDataset.id <$> take 5 (objects_all six_stored))
        (equipments six_stored)
  ∧ (∀ dropped, dropped ∈ drop 5 (objects_all six_stored) →
       equipments_of six_uploads (EquipmentDataset.id dropped) = [])
  ∧ (∀ kept, kept ∈ take 5 (objects_all six_stored) →
       equipments_of six_uploads (EquipmentDataset.id kept)
       = equipments_of six_stored (EquipmentDataset.id kept)).
Proof.
  assert (H : keep_last_5 (no_faults 106) six_stored = (inr (), six_uploads))
    by (vm_compute; reflexivity).
  exact (conj six_stored_sound (conj H
          (keep_last_5_cascades (no_faults 106) six_stored six_uploads
             six_stored_sound H))).
Defined.

(** An upload whose clock reading lies before every stored dataset. *)
Definition late_file : UploadedFile := csv_file "z.csv" three_rows.

Definition late_dataset : EquipmentDataset.t :=
  new_dataset (no_faults 50) (post late_file) late_file three_rows five_uploads.

Definition after_late_upload : DB :=
  (sample_upload (no_faults 50) late_file five_uploads).2.

Lemma upload_into_the_past_witness :
  db_wf five_uploads ∧ keys_below five_uploads
  ∧ NoDup (objects_all five_uploads)
  ∧ length (objects_all five_uploads) = 5%nat
  ∧ Forall (λ d, 50 < EquipmentDataset.uploaded_at d) (objects_all five_uploads)
  ∧ sample_upload (no_faults 50) late_file five_uploads
    = (inr (created after_late_upload late_dataset),
       after_late_upload)
  ∧ ∃ dataset path,
      created after_late_upload late_dataset
      = created after_late_upload dataset
      ∧ EquipmentDataset.id dataset = 6
      ∧ datasets after_late_upload
          !! EquipmentDataset.id dataset = None
      ∧ EquipmentDataset.file dataset = Some path
      ∧ (path ∉ storage after_late_upload)
      ∧ jget "equipments" (data (created after_late_upload late_dataset))
        = Some (JList []).
Proof.
  assert (H0 : store_sound five_uploads) by (apply store_sound_check; by_compute).
  destruct H0 as (Hwf & Hkeys & _).
  assert (Hnd : NoDup (objects_all five_uploads)).
  { apply (NoDup_fmap_1 EquipmentDataset.id). by apply NoDup_objects_all_ids. }
  assert (Hlen : length (objects_all five_uploads) = 5%nat)
    by (vm_compute; reflexivity).
  assert (Hnewer : Forall (λ d, 50 < EquipmentDataset.uploaded_at d)
                     (objects_all five_uploads))
    by (vm_compute; repeat constructor).
  assert (H : sample_upload (no_faults 50) late_file five_uploads
              = (inr (created after_late_upload late_dataset),
                 after_late_upload))
    by (vm_compute; reflexivity).
  exact (conj Hwf (conj Hkeys (conj Hnd (conj Hlen (conj Hnewer (conj H
          (upload_into_the_past sample_py_str sample_mean_error (no_faults 50)
             (post late_file) five_uploads _ _ (objects_all five_uploads)
             Hwf Hkeys Hnd Hlen
             (λ d Hd, conj Hd (proj1 (Forall_forall _ _) Hnewer d Hd))
             H eq_refl))))))).
Defined.

Lemma summary_adds_up_witness :
  db_wf one_upload ∧ counts_agree one_upload
  ∧ datasets one_upload !! 1 = Some first_dataset
  ∧ ∃ resp dist rows,
      summary 1 one_upload = (inr resp, one_upload)
      ∧ jget "total_count" (data resp) = Some (JInt 3)
      ∧ jget "type_distribution" (data resp) = Some (JCounts dist)
      ∧ counts_total dist = 3
      ∧ jget "equipments" (data resp) = Some (JList rows)
      ∧ rows = EquipmentSerializer <$> equipments_of one_upload 1
      ∧ Z.of_nat (length rows) = 3.
Proof.
  assert (Hwf : db_wf one_upload) by apply one_upload_sound.
  assert (H : datasets one_upload !! 1 = Some first_dataset)
    by (vm_compute; reflexivity).
  exact (conj Hwf (conj one_upload_counts (conj H
          (summary_adds_up one_upload 1 first_dataset Hwf one_upload_counts H)))).
Defined.

(** Twenty-eight equipment rows, each of a type of its own. *)
Definition many_types : list Equipment.t :=
  (λ n, {| Equipment.id := Z.of_nat n; Equipment.dataset := 1;
           Equipment.name := "E" +:+ pretty n; Equipment.type := "T" +:+ pretty n;
           Equipment.flowrate := Num 1; Equipment.pressure := Num 2;
           Equipment.temperature := Num 3 |}) <$> seq 10 28.

Lemma type_lines_run_off_the_page_witness :
  sorted_items (type_distribution many_types) !! 27%nat = Some ("T37", 1)
  ∧ ∃ first_page after y,
      draw_report sample_strftime first_dataset many_types = first_page ++ after
      ∧ (ShowPage ∉ first_page)
      ∧ DrawString (inches (12 # 10)) y (type_line_text ("T37", 1)) ∈ first_page
      ∧ (y == (2358 # 5) - 18 * inject_Z (Z.of_nat 27))%Q
      ∧ ((27 ≤ 27)%nat → (y < 0)%Q).
Proof.
  assert (H : sorted_items (type_distribution many_types) !! 27%nat
              = Some ("T37", 1)) by (vm_compute; reflexivity).
  exact (conj H (type_lines_run_off_the_page sample_strftime first_dataset
                   many_types 27 ("T37", 1) H)).
Defined.

Lemma uploaded_rows_come_back_witness :
  store_sound one_upload
  ∧ csv_request (post first_file) first_file
  ∧ has_required_cols three_rows ∧ numeric_frame three_rows
  ∧ persistence_succeeds (no_faults 102) ∧ deletions_succeed (no_faults 102)
  ∧ Forall (λ d, EquipmentDataset.uploaded_at d < 102) (objects_all one_upload)
  ∧ ∃ resp db' shown,
      upload sample_py_str sample_mean_error (no_faults 102) (post first_file)
        one_upload = (inr resp, db')
      ∧ status resp = HTTP_201_CREATED
      ∧ jget "id" (data resp) = Some (JInt 2)
      ∧ summary 2 db' = (inr shown, db')
      ∧ status shown = HTTP_200_OK
      ∧ jget "total_count" (data shown) = Some (JInt 3)
      ∧ jget "equipments" (data shown)
        = Some (JList (EquipmentSerializer
                         <$> assign_ids 4
                               (row_equipment sample_py_str three_rows 2
                                  <$> rows three_rows)))
      ∧ jget "equipments" (data resp) = jget "equipments" (data shown)
      ∧ jget "type_distribution" (data shown)
        = Some (JCounts (type_distribution
                           (row_equipment sample_py_str three_rows 2
                              <$> rows three_rows))).
Proof.
  assert (Hearlier : Forall (λ d, EquipmentDataset.uploaded_at d < 102)
                       (objects_all one_upload))
    by (vm_compute; repeat constructor).
  exact (conj one_upload_sound (conj first_file_request (conj three_rows_required
          (conj three_rows_numeric (conj (no_faults_persistence 102)
            (conj (no_faults_deletions 102) (conj Hearlier
              (uploaded_rows_come_back sample_py_str sample_mean_error
                 (no_faults 102) (post first_file) first_file three_rows one_upload
                 one_upload_sound first_file_request eq_refl three_rows_required
                 three_rows_numeric (no_faults_persistence 102)
                 (no_faults_deletions 102)
                 (proj1 (Forall_forall _ _) Hearlier))))))))).
Defined.

(** The rows of the first upload, and the same rows with the valve first. *)
Definition pump_valve_pump : list Equipment.t := equipments one_upload.

Definition valve_pump_pump : list Equipment.t :=
  drop 1 pump_valve_pump ++ take 1 pump_valve_pump.

Lemma type_distribution_order_free_witness :
  Equipment.type <$> pump_valve_pump = ["Pump"; "Valve"; "Pump"]
  ∧ Equipment.type <$> valve_pump_pump = ["Valve"; "Pump"; "Pump"]
  ∧ type_distribution pump_valve_pump = type_distribution valve_pump_pump
  ∧ sorted_items (type_distribution pump_valve_pump)
    = sorted_items (type_distribution valve_pump_pump).
Proof.
  assert (H1 : Equipment.type <$> pump_valve_pump = ["Pump"; "Valve"; "Pump"])
    by (vm_compute; reflexivity).
  assert (H2 : Equipment.type <$> valve_pump_pump = ["Valve"; "Pump"; "Pump"])
    by (vm_compute; reflexivity).
  assert (Hperm : Equipment.type <$> pump_valve_pump
                  ≡ₚ Equipment.type <$> valve_pump_pump).
  { rewrite H1, H2. apply perm_swap. }
  exact (conj H1 (conj H2
          (type_distribution_order_free pump_valve_pump valve_pump_pump Hperm))).
Defined.

Lemma storage_failure_changes_nothing_witness :
  storage_save_error (storage_refuses 106) = Some "No space left on device"
  ∧ acceptable (post sixth_file)
  ∧ ∃ resp,
      upload sample_py_str sample_mean_error (storage_refuses 106) (post sixth_file)
        five_uploads = (inr resp, five_uploads)
      ∧ status resp = HTTP_400_BAD_REQUEST
      ∧ (acceptable (post sixth_file) →
         resp = bad_request "Error processing CSV: No space left on device").
Proof.
  assert (Hreq : csv_request (post sixth_file) sixth_file)
    by (apply csv_request_post; [discriminate | reflexivity]).
  assert (Hok : acceptable (post sixth_file)).
  { exists sixth_file, three_rows.
    exact (conj Hreq (conj eq_refl (conj three_rows_required three_rows_numeric))). }
  exact (conj eq_refl (conj Hok
          (storage_failure_changes_nothing sample_py_str sample_mean_error
             (storage_refuses 106) (post sixth_file) five_uploads
             "No space left on device" eq_refl))).
Defined.
